(** * Smart search of the rental storefront

    A shallow embedding of [rental/services.py] (class [SmartSearchService])
    and of the two views of [rental/views.py] that drive it
    ([product_list], [smart_search_status]), with the properties the
    specification states about them.

    Python values are modelled as follows.
    - [str] is a list of Unicode code points, so that [len] counts what
      Python counts.  The Unicode tables ([str.isspace], [str.lower]),
      [int(...)], [json.loads] and the database's [icontains] collation
      belong to the platform, not to the repository: they are the fields
      of the record [runtime], and every definition is parametrised by it.
    - Exceptions are the constructors of [exn]; a computation that touches
      the database, the LLM endpoint, the log or the message framework is a
      function from a fault plan of the database to a [run]: an outcome
      (exception or value), the rest of the plan, and the events emitted. *)

From Stdlib Require Import ZArith List Bool String Ascii Lia.
From Stdlib Require Import Floats.SpecFloat DecimalString.
From stdpp Require Import base option list gmap.
Import ListNotations.

Local Open Scope Z_scope.
Local Set Warnings "-register-all".

(* ------------------------------------------------------------------ *)
(** ** Python strings *)

Definition codepoint := N.
Definition str := list codepoint.

(** A Python literal written in ASCII. *)
Definition u (s : string) : str := map N_of_ascii (list_ascii_of_string s).

(** The JSON values [json.loads] builds: [None], [bool], [int], [float],
    [str], [list] and [dict] (items in insertion order, keys distinct). *)
Inductive json :=
| JNull
| JBool (b : bool)
| JInt (n : Z)
| JFloat (f : spec_float)
| JStr (s : str)
| JArr (items : list json)
| JObj (items : list (str * json)).

(** What the platform supplies. *)
Record runtime := {
  py_isspace : codepoint -> bool;          (* str.isspace on one character *)
  py_lower : str -> str;                   (* str.lower *)
  py_int : str -> option Z;                (* int(s); None is ValueError *)
  json_loads : str -> option json;         (* json.loads; None is JSONDecodeError *)
  icontains : str -> str -> bool           (* column value, pattern *)
}.

Section Strings.
Variable rt : runtime.

Fixpoint lstrip (s : str) : str :=
  match s with
  | c :: s' => if py_isspace rt c then lstrip s' else s
  | [] => []
  end.

(** [s.strip()] *)
Definition py_strip (s : str) : str := rev (lstrip (rev (lstrip s))).

(** [s.split()]: maximal runs of non-space characters; [cur] is the run
    being read, most recent character first. *)
Fixpoint split_from (cur : str) (s : str) : list str :=
  match s with
  | [] => match cur with [] => [] | _ => [rev cur] end
  | c :: s' =>
      if py_isspace rt c
      then match cur with
           | [] => split_from [] s'
           | _ => rev cur :: split_from [] s'
           end
      else split_from (c :: cur) s'
  end.

Definition py_split (s : str) : list str := split_from [] s.
End Strings.

(** Truth value of a string: [bool(s)]. *)
Definition str_truthy (s : str) : bool :=
  match s with [] => false | _ => true end.

(* ------------------------------------------------------------------ *)
(** ** Catalog records *)

(** Modelled from the spec: class [Product] of [rental/models.py], a file
    that is missing here.  A product has an identity, the three text
    columns the search reads (any of which may be NULL), a creation time
    and a set of tags. *)
Record Product := {
  product_id : Z;
  product_name : option str;
  product_description : option str;
  product_article : option str;
  product_created_at : Z;
  product_tags : list Z
}.

(** Modelled from the spec: class [Tag] of [rental/models.py], missing
    here as well.  A tag is a node of a forest; its primary key is Django's
    default, an integer (the view orders tags by [id] to sort them by
    creation date). *)
Record Tag := {
  tag_id : Z;
  tag_parent : option Z;
  tag_order : Z;
  tag_name : str
}.

(** ** Django [Q] objects over the text columns of [Product] *)

Inductive column := Name | Description | Article.

Inductive Qobj :=
| Q_empty                                   (* Q() *)
| Q_icontains (c : column) (pattern : str)  (* Q(<c>__icontains=pattern) *)
| Q_or (a b : Qobj).

(** [a | b]: an empty side is dropped. *)
Definition Q_union (a b : Qobj) : Qobj :=
  match a, b with
  | Q_empty, _ => b
  | _, Q_empty => a
  | _, _ => Q_or a b
  end.

(** [bool(q)]: a [Q] is true when it has children. *)
Definition Q_truthy (q : Qobj) : bool :=
  match q with Q_empty => false | _ => true end.

Definition column_of (c : column) (p : Product) : option str :=
  match c with
  | Name => product_name p
  | Description => product_description p
  | Article => product_article p
  end.

Section Matching.
Variable rt : runtime.

(** A NULL column matches no pattern. *)
Definition column_icontains (c : column) (pattern : str) (p : Product) : bool :=
  match column_of c p with
  | Some text => icontains rt text pattern
  | None => false
  end.

(** The rows [filter(q)] keeps; the empty [Q] keeps every row. *)
Fixpoint Q_matches (q : Qobj) (p : Product) : bool :=
  match q with
  | Q_empty => true
  | Q_icontains c pattern => column_icontains c pattern p
  | Q_or a b => Q_matches a p || Q_matches b p
  end.
End Matching.

(* ------------------------------------------------------------------ *)
(** ** The world of one request *)

(** The snapshot entries of [get_all_products_for_context]. *)
Record product_info := {
  info_id : Z;
  info_name : str;
  info_description : str;
  info_article : option str
}.

(** The prompt is a fixed instruction text around the user's query and one
    line per snapshot entry; the model keeps the two variable parts. *)
Record prompt := {
  prompt_query : str;
  prompt_products : list product_info
}.

(** One call of [openai.ChatCompletion.create] followed by
    [response.choices[0].message.content]: it raises, or yields a text. *)
Inductive llm_outcome :=
| LlmRaises
| LlmContent (text : str).

Record world := {
  catalog : list Product;              (* rows of Product, store order *)
  tag_table : list Tag;                (* rows of Tag *)
  (** Modelled from the spec: method [Tag.get_descendants] of the missing
      [rental/models.py], the tags below a tag. *)
  get_descendants : Tag -> list Tag;
  llm : prompt -> llm_outcome
}.

(** Settings and module state read at start-up. *)
Record settings := {
  OPENAI_AVAILABLE : bool;             (* [import openai] succeeded *)
  OPENAI_API_KEY : option str          (* getattr(settings, 'OPENAI_API_KEY', None) *)
}.

(* ------------------------------------------------------------------ *)
(** ** Effects *)

Inductive exn :=
| OperationalError          (* the database refused a query *)
| APIError                  (* anything the LLM call raises *)
| JSONDecodeError
| AttributeError (name : string)
| TypeError
| ValueError
| DoesNotExist.             (* Tag.DoesNotExist *)

Inductive sql :=
| Sql_product_values                 (* Product.objects.all().values(...) *)
| Sql_product_ids                    (* Product.objects.values_list('id', flat=True) *)
| Sql_product_filter (q : Qobj)      (* Product.objects.filter(q).values_list('id', flat=True) *)
| Sql_product_id_in (ids : list Z)   (* Product.objects.filter(id__in=ids) *)
| Sql_tag_get (n : Z)                (* Tag.objects.get(id=n) *)
| Sql_tag_descendants (n : Z)        (* tag.get_descendants() *)
| Sql_product_tags (product : Z).    (* product.tags.all() *)

Inductive level := Info | Warning | Error.

Inductive event :=
| DbQuery (q : sql)
| LlmCall (p : prompt)
| Log (l : level)                    (* logger.info / warning / error *)
| Message (l : level).               (* django.contrib.messages *)

(** A fault plan says which database queries fail: each number is the count
    of queries that succeed before the next one fails; the empty plan never
    fails. *)
Definition fault_plan := list nat.

Record run (A : Type) := Run {
  outcome : exn + A;
  rest : fault_plan;
  emitted : list event
}.
Arguments Run {A} _ _ _.
Arguments outcome {A} _.
Arguments rest {A} _.
Arguments emitted {A} _.

Definition M (A : Type) := fault_plan -> run A.

Definition ret {A} (a : A) : M A := fun fs => Run (inr a) fs [].

Definition raise {A} (e : exn) : M A := fun fs => Run (inl e) fs [].

Definition bind {A B} (m : M A) (k : A -> M B) : M B := fun fs =>
  let r := m fs in
  match outcome r with
  | inl e => Run (inl e) (rest r) (emitted r)
  | inr a => let r' := k a (rest r) in
             Run (outcome r') (rest r') (emitted r ++ emitted r')
  end.

Notation "x <- m ;; k" := (bind m (fun x => k))
  (at level 62, m at next level, right associativity).
Notation "m ;;; k" := (bind m (fun _ => k))
  (at level 62, right associativity).

Definition emit (e : event) : M unit := fun fs => Run (inr tt) fs [e].

(** A database query that would return [result]. *)
Definition db {A} (q : sql) (result : A) : M A := fun fs =>
  match fs with
  | [] => Run (inr result) [] [DbQuery q]
  | O :: fs' => Run (inl OperationalError) fs' [DbQuery q]
  | S n :: fs' => Run (inr result) (n :: fs') [DbQuery q]
  end.

(** [try: body  except <handles>: handler]. *)
Definition try_except {A} (body : M A) (handles : exn -> bool)
    (handler : exn -> M A) : M A := fun fs =>
  let r := body fs in
  match outcome r with
  | inl e =>
      if handles e
      then let r' := handler e (rest r) in
           Run (outcome r') (rest r') (emitted r ++ emitted r')
      else r
  | inr _ => r
  end.

(** [except Exception] *)
Definition any_Exception (e : exn) : bool := true.

Definition is_JSONDecodeError (e : exn) : bool :=
  match e with JSONDecodeError => true | _ => false end.

Definition is_DoesNotExist (e : exn) : bool :=
  match e with DoesNotExist => true | _ => false end.

Definition lift {A} (r : exn + A) : M A :=
  match r with inl e => raise e | inr a => ret a end.

(* ------------------------------------------------------------------ *)
(** ** rental/services.py *)

(** An instance of [SmartSearchService]: its two instance attributes. *)
Record SmartSearchService := {
  api_available : bool;
  api_configured : bool
}.

(** The names the class body and [__init__] define on an instance. *)
Definition SmartSearchService_attributes : list string :=
  [ "api_available"; "api_configured";
    "get_all_products_for_context"; "create_enhanced_search_prompt";
    "search_with_chatgpt"; "fallback_search"; "smart_search" ]%string.

Definition has_attribute (name : string) : bool :=
  existsb (String.eqb name) SmartSearchService_attributes.

Section Services.
Variable rt : runtime.
Variable w : world.

(** [SmartSearchService.__init__] *)
Definition SmartSearchService_init (cfg : settings) : SmartSearchService :=
  {| api_available := OPENAI_AVAILABLE cfg;
     api_configured :=
       if OPENAI_AVAILABLE cfg
       then match OPENAI_API_KEY cfg with
            | Some api_key => str_truthy api_key && str_truthy (py_strip rt api_key)
            | None => false
            end
       else false |}.

(** [x or ''] on a nullable text column. *)
Definition or_empty (x : option str) : str :=
  match x with
  | Some s => if str_truthy s then s else []
  | None => []
  end.

(** The body of the loop of [get_all_products_for_context]. *)
Definition product_info_of (product : Product) : product_info :=
  {| info_id := product_id product;
     info_name := or_empty (product_name product);
     info_description := or_empty (product_description product);
     info_article := product_article product |}.

Definition get_all_products_for_context : M (list product_info) :=
  products <- db Sql_product_values (catalog w) ;;
  ret (map product_info_of products).

Definition create_enhanced_search_prompt (original_query : str)
    (products : list product_info) : prompt :=
  {| prompt_query := original_query; prompt_products := products |}.

(** One pass of the loop body of [fallback_search]. *)
Definition add_term (q_objects : Qobj) (term : str) : Qobj :=
  if (2 <? length term)%nat
  then Q_union q_objects
         (Q_union (Q_union (Q_icontains Name term)
                           (Q_icontains Description term))
                  (Q_icontains Article term))
  else q_objects.

Definition fallback_search (query : str) : M (list Z) :=
  let terms := py_split rt (py_lower rt query) in
  let q_objects := fold_left add_term terms Q_empty in
  if Q_truthy q_objects
  then db (Sql_product_filter q_objects)
          (map product_id (List.filter (Q_matches rt q_objects) (catalog w)))
  else ret [].

(** The integer a float is equal to, if any. *)
Definition float_as_int (f : spec_float) : option Z :=
  match f with
  | S754_zero _ => Some 0
  | S754_finite s m e =>
      let v := if s then Z.neg m else Z.pos m in
      if 0 <=? e then Some (v * 2 ^ e)
      else if v mod 2 ^ (- e) =? 0 then Some (v / 2 ^ (- e)) else None
  | _ => None
  end.

(** Looking a JSON value up in a set of integers hashes it first: lists and
    dicts are unhashable ([TypeError]); a bool, an int or an integral float
    is equal to an integer; [None] and strings are equal to none. *)
Definition hash_key (v : json) : exn + option Z :=
  match v with
  | JNull => inr None
  | JBool b => inr (Some (if b then 1 else 0))
  | JInt n => inr (Some n)
  | JFloat f => inr (float_as_int f)
  | JStr _ => inr None
  | JArr _ | JObj _ => inl TypeError
  end.

(** [result.get("relevant_products", [])]: only a dict has [get]. *)
Definition get_relevant_products (result : json) : exn + json :=
  match result with
  | JObj items =>
      inr (match List.find (fun kv => bool_decide (fst kv = u "relevant_products")) items with
           | Some kv => snd kv
           | None => JArr []
           end)
  | _ => inl (AttributeError "get")
  end.

(** [for pid in product_ids]: a list yields its items, a string its
    characters, a dict its keys; nothing else is iterable. *)
Definition py_iter (v : json) : exn + list json :=
  match v with
  | JArr items => inr items
  | JStr s => inr (map (fun c => JStr [c]) s)
  | JObj items => inr (map (fun kv => JStr (fst kv)) items)
  | _ => inl TypeError
  end.

(** [[pid for pid in product_ids if pid in existing_ids]].  Every value kept
    is equal to an integer identifier, and every later use of it goes
    through [==], [hash] or [int(...)]: the model keeps that integer. *)
Fixpoint keep_existing (product_ids : list json) (existing_ids : gset Z)
    : exn + list Z :=
  match product_ids with
  | [] => inr []
  | pid :: more =>
      match hash_key pid with
      | inl e => inl e
      | inr k =>
          match keep_existing more existing_ids with
          | inl e => inl e
          | inr valid =>
              inr (match k with
                   | Some n => if bool_decide (n ∈ existing_ids) then n :: valid else valid
                   | None => valid
                   end)
          end
      end
  end.

Definition openai_ChatCompletion_create (p : prompt) : M str :=
  emit (LlmCall p) ;;;
  match llm w p with
  | LlmRaises => raise APIError
  | LlmContent text => ret text
  end.

(** Lines 126-136, the body of the inner [try]: parse the response, read
    [relevant_products], keep the identifiers that exist. *)
Definition validated_ids (query response_text : str) : M (list Z) :=
  result <- lift (match json_loads rt response_text with
                  | Some j => inr j
                  | None => inl JSONDecodeError
                  end) ;;
  product_ids <- lift (get_relevant_products result) ;;
  ids <- db Sql_product_ids (map product_id (catalog w)) ;;
  let existing_ids : gset Z := list_to_set ids in
  items <- lift (py_iter product_ids) ;;
  valid_ids <- lift (keep_existing items existing_ids) ;;
  match valid_ids with
  | [] => fallback_search query
  | _ => ret valid_ids
  end.

(** Lines 102-140, the body of the outer [try]. *)
Definition ask_chatgpt (query : str) : M (list Z) :=
  products <- get_all_products_for_context ;;
  match products with
  | [] => ret []
  | _ =>
    let prompt := create_enhanced_search_prompt query products in
    content <- openai_ChatCompletion_create prompt ;;
    let response_text := py_strip rt content in
    emit (Log Info) ;;;
    try_except
      (validated_ids query response_text)
      is_JSONDecodeError
      (fun _ => emit (Log Error) ;;; fallback_search query)
  end.

Definition search_with_chatgpt (self : SmartSearchService) (query : str)
    : M (list Z) :=
  if negb (api_available self) || negb (api_configured self)
  then emit (Log Warning) ;;; fallback_search query
  else
    try_except
      (ask_chatgpt query)
      any_Exception
      (fun _ => emit (Log Error) ;;; fallback_search query).

(** What [smart_search] returns: the empty queryset or an ordered list. *)
Inductive found :=
| QuerySet_none
| Ordered (products : list Product).

Definition records (r : found) : list Product :=
  match r with QuerySet_none => [] | Ordered products => products end.

(** [{p.id: p for p in products}] *)
Definition dict_by_id (products : list Product) : gmap Z Product :=
  fold_left (fun d p => <[product_id p := p]> d) products ∅.

Definition smart_search (self : SmartSearchService) (query : str) : M found :=
  if negb (str_truthy query) || negb (str_truthy (py_strip rt query))
  then ret QuerySet_none
  else
    product_ids <- search_with_chatgpt self query ;;
    match product_ids with
    | [] => ret QuerySet_none
    | _ =>
      products <- db (Sql_product_id_in product_ids)
                     (List.filter (fun p => bool_decide (product_id p ∈ product_ids))
                                  (catalog w)) ;;
      let product_dict := dict_by_id products in
      ret (Ordered (omap (fun pid => product_dict !! pid) product_ids))
    end.

End Services.

(* ------------------------------------------------------------------ *)
(** ** rental/views.py *)

(** The parts of the request the two views read. *)
Record request := {
  GET_search : option str;
  GET_tag : option str;
  session_tag_sort_preference : option str
}.

(** [d.get(key, default)] *)
Definition get_or (value : option str) (default : str) : str :=
  match value with Some v => v | None => default end.

Inductive tag_ordering := By_name | By_id | By_order_then_name.

(** Querysets a view builds and leaves to the paginator to evaluate. *)
Inductive queryset :=
| Product_all                                     (* Product.objects.all() *)
| Filter (q : Qobj) (base : queryset)             (* .filter(q) *)
| Filter_tags (tags : list Tag) (base : queryset) (* .filter(tags__in=tags) *)
| Distinct (base : queryset)                      (* .distinct() *)
| Newest_first (base : queryset).                 (* .order_by('-created_at') *)

(** [products] in [product_list] is a list or a queryset. *)
Inductive products_value :=
| PyList (items : list Product)
| Lazy (qs : queryset).

(** The template context, up to the point where the paginator is built. *)
Record context := {
  ctx_products : products_value;
  ctx_root_tags : tag_ordering;
  ctx_selected_tag : str;
  ctx_selected_tag_obj : option Tag;
  ctx_selected_tag_children : option tag_ordering;   (* None is [] *)
  ctx_search_query : str;
  ctx_search_type : string
}.

(** The JSON body of [smart_search_status]. *)
Record status := {
  status_available : bool;
  status_configured : bool;
  status_error : option str
}.

Definition ordering_of (sort_preference : str) : tag_ordering :=
  if bool_decide (sort_preference = u "alphabetical") then By_name
  else if bool_decide (sort_preference = u "creation_date") then By_id
  else By_order_then_name.

(** [bool(found)]: an empty queryset and an empty list are false. *)
Definition found_truthy (r : found) : bool :=
  match records r with [] => false | _ => true end.

Section Views.
Variable rt : runtime.
Variable w : world.

(** The module-level instance [smart_search_service = SmartSearchService()]. *)
Definition smart_search_service (cfg : settings) : SmartSearchService :=
  SmartSearchService_init rt cfg.

(** [smart_search_service.expand_search_query(search_query)].  The class
    body of [SmartSearchService] defines no attribute of that name (see
    [SmartSearchService_attributes]), so the attribute lookup raises
    before anything is called. *)
Definition expand_search_query (search_query : str) : M str :=
  raise (AttributeError "expand_search_query").

(** [Tag.objects.get(id=tag_filter)]: the lookup value is first converted
    with [int(...)], which raises [ValueError] on a text that is no
    number; then the row is fetched. *)
Definition Tag_objects_get (tag_filter : str) : M Tag :=
  match py_int rt tag_filter with
  | None => raise ValueError
  | Some n =>
      row <- db (Sql_tag_get n)
                (List.find (fun t => bool_decide (tag_id t = n)) (tag_table w)) ;;
      match row with
      | Some t => ret t
      | None => raise DoesNotExist
      end
  end.

(** [any(tag in product.tags.all() for tag in all_tags)] *)
Fixpoint any_tag_of (product : Product) (all_tags : list Tag) : M bool :=
  match all_tags with
  | [] => ret false
  | tag :: more =>
      tags <- db (Sql_product_tags (product_id product)) (product_tags product) ;;
      if bool_decide (tag_id tag ∈ tags) then ret true
      else any_tag_of product more
  end.

(** The loop of lines 94-98 over an in-memory list. *)
Fixpoint filter_in_memory (products : list Product) (all_tags : list Tag)
    : M (list Product) :=
  match products with
  | [] => ret []
  | product :: more =>
      keep <- any_tag_of product all_tags ;;
      filtered <- filter_in_memory more all_tags ;;
      ret (if keep then product :: filtered else filtered)
  end.

(** Lines 58-83: the search block. *)
Definition search_block (self : SmartSearchService) (search_query : str)
    : M (products_value * string) :=
  if str_truthy search_query
  then
    try_except
      (emit (Log Info) ;;;
       smart_products <- smart_search rt w self search_query ;;
       if found_truthy smart_products
       then emit (Log Info) ;;; ret (PyList (records smart_products), "smart"%string)
       else emit (Log Info) ;;; ret (PyList [], "smart"%string))
      any_Exception
      (fun _ =>
         emit (Log Error) ;;;
         expanded_query <- expand_search_query search_query ;;
         let products :=
           Newest_first (Distinct (Filter
             (Q_union (Q_union (Q_union (Q_union
                (Q_icontains Name search_query)
                (Q_icontains Article search_query))
                (Q_icontains Description search_query))
                (Q_icontains Name expanded_query))
                (Q_icontains Description expanded_query))
             Product_all)) in
         emit (Message Warning) ;;;
         ret (Lazy products, "fallback"%string))
  else ret (Lazy Product_all, "all"%string).

(** Lines 86-113: the tag block.  It yields [selected_tag],
    [selected_tag_children], [products] and [search_type]. *)
Definition tag_block (search_query tag_filter sort_preference : str)
    (products : products_value) (search_type : string)
    : M (option Tag * option tag_ordering * products_value * string) :=
  if str_truthy tag_filter
  then
    try_except
      (selected_tag <- Tag_objects_get tag_filter ;;
       descendant_tags <- db (Sql_tag_descendants (tag_id selected_tag))
                             (get_descendants w selected_tag) ;;
       let all_tags := selected_tag :: descendant_tags in
       products' <-
         (if str_truthy search_query
          then match products with
               | PyList items =>
                   filtered_products <- filter_in_memory items all_tags ;;
                   ret (PyList filtered_products)
               | Lazy qs => ret (Lazy (Distinct (Filter_tags all_tags qs)))
               end
          else ret (Lazy (Newest_first (Distinct (Filter_tags all_tags Product_all))))) ;;
       let search_type' :=
         if negb (str_truthy search_query) then "tag"%string
         else (search_type ++ "_tag")%string in
       ret (Some selected_tag, Some (ordering_of sort_preference),
            products', search_type'))
      is_DoesNotExist
      (fun _ => ret (None, None, products, search_type))
  else ret (None, None, products, search_type).

(** [product_list], up to the construction of the paginator. *)
Definition product_list (self : SmartSearchService) (req : request) : M context :=
  let search_query := py_strip rt (get_or (GET_search req) []) in
  let tag_filter := get_or (GET_tag req) [] in
  let sort_preference := get_or (session_tag_sort_preference req) (u "order") in
  let root_tags := ordering_of sort_preference in
  searched <- search_block self search_query ;;
  tagged <- tag_block search_query tag_filter sort_preference
                      (fst searched) (snd searched) ;;
  let '(selected_tag, selected_tag_children, products, search_type) := tagged in
  let unfiltered := negb (str_truthy search_query) && negb (str_truthy tag_filter) in
  ret {| ctx_products :=
           if unfiltered then Lazy (Newest_first Product_all) else products;
         ctx_root_tags := root_tags;
         ctx_selected_tag := tag_filter;
         ctx_selected_tag_obj := selected_tag;
         ctx_selected_tag_children := selected_tag_children;
         ctx_search_query := search_query;
         ctx_search_type := if unfiltered then "all"%string else search_type |}.

(** [smart_search_status]: nothing in its [try] block raises. *)
Definition smart_search_status (cfg : settings) : status :=
  let api_key_configured :=
    match OPENAI_API_KEY cfg with
    | Some api_key => str_truthy api_key
    | None => false
    end in
  {| status_available :=
       api_key_configured && api_available (smart_search_service cfg);
     status_configured := api_key_configured;
     status_error := None |}.

End Views.

(* ------------------------------------------------------------------ *)
(** ** The Literal Matcher as the specification words it *)

Section LiteralMatcher.
Variable rt : runtime.
Variable w : world.

(** The terms of the (case-folded) query that survive the length filter. *)
Definition surviving_terms (query : str) : list str :=
  List.filter (fun term => (2 <? length term)%nat)
              (py_split rt (py_lower rt query)).

(** A product matches a term when any of the three columns contains it. *)
Definition term_matches (term : str) (p : Product) : bool :=
  existsb (fun c => column_icontains rt c term p) [Name; Description; Article].

(** Some child of [q] matches [p]: what [filter(q)] tests once [q] is
    known to be non-empty. *)
Definition Q_sat (q : Qobj) (p : Product) : bool :=
  Q_truthy q && Q_matches rt q p.

(** Identifiers of the products matching any surviving term, store order. *)
Definition literal_match (query : str) : list Z :=
  map product_id
      (List.filter (fun p => existsb (fun term => term_matches term p)
                                     (surviving_terms query))
                   (catalog w)).

End LiteralMatcher.

(* ------------------------------------------------------------------ *)
(** ** The Semantic Query Service on a database that answers *)

Section SemanticAnswer.
Variable rt : runtime.
Variable w : world.

(** Lines 126-131 as one function of the response text: parse, extract,
    iterate, keep the identifiers that exist. *)
Definition validate (response_text : str) : exn + list Z :=
  match json_loads rt response_text with
  | None => inl JSONDecodeError
  | Some result =>
      match get_relevant_products result with
      | inl e => inl e
      | inr product_ids =>
          match py_iter product_ids with
          | inl e => inl e
          | inr items =>
              keep_existing items (list_to_set (map product_id (catalog w)))
          end
      end
  end.

(** The prompt sent for [query]. *)
Definition prompt_for (query : str) : prompt :=
  create_enhanced_search_prompt query (map product_info_of (catalog w)).

(** What the body of the outer [try] comes to: nothing to ask about an
    empty catalog; otherwise the validated identifiers, the Literal Matcher
    when there are none or the text is no JSON, or an exception. *)
Definition ask_answer (query : str) : exn + list Z :=
  match catalog w with
  | [] => inr []
  | _ =>
      match llm w (prompt_for query) with
      | LlmRaises => inl APIError
      | LlmContent text =>
          match validate (py_strip rt text) with
          | inr [] => inr (literal_match rt w query)
          | inr valid_ids => inr valid_ids
          | inl JSONDecodeError => inr (literal_match rt w query)
          | inl e => inl e
          end
      end
  end.

(** What the service returns when it is available and configured. *)
Definition semantic_answer (query : str) : list Z :=
  match ask_answer query with
  | inr ids => ids
  | inl _ => literal_match rt w query
  end.

End SemanticAnswer.

(* ------------------------------------------------------------------ *)
(** ** Predicates on runs *)

(** Every value [m] can return satisfies [P], whatever the database does. *)
Definition returns_only {A} (P : A -> Prop) (m : M A) : Prop :=
  forall fs a, outcome (m fs) = inr a -> P a.

(** Started on a database that answers, [m] leaves one that answers. *)
Definition stays_calm {A} (m : M A) : Prop := rest (m []) = [].

(** [m] never calls the LLM endpoint. *)
Definition offline {A} (m : M A) : Prop :=
  forall fs p, ~ In (LlmCall p) (emitted (m fs)).

(** Every exception [m] can raise satisfies [P], whatever the database does. *)
Definition raises_only {A} (P : exn -> Prop) (m : M A) : Prop :=
  forall fs e, outcome (m fs) = inl e -> P e.

Definition is_LlmCall (ev : event) : bool :=
  match ev with LlmCall _ => true | _ => false end.

(** How many times the LLM endpoint is called in a list of events. *)
Definition llm_calls (evs : list event) : nat :=
  length (List.filter is_LlmCall evs).

(** [m] calls the LLM endpoint at most [n] times. *)
Definition calls_llm_at_most {A} (n : nat) (m : M A) : Prop :=
  forall fs, (llm_calls (emitted (m fs)) <= n)%nat.

(* ------------------------------------------------------------------ *)
(** ** rental/views.py: the session cart *)

(** A Python [dict] with string keys, in insertion order, keys distinct. *)
Definition pydict := list (str * json).

Fixpoint dict_get (d : pydict) (k : str) : option json :=
  match d with
  | [] => None
  | (k', v) :: d' => if bool_decide (k' = k) then Some v else dict_get d' k
  end.

(** [k in d] *)
Definition dict_has (d : pydict) (k : str) : bool :=
  match dict_get d k with Some _ => true | None => false end.

(** [d.get(k, default)] *)
Definition dict_get_or (d : pydict) (k : str) (default : json) : json :=
  match dict_get d k with Some v => v | None => default end.

(** [d[k] = v]: in place when the key is there, at the end otherwise. *)
Fixpoint dict_set (d : pydict) (k : str) (v : json) : pydict :=
  match d with
  | [] => [(k, v)]
  | (k', v') :: d' =>
      if bool_decide (k' = k) then (k, v) :: d' else (k', v') :: dict_set d' k v
  end.

(** [d.pop(k, None)] *)
Fixpoint dict_pop (d : pydict) (k : str) : pydict :=
  match d with
  | [] => []
  | (k', v') :: d' =>
      if bool_decide (k' = k) then d' else (k', v') :: dict_pop d' k
  end.

(** [str(n)] for an [int]. *)
Definition str_of_int (n : Z) : str :=
  u (DecimalString.NilZero.string_of_int (Z.to_int n)).

(** [isinstance(v, int)]: a [bool] is an [int]. *)
Definition int_value (v : json) : option Z :=
  match v with
  | JInt n => Some n
  | JBool b => Some (if b then 1 else 0)
  | _ => None
  end.

(** What ends a view without a response: an exception of [exn], or one of
    the exceptions only the cart views meet. *)
Inductive halt :=
| Raised (e : exn)
| Product_DoesNotExist
| Http404
| NoReverseMatch
| OverflowError.

(** [float(n)], correctly rounded; too large an integer is an error. *)
Definition float_of_int (n : Z) : halt + spec_float :=
  match binary_normalize 53 1024 n 0 false with
  | S754_infinity _ => inl OverflowError
  | f => inr f
  end.

(** [v + n] for an [int] [n]. *)
Definition py_add_int (v : json) (n : Z) : halt + json :=
  match v with
  | JFloat f =>
      match float_of_int n with
      | inl e => inl e
      | inr g => inr (JFloat (SFadd 53 1024 f g))
      end
  | _ =>
      match int_value v with
      | Some m => inr (JInt (m + n))
      | None => inl (Raised TypeError)
      end
  end.

(** [f > n] for a float and an [int]: Python compares the exact values. *)
Definition float_gt_int (f : spec_float) (n : Z) : bool :=
  match f with
  | S754_nan => false
  | S754_infinity negative => negb negative
  | S754_zero _ => 0 >? n
  | S754_finite negative m e =>
      let v := if negative then Z.neg m else Z.pos m in
      if 0 <=? e then v * 2 ^ e >? n else v >? n * 2 ^ (- e)
  end.

(** [v > n] for an [int] [n]. *)
Definition py_gt_int (v : json) (n : Z) : halt + bool :=
  match v with
  | JFloat f => inr (float_gt_int f n)
  | _ =>
      match int_value v with
      | Some m => inr (m >? n)
      | None => inl (Raised TypeError)
      end
  end.

(** The messages the cart views flash, by the line that sends them. *)
Inductive notice :=
| Insufficient_stock (available : Z)                        (* error *)
| Insufficient_stock_with_cart (available : Z) (in_cart : json)  (* error *)
| Added_to_cart (name : option str) (days : Z)              (* success *)
| Removed_from_cart (name : option str)                     (* success, 277 *)
| Removed_unnamed                                           (* success, 282 and 665 *)
| Not_in_cart                                               (* error *)
| Product_not_found                                         (* error *)
| Quantity_updated                                          (* success *)
| Bad_parameters                                            (* error, 703 *)
| Days_out_of_range                                         (* error, 709 *)
| Bad_days                                                  (* error, 712 *)
| Days_changed (name : option str) (days : Z).              (* success *)

(** The session of the visitor, the messages flashed to them during the
    request, and the fault plan of the database. *)
Record browser := {
  session_cart : option pydict;             (* request.session['cart'] *)
  session_use_smart_search : option json;   (* request.session['use_smart_search'] *)
  session_modified : bool;
  notices : list notice;
  db_plan : fault_plan
}.

Definition V (A : Type) := browser -> (halt + A) * browser.

Definition vret {A} (a : A) : V A := fun b => (inr a, b).

Definition vraise {A} (e : halt) : V A := fun b => (inl e, b).

Definition vbind {A B} (m : V A) (k : A -> V B) : V B := fun b =>
  match m b with
  | (inl e, b') => (inl e, b')
  | (inr a, b') => k a b'
  end.

Notation "x <~ m ;; k" := (vbind m (fun x => k))
  (at level 62, m at next level, right associativity).
Notation "m ~;; k" := (vbind m (fun _ => k))
  (at level 62, right associativity).

(** [try: body  except Product.DoesNotExist: handler] *)
Definition vtry_DoesNotExist {A} (body : V A) (handler : V A) : V A := fun b =>
  match body b with
  | (inl Product_DoesNotExist, b') => handler b'
  | r => r
  end.

(** [try: body  except (ValueError, TypeError): handler] *)
Definition vtry_ValueError_TypeError {A} (body : V A) (handler : V A) : V A :=
  fun b =>
    match body b with
    | (inl (Raised ValueError), b') | (inl (Raised TypeError), b') => handler b'
    | r => r
    end.

(** [except Exception as e]: every exception here is one. *)
Definition vtry_Exception {A} (body : V A) (handler : halt -> V A) : V A := fun b =>
  match body b with
  | (inl e, b') => handler e b'
  | r => r
  end.

Definition vlift {A} (r : halt + A) : V A :=
  match r with inl e => vraise e | inr a => vret a end.

(** [messages.error(...)], [messages.success(...)] *)
Definition flash (n : notice) : V unit := fun b =>
  (inr tt, {| session_cart := session_cart b;
              session_use_smart_search := session_use_smart_search b;
              session_modified := session_modified b;
              notices := notices b ++ [n];
              db_plan := db_plan b |}).

(** [request.session.get('cart', {})] *)
Definition session_get_cart : V pydict := fun b =>
  (inr (match session_cart b with Some cart => cart | None => [] end), b).

(** [request.session['cart'] = cart]; assignment marks the session. *)
Definition session_set_cart (cart : pydict) : V unit := fun b =>
  (inr tt, {| session_cart := Some cart;
              session_use_smart_search := session_use_smart_search b;
              session_modified := true;
              notices := notices b;
              db_plan := db_plan b |}).

(** [request.session['use_smart_search'] = value] *)
Definition session_set_use_smart_search (value : json) : V unit := fun b =>
  (inr tt, {| session_cart := session_cart b;
              session_use_smart_search := Some value;
              session_modified := true;
              notices := notices b;
              db_plan := db_plan b |}).

(** One query to the database, answered with [result] unless the plan
    makes it fail. *)
Definition vdb {A} (result : A) : V A := fun b =>
  let answer (plan : fault_plan) (r : halt + A) :=
    (r, {| session_cart := session_cart b;
           session_use_smart_search := session_use_smart_search b;
           session_modified := session_modified b;
           notices := notices b;
           db_plan := plan |}) in
  match db_plan b with
  | [] => answer [] (inr result)
  | O :: plan => answer plan (inl (Raised OperationalError))
  | S n :: plan => answer (n :: plan) (inr result)
  end.

(** The parts of a request the cart views read. *)
Record cart_request := {
  method : str;
  POST_product_id : option str;
  POST_quantity : option str;
  POST_days : option str;
  GET_product_id : option str;
  GET_days : option str;
  HTTP_REFERER : option str;
  body : str
}.

Section CartViews.
Variable rt : runtime.

(** Modelled from the spec: the amounts of money of [rental/models.py],
    missing here; [daily_price] is one, and so are the totals. *)
Variable amount : Type.

(** Modelled from the spec: columns [available_quantity] and [daily_price]
    of [Product], next to the columns the search reads. *)
Record stocked := {
  stocked_product : Product;
  available_quantity : Z;
  daily_price : amount
}.

(** What the views take from the files that are missing here: the rows of
    [Product], the arithmetic of amounts, and the URL table. *)
Record backoffice := {
  shelves : list stocked;
  (** [price * v] for a Python value [v] *)
  times : amount -> json -> halt + amount;
  (** [total + item_total] *)
  plus : amount -> amount -> amount;
  (** the [0] a total starts from *)
  zero : amount;
  (** [redirect(to)] and [redirect(to, product_id=n)] of Django over the
      URL table of rental/urls.py: the URL redirected to, or the exception
      ([NoReverseMatch] for a name that is no URL and reverses to none) *)
  resolve_redirect : str -> option Z -> halt + str
}.

Variable shop : backoffice.

Inductive line := Line (product : stocked) (quantity days : json) (total : amount).

Inductive response :=
| HttpResponseRedirect (url : str)
| Render_cart (cart_items : list line) (total : amount)
| JsonResponse_count (count : nat)
| JsonResponse_toggled (use_smart_search : json)
| JsonResponse_failed (e : halt)
| JsonResponse_unsupported.

(** [Product.objects.get(id=n)] for an integer [n] *)
Definition Product_objects_get_int (n : Z) : V stocked :=
  row <~ vdb (List.find (fun r => bool_decide (product_id (stocked_product r) = n))
                        (shelves shop)) ;;
  match row with
  | Some r => vret r
  | None => vraise Product_DoesNotExist
  end.

(** [Product.objects.get(id=product_id)] for a value taken from the
    request or from a key of the cart: a text is converted with
    [int(...)] first, and [None] matches no row. *)
Definition Product_objects_get (product_id : option str) : V stocked :=
  match product_id with
  | None => row <~ vdb (@None stocked) ;; vraise Product_DoesNotExist
  | Some text =>
      match py_int rt text with
      | None => vraise (Raised ValueError)
      | Some n => Product_objects_get_int n
      end
  end.

Definition get_object_or_404 (n : Z) : V stocked :=
  vtry_DoesNotExist (Product_objects_get_int n) (vraise Http404).

Definition redirect (to : str) (product_id : option Z) : V response :=
  url <~ vlift (resolve_redirect shop to product_id) ;;
  vret (HttpResponseRedirect url).

(** [int(request.POST.get(name, 1))] *)
Definition int_param (value : option str) : V Z :=
  match value with
  | None => vret 1
  | Some text =>
      match py_int rt text with
      | Some n => vret n
      | None => vraise (Raised ValueError)
      end
  end.

(** [str(product_id)] for a value of [POST.get] or [GET.get]. *)
Definition str_of_param (product_id : option str) : str :=
  match product_id with Some text => text | None => u "None" end.

(** The new format of an entry. *)
Definition entry (quantity days : json) : json :=
  JObj [(u "quantity", quantity); (u "days", days)].

Definition add_to_cart (request : cart_request) (product_id : Z) : V response :=
  product <~ get_object_or_404 product_id ;;
  if bool_decide (method request = u "POST") then
    quantity <~ int_param (POST_quantity request) ;;
    days <~ int_param (POST_days request) ;;
    if quantity >? available_quantity product then
      flash (Insufficient_stock (available_quantity product)) ~;;
      redirect (get_or (HTTP_REFERER request) (u "rental:product_detail"))
               (Some product_id)
    else
      cart <~ session_get_cart ;;
      let current_item := dict_get cart (str_of_int product_id) in
      let current_quantity :=
        match current_item with
        | None => JInt 0
        | Some (JObj fields) => dict_get_or fields (u "quantity") (JInt 0)
        | Some v => match int_value v with Some _ => v | None => JInt 0 end
        end in
      wanted <~ vlift (py_add_int current_quantity quantity) ;;
      too_many <~ vlift (py_gt_int wanted (available_quantity product)) ;;
      if too_many then
        flash (Insufficient_stock_with_cart (available_quantity product)
                                            current_quantity) ~;;
        redirect (get_or (HTTP_REFERER request) (u "rental:product_detail"))
                 (Some product_id)
      else
        let cart := dict_set cart (str_of_int product_id) (entry wanted (JInt days)) in
        session_set_cart cart ~;;
        flash (Added_to_cart (product_name (stocked_product product)) days) ~;;
        match HTTP_REFERER request with
        | Some (c :: referer) => redirect (c :: referer) None
        | _ => redirect (u "rental:product_detail") (Some product_id)
        end
  else redirect (u "rental:product_detail") (Some product_id).

Definition remove_from_cart (request : cart_request) (product_id : Z) : V response :=
  cart <~ session_get_cart ;;
  (if dict_has cart (str_of_int product_id) then
     vtry_DoesNotExist
       (product <~ Product_objects_get_int product_id ;;
        session_set_cart (dict_pop cart (str_of_int product_id)) ~;;
        flash (Removed_from_cart (product_name (stocked_product product))))
       (session_set_cart (dict_pop cart (str_of_int product_id)) ~;;
        flash Removed_unnamed)
   else flash Not_in_cart) ~;;
  redirect (u "rental:cart") None.

Definition cart_count_api : V response :=
  cart <~ session_get_cart ;;
  vret (JsonResponse_count (length cart)).

(** Lines 668-684: the entry of the product with its new quantity. *)
Definition with_quantity (current_item : json) (new_quantity : Z) : json :=
  match current_item with
  | JObj fields => JObj (dict_set fields (u "quantity") (JInt new_quantity))
  | _ => entry (JInt new_quantity) (JInt 1)
  end.

Definition update_cart_quantity (request : cart_request) : V response :=
  (if bool_decide (method request = u "POST") then
     let product_id := POST_product_id request in
     new_quantity <~ int_param (POST_quantity request) ;;
     cart <~ session_get_cart ;;
     match dict_get cart (str_of_param product_id) with
     | Some current_item =>
         vtry_DoesNotExist
           (product <~ Product_objects_get product_id ;;
            cart <~ (if new_quantity >? available_quantity product then
                       flash (Insufficient_stock (available_quantity product)) ~;;
                       vret cart
                     else if new_quantity <=? 0 then
                       flash Removed_unnamed ~;;
                       vret (dict_pop cart (str_of_param product_id))
                     else
                       flash Quantity_updated ~;;
                       vret (dict_set cart (str_of_param product_id)
                                      (with_quantity current_item new_quantity))) ;;
            session_set_cart cart)
           (flash Product_not_found)
     | None => flash Not_in_cart
     end
   else vret tt) ~;;
  redirect (u "rental:cart") None.

(** Lines 722-738: the entry of the product with its new number of days. *)
Definition with_days (current_item : json) (new_days : Z) : json :=
  match current_item with
  | JObj fields => JObj (dict_set fields (u "days") (JInt new_days))
  | _ => match int_value current_item with
         | Some _ => entry current_item (JInt new_days)
         | None => entry (JInt 1) (JInt new_days)
         end
  end.

(** Lines 706-713: the number of days, or the response that refuses it. *)
Definition checked_days (text : str) : V (response + Z) :=
  vtry_ValueError_TypeError
    (new_days <~ vlift (match py_int rt text with
                        | Some n => inr n
                        | None => inl (Raised ValueError)
                        end) ;;
     if (new_days <? 1) || (new_days >? 365) then
       flash Days_out_of_range ~;;
       r <~ redirect (u "rental:cart") None ;; vret (inl r)
     else vret (inr new_days))
    (flash Bad_days ~;;
     r <~ redirect (u "rental:cart") None ;; vret (inl r)).

Definition update_cart_days (request : cart_request) : V response :=
  match GET_product_id request, GET_days request with
  | Some (c :: product_id), Some (d :: days) =>
      checked <~ checked_days (d :: days) ;;
      match checked with
      | inl refused => vret refused
      | inr new_days =>
          cart <~ session_get_cart ;;
          match dict_get cart (c :: product_id) with
          | Some current_item =>
              vtry_DoesNotExist
                (product <~ Product_objects_get (Some (c :: product_id)) ;;
                 session_set_cart
                   (dict_set cart (c :: product_id) (with_days current_item new_days)) ~;;
                 flash (Days_changed (product_name (stocked_product product)) new_days))
                (flash Product_not_found)
          | None => flash Not_in_cart
          end ~;;
          redirect (u "rental:cart") None
      end
  | _, _ => flash Bad_parameters ~;; redirect (u "rental:cart") None
  end.

(** Lines 159-190: the first loop of [cart_view]. *)
Fixpoint cart_lines (items : pydict) (cart_items : list line) (total : amount)
    : V (list line * amount) :=
  match items with
  | [] => vret (cart_items, total)
  | (product_id, item_data) :: more =>
      step <~ vtry_DoesNotExist
                (product <~ Product_objects_get (Some product_id) ;;
                 let format :=
                   match item_data with
                   | JObj fields =>
                       Some (dict_get_or fields (u "quantity") (JInt 1),
                             dict_get_or fields (u "days") (JInt 1))
                   | _ => match int_value item_data with
                          | Some _ => Some (item_data, JInt 1)
                          | None => None
                          end
                   end in
                 match format with
                 | None => vret (cart_items, total)
                 | Some (quantity, days) =>
                     by_quantity <~ vlift (times shop (daily_price product) quantity) ;;
                     item_total <~ vlift (times shop by_quantity days) ;;
                     vret (cart_items ++ [Line product quantity days item_total],
                           plus shop total item_total)
                 end)
                (vret (cart_items, total)) ;;
      cart_lines more (fst step) (snd step)
  end.

(** Lines 193-199: the second loop of [cart_view]. *)
Fixpoint existing_entries (items : pydict) (valid_cart : pydict) : V pydict :=
  match items with
  | [] => vret valid_cart
  | (product_id, item_data) :: more =>
      valid_cart <~ vtry_DoesNotExist
                      (product <~ Product_objects_get (Some product_id) ;;
                       vret (dict_set valid_cart product_id item_data))
                      (vret valid_cart) ;;
      existing_entries more valid_cart
  end.

Definition cart_view : V response :=
  cart <~ session_get_cart ;;
  shown <~ cart_lines cart [] (zero shop) ;;
  valid_cart <~ existing_entries cart [] ;;
  (if bool_decide (length valid_cart = length cart) then vret tt
   else session_set_cart valid_cart) ~;;
  vret (Render_cart (fst shown) (snd shown)).

(** [toggle_search_type] *)
Definition toggle_search_type (request : cart_request) : V response :=
  if bool_decide (method request = u "POST") then
    vtry_Exception
      (data <~ vlift (match json_loads rt (body request) with
                      | Some j => inr j
                      | None => inl (Raised JSONDecodeError)
                      end) ;;
       use_smart_search <~
         vlift (match data with
                | JObj fields => inr (dict_get_or fields (u "use_smart_search") (JBool true))
                | _ => inl (Raised (AttributeError "get"))
                end) ;;
       session_set_use_smart_search use_smart_search ~;;
       vret (JsonResponse_toggled use_smart_search))
      (fun e => vret (JsonResponse_failed e))
  else vret JsonResponse_unsupported.

End CartViews.

Arguments stocked_product {amount} _.
Arguments available_quantity {amount} _.
Arguments daily_price {amount} _.
Arguments shelves {amount} _.
Arguments times {amount} _ _ _.
Arguments plus {amount} _ _ _.
Arguments zero {amount} _.
Arguments resolve_redirect {amount} _ _ _.
Arguments Line {amount} _ _ _ _.
Arguments HttpResponseRedirect {amount} _.
Arguments Render_cart {amount} _ _.
Arguments JsonResponse_count {amount} _.
Arguments JsonResponse_toggled {amount} _.
Arguments JsonResponse_failed {amount} _.
Arguments JsonResponse_unsupported {amount}.
Arguments Product_objects_get_int {amount} _ _ _.
Arguments Product_objects_get _ {amount} _ _ _.
Arguments get_object_or_404 {amount} _ _ _.
Arguments redirect {amount} _ _ _ _.
Arguments add_to_cart _ {amount} _ _ _ _.
Arguments remove_from_cart {amount} _ _ _ _.
Arguments cart_count_api {amount} _.
Arguments update_cart_quantity _ {amount} _ _ _.
Arguments checked_days _ {amount} _ _ _.
Arguments update_cart_days _ {amount} _ _ _.
Arguments cart_lines _ {amount} _ _ _ _ _.
Arguments existing_entries _ {amount} _ _ _ _.
Arguments cart_view _ {amount} _ _.
Arguments toggle_search_type _ {amount} _ _.

(** The cart a view starts from. *)
Definition cart_of (b : browser) : pydict :=
  match session_cart b with Some cart => cart | None => [] end.

(** The session is as it was: the step wrote nothing to it. *)
Definition same_session (b b' : browser) : Prop :=
  session_cart b' = session_cart b
  /\ session_use_smart_search b' = session_use_smart_search b
  /\ session_modified b' = session_modified b.

(** [m] never writes to the session, whatever its outcome. *)
Definition keeps_session {A} (m : V A) : Prop :=
  forall b r b', m b = (r, b') -> same_session b b'.

(** Lines 225-239 of views.py as a function: the quantity [add_to_cart]
    finds in the cart for a key. *)
Definition quantity_in_cart (cart : pydict) (key : str) : json :=
  match dict_get cart key with
  | None => JInt 0
  | Some (JObj fields) => dict_get_or fields (u "quantity") (JInt 0)
  | Some v => match int_value v with Some _ => v | None => JInt 0 end
  end.

(** The integer [int(request.POST.get(name, 1))] evaluates to, if any. *)
Definition posted_int (rt : runtime) (value : option str) : option Z :=
  match value with
  | None => Some 1
  | Some text => py_int rt text
  end.

(** A field of an entry in the new format. *)
Definition field (item : json) (name : str) : option json :=
  match item with
  | JObj fields => dict_get fields name
  | _ => None
  end.

(** The key of an entry is the identifier of a product on the shelves. *)
Definition on_shelves (rt : runtime) {amount} (shop : backoffice amount)
    (key : str) : bool :=
  match py_int rt key with
  | Some n =>
      match List.find (fun r => bool_decide (product_id (stocked_product r) = n))
                      (shelves shop) with
      | Some _ => true
      | None => false
      end
  | None => false
  end.

(** A line of the cart page as the first loop of [cart_view] builds it: a
    product of the shelves, and for total its price times the quantity
    times the days. *)
Definition line_well_formed {amount} (shop : backoffice amount) (l : line amount)
    : Prop :=
  match l with
  | Line product quantity days total =>
      In product (shelves shop)
      /\ exists by_quantity,
           times shop (daily_price product) quantity = inr by_quantity
           /\ times shop by_quantity days = inr total
  end.

(** The total of a line of the cart page. *)
Definition line_total {amount} (l : line amount) : amount :=
  match l with Line _ _ _ total => total end.

(** The product of a line of the cart page. *)
Definition line_product {amount} (l : line amount) : stocked amount :=
  match l with Line product _ _ _ => product end.

(** The test of lines 96-97 of views.py as a function: the product carries
    one of the tags. *)
Definition carries_one_of (all_tags : list Tag) (product : Product) : bool :=
  existsb (fun tag => bool_decide (tag_id tag ∈ product_tags product)) all_tags.

(* ------------------------------------------------------------------ *)
(** ** A sample platform and sample data, for the examples

    ASCII tables for [isspace] and [lower], decimal [int], containment
    after case folding, and a reader for the JSON subset without floats
    and escapes. *)

Module Sample.

Definition isspace (c : codepoint) : bool :=
  ((9 <=? c) && (c <=? 13) || (28 <=? c) && (c <=? 32))%N.

Definition lower_char (c : codepoint) : codepoint :=
  if ((65 <=? c) && (c <=? 90))%N then (c + 32)%N else c.

Definition lower (s : str) : str := map lower_char s.

Definition digit (c : codepoint) : option Z :=
  if ((48 <=? c) && (c <=? 57))%N then Some (Z.of_N c - 48) else None.

Fixpoint digits (acc : Z) (s : str) : option Z :=
  match s with
  | [] => Some acc
  | c :: s' => match digit c with
               | Some d => digits (10 * acc + d) s'
               | None => None
               end
  end.

Definition natural (s : str) : option Z :=
  match s with [] => None | _ => digits 0 s end.

Fixpoint drop_spaces (s : str) : str :=
  match s with
  | c :: s' => if isspace c then drop_spaces s' else s
  | [] => []
  end.

Definition int (s : str) : option Z :=
  match rev (drop_spaces (rev (drop_spaces s))) with
  | 45%N :: ds => option_map Z.opp (natural ds)
  | 43%N :: ds => natural ds
  | ds => natural ds
  end.

Fixpoint starts_with (pattern text : str) : bool :=
  match pattern, text with
  | [], _ => true
  | c :: pattern', d :: text' => (c =? d)%N && starts_with pattern' text'
  | _ :: _, [] => false
  end.

Fixpoint occurs (pattern text : str) : bool :=
  starts_with pattern text
  || match text with [] => false | _ :: text' => occurs pattern text' end.

Definition contains_folded (text pattern : str) : bool :=
  occurs (lower pattern) (lower text).

(** Digits of an integer literal, then the rest of the input. *)
Fixpoint read_digits (acc : Z) (s : str) : Z * str :=
  match s with
  | c :: s' => match digit c with
               | Some d => read_digits (10 * acc + d) s'
               | None => (acc, s)
               end
  | [] => (acc, s)
  end.

(** A literal with a fraction or an exponent is a float: not read here. *)
Definition read_int (s : str) : option (Z * str) :=
  match s with
  | c :: _ =>
      match digit c with
      | Some _ =>
          let '(n, r) := read_digits 0 s in
          match r with
          | 46%N :: _ | 101%N :: _ | 69%N :: _ => None
          | _ => Some (n, r)
          end
      | None => None
      end
  | [] => None
  end.

(** The characters of a string literal up to the closing quote. *)
Fixpoint read_string (acc : str) (s : str) : option (str * str) :=
  match s with
  | [] => None
  | 34%N :: r => Some (rev acc, r)
  | 92%N :: _ => None
  | c :: r => if (c <? 32)%N then None else read_string (c :: acc) r
  end.

Fixpoint read_value (fuel : nat) (s : str) : option (json * str) :=
  match fuel with
  | O => None
  | S fuel' =>
      match drop_spaces s with
      | 110%N :: 117%N :: 108%N :: 108%N :: r => Some (JNull, r)
      | 116%N :: 114%N :: 117%N :: 101%N :: r => Some (JBool true, r)
      | 102%N :: 97%N :: 108%N :: 115%N :: 101%N :: r => Some (JBool false, r)
      | 34%N :: r =>
          match read_string [] r with
          | Some (t, r') => Some (JStr t, r')
          | None => None
          end
      | 45%N :: r =>
          match read_int r with
          | Some (n, r') => Some (JInt (- n), r')
          | None => None
          end
      | 91%N :: r =>
          match drop_spaces r with
          | 93%N :: r' => Some (JArr [], r')
          | _ => match read_elements fuel' r with
                 | Some (items, r') => Some (JArr items, r')
                 | None => None
                 end
          end
      | 123%N :: r =>
          match drop_spaces r with
          | 125%N :: r' => Some (JObj [], r')
          | _ => match read_members fuel' r with
                 | Some (items, r') => Some (JObj items, r')
                 | None => None
                 end
          end
      | r => match read_int r with
             | Some (n, r') => Some (JInt n, r')
             | None => None
             end
      end
  end
with read_elements (fuel : nat) (s : str) : option (list json * str) :=
  match fuel with
  | O => None
  | S fuel' =>
      match read_value fuel' s with
      | Some (v, r) =>
          match drop_spaces r with
          | 44%N :: r' =>
              match read_elements fuel' r' with
              | Some (vs, r'') => Some (v :: vs, r'')
              | None => None
              end
          | 93%N :: r' => Some ([v], r')
          | _ => None
          end
      | None => None
      end
  end
with read_members (fuel : nat) (s : str) : option (list (str * json) * str) :=
  match fuel with
  | O => None
  | S fuel' =>
      match drop_spaces s with
      | 34%N :: r =>
          match read_string [] r with
          | Some (k, r1) =>
              match drop_spaces r1 with
              | 58%N :: r2 =>
                  match read_value fuel' r2 with
                  | Some (v, r3) =>
                      match drop_spaces r3 with
                      | 44%N :: r4 =>
                          match read_members fuel' r4 with
                          | Some (kvs, r5) => Some ((k, v) :: kvs, r5)
                          | None => None
                          end
                      | 125%N :: r4 => Some ([(k, v)], r4)
                      | _ => None
                      end
                  | None => None
                  end
              | _ => None
              end
          | None => None
          end
      | _ => None
      end
  end.

Definition loads (s : str) : option json :=
  match read_value (2 * length s + 2) s with
  | Some (v, r) => match drop_spaces r with [] => Some v | _ => None end
  | None => None
  end.

Definition platform : runtime :=
  {| py_isspace := isspace;
     py_lower := lower;
     py_int := int;
     json_loads := loads;
     icontains := contains_folded |}.

(** Three products and one tag. *)
Definition lamp : Product :=
  {| product_id := 2; product_name := Some (u "Studio Lamp");
     product_description := Some (u "soft light"); product_article := Some (u "L-02");
     product_created_at := 20; product_tags := [1] |}.

Definition chair : Product :=
  {| product_id := 5; product_name := Some (u "Folding chair");
     product_description := None; product_article := Some (u "C-05");
     product_created_at := 10; product_tags := [] |}.

Definition mic : Product :=
  {| product_id := 9; product_name := Some (u "Microphone");
     product_description := Some (u "condenser, with lamp indicator");
     product_article := Some (u "M-09");
     product_created_at := 30; product_tags := [1] |}.

Definition light_tag : Tag :=
  {| tag_id := 1; tag_parent := None; tag_order := 0; tag_name := u "Light" |}.

(** The text [{"relevant_products": [5, 2, 9, 77]}]. *)
Definition ranked_reply : str :=
  u "{" ++ [34%N] ++ u "relevant_products" ++ [34%N] ++ u ": [5, 2, 9, 77]}".

(** The text [{"relevant_products": [77, 78]}]: identifiers of no product. *)
Definition stale_reply : str :=
  u "{" ++ [34%N] ++ u "relevant_products" ++ [34%N] ++ u ": [77, 78]}".

Definition shop (reply : llm_outcome) : world :=
  {| catalog := [lamp; chair; mic];
     tag_table := [light_tag];
     get_descendants := fun _ => [];
     llm := fun _ => reply |}.

Definition empty_shop (reply : llm_outcome) : world :=
  {| catalog := [];
     tag_table := [];
     get_descendants := fun _ => [];
     llm := fun _ => reply |}.

Definition with_key : settings :=
  {| OPENAI_AVAILABLE := true; OPENAI_API_KEY := Some (u "sk-test") |}.

Definition without_key : settings :=
  {| OPENAI_AVAILABLE := true; OPENAI_API_KEY := None |}.

Definition blank_key : settings :=
  {| OPENAI_AVAILABLE := true; OPENAI_API_KEY := Some (u "  ") |}.

(** The service as built at start-up with a credential, and without one. *)
Definition configured : SmartSearchService := smart_search_service platform with_key.
Definition unconfigured : SmartSearchService := smart_search_service platform without_key.

(** [GET /?search=lamp] *)
Definition search_lamp : request :=
  {| GET_search := Some (u "lamp"); GET_tag := None;
     session_tag_sort_preference := None |}.

(** [GET /?tag=abc] *)
Definition tag_abc : request :=
  {| GET_search := None; GET_tag := Some (u "abc");
     session_tag_sort_preference := None |}.

(** [GET /?tag=7]: a number, the identifier of no tag. *)
Definition tag_7 : request :=
  {| GET_search := None; GET_tag := Some (u "7");
     session_tag_sort_preference := None |}.

End Sample.

(** ** A sample back office, for the examples *)

Module SampleCart.
Import Sample.

(** Amounts in the smallest unit of the currency; a price is multiplied by
    integers only. *)
Definition scale (price : Z) (v : json) : halt + Z :=
  match int_value v with
  | Some n => inr (price * n)
  | None => inl (Raised TypeError)
  end.

Definition resolve (to : str) (product_id : option Z) : halt + str :=
  if bool_decide (to = u "rental:cart") then inr (u "/cart/")
  else if bool_decide (to = u "rental:product_detail") then
    match product_id with
    | Some n => inr (u "/product/" ++ str_of_int n ++ u "/")
    | None => inl NoReverseMatch
    end
  else if existsb (fun c => bool_decide (c = 47%N)) to then inr to
  else inl NoReverseMatch.

(** Four lamps at 1500 a day, one microphone at 900 a day; no chair. *)
Definition office : backoffice Z :=
  {| shelves := [ {| stocked_product := lamp; available_quantity := 4;
                     daily_price := 1500 |};
                  {| stocked_product := mic; available_quantity := 1;
                     daily_price := 900 |} ];
     times := scale;
     plus := Z.add;
     zero := 0;
     resolve_redirect := resolve |}.

Definition visitor (cart : option pydict) (plan : fault_plan) : browser :=
  {| session_cart := cart; session_use_smart_search := None;
     session_modified := false; notices := []; db_plan := plan |}.

Definition post (quantity days : option str) : cart_request :=
  {| method := u "POST"; POST_product_id := None; POST_quantity := quantity;
     POST_days := days; GET_product_id := None; GET_days := None;
     HTTP_REFERER := Some (u "/catalog/"); body := [] |}.

Definition post_quantity (product_id quantity : str) : cart_request :=
  {| method := u "POST"; POST_product_id := Some product_id;
     POST_quantity := Some quantity; POST_days := None;
     GET_product_id := None; GET_days := None;
     HTTP_REFERER := None; body := [] |}.

Definition get_days (product_id days : str) : cart_request :=
  {| method := u "GET"; POST_product_id := None; POST_quantity := None;
     POST_days := None; GET_product_id := Some product_id; GET_days := Some days;
     HTTP_REFERER := None; body := [] |}.

Definition post_body (text : str) : cart_request :=
  {| method := u "POST"; POST_product_id := None; POST_quantity := None;
     POST_days := None; GET_product_id := None; GET_days := None;
     HTTP_REFERER := None; body := text |}.

(** Two lamps for three days, a legacy entry for the microphone, and an
    entry for the chair, which is no longer on the shelves. *)
Definition some_cart : pydict :=
  [ (u "2", entry (JInt 2) (JInt 3)); (u "9", JInt 1); (u "5", entry (JInt 1) (JInt 1)) ].

(** [GET /?search=seat&tag=1] and [GET /?tag=1] *)
Definition seat_with_light_tag : request :=
  {| GET_search := Some (u "seat"); GET_tag := Some (u "1");
     session_tag_sort_preference := None |}.

Definition light_tag_only : request :=
  {| GET_search := None; GET_tag := Some (u "1");
     session_tag_sort_preference := None |}.

(** The text [[5, 2]]: JSON, but no object. *)
Definition bare_list_reply : str := u "[5, 2]".

Definition stocked_lamp : stocked Z :=
  {| stocked_product := lamp; available_quantity := 4; daily_price := 1500 |}.

Definition stocked_mic : stocked Z :=
  {| stocked_product := mic; available_quantity := 1; daily_price := 900 |}.

(** A visitor with [some_cart] in the session, on a database that answers. *)
Definition shopper : browser := visitor (Some some_cart) [].

(** Two more lamps, for three days. *)
Definition two_more_lamps : cart_request := post (Some (u "2")) (Some (u "3")).

(** A POST with quantity "x" for product 2, and days "x" for product 9 in
    the query string. *)
Definition garbled : cart_request :=
  {| method := u "POST"; POST_product_id := Some (u "2");
     POST_quantity := Some (u "x"); POST_days := None;
     GET_product_id := Some (u "9"); GET_days := Some (u "x");
     HTTP_REFERER := None; body := [] |}.

End SampleCart.

(* ------------------------------------------------------------------ *)
(** * Properties *)

(** ** The effect monad *)

Lemma db_calm {A} (q : sql) (x : A) : db q x [] = Run (inr x) [] [DbQuery q].
Proof. reflexivity. Qed.

Lemma db_outcome {A} (q : sql) (x y : A) fs :
  outcome (db q x fs) = inr y -> y = x.
Proof.
  destruct fs as [|[|n] fs]; simpl; intros H; inversion H; reflexivity.
Qed.

Lemma db_emitted {A} (q : sql) (x : A) fs : emitted (db q x fs) = [DbQuery q].
Proof. destruct fs as [|[|n] fs]; reflexivity. Qed.

Lemma bind_outcome {A B} (m : M A) (k : A -> M B) fs b :
  outcome (bind m k fs) = inr b ->
  exists a, outcome (m fs) = inr a /\ outcome (k a (rest (m fs))) = inr b.
Proof.
  unfold bind. destruct (outcome (m fs)) as [e|a] eqn:E; simpl; intros H.
  - discriminate.
  - exists a. split; [reflexivity | exact H].
Qed.

Lemma bind_emitted {A B} (m : M A) (k : A -> M B) fs ev :
  In ev (emitted (bind m k fs)) ->
  In ev (emitted (m fs))
  \/ exists a, outcome (m fs) = inr a /\ In ev (emitted (k a (rest (m fs)))).
Proof.
  unfold bind. destruct (outcome (m fs)) as [e|a] eqn:E; simpl; intros H.
  - left. exact H.
  - apply in_app_or in H. destruct H as [H|H]; [left; exact H|].
    right. exists a. split; [reflexivity | exact H].
Qed.

(** ** The Literal Matcher *)

Section LiteralMatcherFacts.
Variable rt : runtime.
Variable w : world.

Lemma Q_truthy_union a b : Q_truthy (Q_union a b) = Q_truthy a || Q_truthy b.
Proof. destruct a, b; reflexivity. Qed.

Lemma Q_sat_union a b p : Q_sat rt (Q_union a b) p = Q_sat rt a p || Q_sat rt b p.
Proof.
  unfold Q_sat. destruct a, b; simpl;
    rewrite ?orb_false_r, ?andb_true_l; reflexivity.
Qed.

Lemma Q_sat_icontains c t p : Q_sat rt (Q_icontains c t) p = column_icontains rt c t p.
Proof. reflexivity. Qed.

(** One pass of the loop adds the three predicates of a long term and
    nothing for a short one. *)
Lemma add_term_sat q term p :
  Q_sat rt (add_term q term) p
  = Q_sat rt q p || ((2 <? length term)%nat && term_matches rt term p).
Proof.
  unfold add_term, term_matches. destruct (2 <? length term)%nat.
  - rewrite !Q_sat_union, !Q_sat_icontains. simpl.
    rewrite orb_false_r, !orb_assoc. reflexivity.
  - simpl. rewrite orb_false_r. reflexivity.
Qed.

Lemma add_term_truthy q term :
  Q_truthy (add_term q term) = Q_truthy q || (2 <? length term)%nat.
Proof.
  unfold add_term. destruct (2 <? length term)%nat.
  - rewrite !Q_truthy_union. simpl. rewrite orb_true_r. reflexivity.
  - rewrite orb_false_r. reflexivity.
Qed.

Lemma loop_sat terms : forall q p,
  Q_sat rt (fold_left add_term terms q) p
  = Q_sat rt q p
    || existsb (fun term => (2 <? length term)%nat && term_matches rt term p) terms.
Proof.
  induction terms as [|term terms IH]; intros q p; simpl.
  - rewrite orb_false_r. reflexivity.
  - rewrite IH, add_term_sat, orb_assoc. reflexivity.
Qed.

Lemma loop_truthy terms : forall q,
  Q_truthy (fold_left add_term terms q)
  = Q_truthy q || existsb (fun term => (2 <? length term)%nat) terms.
Proof.
  induction terms as [|term terms IH]; intros q; simpl.
  - rewrite orb_false_r. reflexivity.
  - rewrite IH, add_term_truthy, orb_assoc. reflexivity.
Qed.

Lemma existsb_survivors (keep test : str -> bool) terms :
  existsb test (List.filter keep terms)
  = existsb (fun term => keep term && test term) terms.
Proof.
  induction terms as [|term terms IH]; simpl; [reflexivity|].
  destruct (keep term); simpl; rewrite IH; reflexivity.
Qed.

Lemma no_survivor_no_match query :
  Q_truthy (fold_left add_term (py_split rt (py_lower rt query)) Q_empty) = false ->
  literal_match rt w query = [].
Proof.
  rewrite loop_truthy. simpl. intros H.
  unfold literal_match, surviving_terms.
  induction (py_split rt (py_lower rt query)) as [|term terms IH].
  - simpl. induction (catalog w); simpl; auto.
  - simpl in H. apply orb_false_elim in H. destruct H as [H1 H2].
    simpl. rewrite H1. apply IH. exact H2.
Qed.

(** The rows the database keeps for the built [Q] are the rows matching a
    surviving term. *)
Lemma filter_is_literal_match query :
  let q_objects := fold_left add_term (py_split rt (py_lower rt query)) Q_empty in
  Q_truthy q_objects = true ->
  map product_id (List.filter (Q_matches rt q_objects) (catalog w))
  = literal_match rt w query.
Proof.
  intros q_objects Ht. unfold literal_match. f_equal.
  apply List.filter_ext. intros p.
  assert (Hs : Q_matches rt q_objects p = Q_sat rt q_objects p)
    by (unfold Q_sat; rewrite Ht; reflexivity).
  rewrite Hs. unfold q_objects. rewrite loop_sat. simpl.
  unfold surviving_terms. rewrite existsb_survivors. reflexivity.
Qed.

(** What [fallback_search] does on every fault plan: no query at all when
    no term survives, one [filter] query otherwise. *)
Lemma fallback_search_run query fs :
  fallback_search rt w query fs
  = if Q_truthy (fold_left add_term (py_split rt (py_lower rt query)) Q_empty)
    then db (Sql_product_filter
               (fold_left add_term (py_split rt (py_lower rt query)) Q_empty))
            (literal_match rt w query) fs
    else Run (inr []) fs [].
Proof.
  unfold fallback_search.
  destruct (Q_truthy _) eqn:Ht; [|reflexivity].
  rewrite (filter_is_literal_match query Ht). reflexivity.
Qed.

Lemma fallback_search_calm query :
  outcome (fallback_search rt w query []) = inr (literal_match rt w query)
  /\ rest (fallback_search rt w query []) = [].
Proof.
  rewrite fallback_search_run.
  destruct (Q_truthy _) eqn:Ht; simpl; [auto|].
  rewrite (no_survivor_no_match query Ht). auto.
Qed.

Lemma fallback_search_returns query fs ids :
  outcome (fallback_search rt w query fs) = inr ids ->
  ids = literal_match rt w query.
Proof.
  rewrite fallback_search_run.
  destruct (Q_truthy _) eqn:Ht.
  - apply db_outcome.
  - simpl. intros H. inversion H. symmetry. apply no_survivor_no_match, Ht.
Qed.

(** [fallback_search] never builds the catalog context and never calls the
    LLM: it emits at most its one [filter] query. *)
Lemma fallback_search_emitted query fs ev :
  In ev (emitted (fallback_search rt w query fs)) ->
  exists q, ev = DbQuery (Sql_product_filter q).
Proof.
  rewrite fallback_search_run.
  destruct (Q_truthy _).
  - rewrite db_emitted. intros [H|[]]. eexists. symmetry. exact H.
  - intros [].
Qed.

Lemma all_short_none_long terms :
  Forall (fun term : str => (length term <= 2)%nat) terms ->
  existsb (fun term : str => (2 <? length term)%nat) terms = false.
Proof.
  induction 1 as [|term terms Hs _ IH]; simpl; [reflexivity|].
  destruct (Nat.ltb_spec 2 (length term)); [lia | exact IH].
Qed.

(** Where lower-casing works character by character and keeps whitespace
    apart from the rest, as it does outside of U+0130, the terms of the
    lower-cased query are the lower-cased terms of the query: same number,
    same lengths. *)
Lemma split_from_map (f : codepoint -> codepoint) :
  (forall c, py_isspace rt (f c) = py_isspace rt c) ->
  forall s cur,
    split_from rt (map f cur) (map f s) = map (map f) (split_from rt cur s).
Proof.
  intros Hf. induction s as [|c s IH]; intros cur; simpl.
  - destruct cur; simpl; [reflexivity|].
    rewrite List.map_app, List.map_rev. reflexivity.
  - rewrite Hf. destruct (py_isspace rt c).
    + destruct cur; simpl; [apply (IH [])|].
      rewrite List.map_app, List.map_rev. f_equal. apply (IH []).
    + apply (IH (c :: cur)).
Qed.

Lemma terms_of_lowered_query (f : codepoint -> codepoint) (query : str) :
  (forall c, py_isspace rt (f c) = py_isspace rt c) ->
  py_lower rt query = map f query ->
  py_split rt (py_lower rt query) = map (map f) (py_split rt query)
  /\ map (@length codepoint) (py_split rt (py_lower rt query))
     = map (@length codepoint) (py_split rt query).
Proof.
  intros Hf Hl. rewrite Hl. unfold py_split.
  rewrite (split_from_map f Hf query [] : split_from rt [] (map f query) = _).
  split; [reflexivity|].
  rewrite List.map_map. apply List.map_ext. intros t. apply length_map.
Qed.

(** C5.  [fallback_search] lower-cases the query, splits it on whitespace
    and drops every term of length at most 2; what it returns is the list
    of identifiers of the products one of whose columns name, description,
    article contains (case-insensitively) one of the surviving terms, in
    store order: it does so on a database that answers, and it returns
    nothing else on any fault plan.  When every term has length at most 2
    it returns the empty list without asking the database, on every fault
    plan. *)
Theorem fallback_search_literal_match (query : str) :
  outcome (fallback_search rt w query []) = inr (literal_match rt w query)
  /\ (forall fs ids, outcome (fallback_search rt w query fs) = inr ids ->
                     ids = literal_match rt w query)
  /\ (Forall (fun term : str => (length term <= 2)%nat)
             (py_split rt (py_lower rt query)) ->
      literal_match rt w query = []
      /\ forall fs, fallback_search rt w query fs = Run (inr []) fs []).
Proof.
  split; [apply fallback_search_calm|].
  split; [intros fs ids; apply fallback_search_returns|].
  intros Hshort.
  assert (Ht : Q_truthy (fold_left add_term (py_split rt (py_lower rt query)) Q_empty)
               = false).
  { rewrite loop_truthy. simpl. apply all_short_none_long, Hshort. }
  split; [apply no_survivor_no_match, Ht|].
  intros fs. rewrite fallback_search_run, Ht. reflexivity.
Qed.

End LiteralMatcherFacts.

(** ** Reasoning about runs *)

Section RunFacts.
Context {A B : Type}.

Lemma returns_only_ret (P : A -> Prop) a : P a -> returns_only P (ret a).
Proof. intros H fs a' E. inversion E. subst. exact H. Qed.

Lemma returns_only_raise (P : A -> Prop) e : returns_only P (raise e).
Proof. intros fs a E. discriminate. Qed.

Lemma returns_only_db (P : A -> Prop) q x : P x -> returns_only P (db q x).
Proof. intros H fs a E. apply db_outcome in E. subst. exact H. Qed.

Lemma returns_only_lift (P : A -> Prop) (r : exn + A) :
  (forall a, r = inr a -> P a) -> returns_only P (lift r).
Proof.
  intros H. destruct r as [e|a]; simpl.
  - apply returns_only_raise.
  - apply returns_only_ret, H. reflexivity.
Qed.

Lemma returns_only_bind (P : B -> Prop) (m : M A) (k : A -> M B) :
  (forall a, returns_only P (k a)) -> returns_only P (bind m k).
Proof.
  intros H fs b E. apply bind_outcome in E. destruct E as (a & _ & E).
  exact (H a _ _ E).
Qed.

(** The continuation only matters on the values [m] can return. *)
Lemma returns_only_bind_on (Q : A -> Prop) (P : B -> Prop) (m : M A) (k : A -> M B) :
  returns_only Q m -> (forall a, Q a -> returns_only P (k a)) ->
  returns_only P (bind m k).
Proof.
  intros Hm H fs b E. apply bind_outcome in E. destruct E as (a & Ea & E).
  exact (H a (Hm _ _ Ea) _ _ E).
Qed.

Lemma returns_only_try (P : A -> Prop) (body : M A) handles handler :
  returns_only P body -> (forall e, returns_only P (handler e)) ->
  returns_only P (try_except body handles handler).
Proof.
  intros Hb Hh fs a. unfold try_except.
  destruct (outcome (body fs)) as [e|a'] eqn:E.
  - destruct (handles e); simpl.
    + apply Hh.
    + rewrite E. discriminate.
  - rewrite E. intros E'. inversion E'. subst. exact (Hb _ _ E).
Qed.

Lemma stays_calm_ret (a : A) : stays_calm (ret a).
Proof. reflexivity. Qed.

Lemma stays_calm_raise (e : exn) : stays_calm (@raise A e).
Proof. reflexivity. Qed.

Lemma stays_calm_db q (x : A) : stays_calm (db q x).
Proof. reflexivity. Qed.

Lemma stays_calm_lift (r : exn + A) : stays_calm (lift r).
Proof. destruct r; reflexivity. Qed.

Lemma stays_calm_bind (m : M A) (k : A -> M B) :
  stays_calm m -> (forall a, stays_calm (k a)) -> stays_calm (bind m k).
Proof.
  unfold stays_calm, bind. intros Hm Hk.
  destruct (outcome (m [])); simpl; [exact Hm|]. rewrite Hm. apply Hk.
Qed.

Lemma stays_calm_try (body : M A) handles handler :
  stays_calm body -> (forall e, stays_calm (handler e)) ->
  stays_calm (try_except body handles handler).
Proof.
  unfold stays_calm, try_except. intros Hb Hh.
  destruct (outcome (body [])) as [e|a]; [|exact Hb].
  destruct (handles e); simpl; [|exact Hb]. rewrite Hb. apply Hh.
Qed.

Lemma offline_ret (a : A) : offline (ret a).
Proof. intros fs p []. Qed.

Lemma offline_raise (e : exn) : offline (@raise A e).
Proof. intros fs p []. Qed.

Lemma offline_db q (x : A) : offline (db q x).
Proof. intros fs p. rewrite db_emitted. intros [H|[]]. discriminate. Qed.

Lemma offline_bind (m : M A) (k : A -> M B) :
  offline m -> (forall a, offline (k a)) -> offline (bind m k).
Proof.
  intros Hm Hk fs p H. apply bind_emitted in H.
  destruct H as [H|(a & _ & H)]; [exact (Hm _ _ H) | exact (Hk _ _ _ H)].
Qed.

Lemma offline_bind_on (Q : A -> Prop) (m : M A) (k : A -> M B) :
  offline m -> returns_only Q m -> (forall a, Q a -> offline (k a)) ->
  offline (bind m k).
Proof.
  intros Hm HQ Hk fs p H. apply bind_emitted in H.
  destruct H as [H|(a & E & H)]; [exact (Hm _ _ H)|].
  exact (Hk a (HQ _ _ E) _ _ H).
Qed.

Lemma offline_try (body : M A) handles handler :
  offline body -> (forall e, offline (handler e)) ->
  offline (try_except body handles handler).
Proof.
  intros Hb Hh fs p. unfold try_except.
  destruct (outcome (body fs)) as [e|a]; [|apply Hb].
  destruct (handles e); simpl; [|apply Hb].
  intros H. apply in_app_or in H.
  destruct H as [H|H]; [exact (Hb _ _ H) | exact (Hh _ _ _ H)].
Qed.

End RunFacts.

Lemma stays_calm_emit ev : stays_calm (emit ev).
Proof. reflexivity. Qed.

Lemma offline_log l : offline (emit (Log l)).
Proof. intros fs p [H|[]]. discriminate. Qed.

(** On a database that answers, a bind runs its continuation there. *)
Lemma bind_calm {A B} (m : M A) (k : A -> M B) a :
  outcome (m []) = inr a -> stays_calm m ->
  outcome (bind m k []) = outcome (k a []).
Proof.
  unfold stays_calm, bind. intros E Hc. rewrite E, Hc. reflexivity.
Qed.

Lemma bind_calm_raises {A B} (m : M A) (k : A -> M B) e :
  outcome (m []) = inl e -> outcome (bind m k []) = inl e.
Proof. unfold bind. intros E. rewrite E. reflexivity. Qed.

Lemma bind_emitted_calm {A B} (m : M A) (k : A -> M B) a :
  outcome (m []) = inr a -> stays_calm m ->
  emitted (bind m k []) = emitted (m []) ++ emitted (k a []).
Proof.
  unfold stays_calm, bind. intros E Hc. rewrite E, Hc. reflexivity.
Qed.

Lemma bind_emitted_raises {A B} (m : M A) (k : A -> M B) e :
  outcome (m []) = inl e -> emitted (bind m k []) = emitted (m []).
Proof. unfold bind. intros E. rewrite E. reflexivity. Qed.

Lemma try_emitted_returns {A} (body : M A) handles handler a :
  outcome (body []) = inr a ->
  emitted (try_except body handles handler []) = emitted (body []).
Proof. unfold try_except. intros E. rewrite E. reflexivity. Qed.

Lemma try_emitted_handles {A} (body : M A) handles handler e :
  outcome (body []) = inl e -> handles e = true -> stays_calm body ->
  emitted (try_except body handles handler [])
  = emitted (body []) ++ emitted (handler e []).
Proof.
  unfold try_except, stays_calm. intros E Hh Hc. rewrite E, Hh, Hc. reflexivity.
Qed.

Lemma try_calm_returns {A} (body : M A) handles handler a :
  outcome (body []) = inr a ->
  outcome (try_except body handles handler []) = inr a.
Proof. unfold try_except. intros E. rewrite E. exact E. Qed.

Lemma try_calm_handles {A} (body : M A) handles handler e :
  outcome (body []) = inl e -> handles e = true -> stays_calm body ->
  outcome (try_except body handles handler []) = outcome (handler e []).
Proof.
  unfold try_except, stays_calm. intros E Hh Hc. rewrite E, Hh, Hc. reflexivity.
Qed.

(** ** The Semantic Query Service *)

Section SearchFacts.
Variable rt : runtime.
Variable w : world.

Local Abbreviation fallback := (fallback_search rt w).
Local Abbreviation search := (search_with_chatgpt rt w).

Lemma fallback_stays_calm query : stays_calm (fallback query).
Proof. apply fallback_search_calm. Qed.

Lemma fallback_offline query : offline (fallback query).
Proof.
  intros fs p H. apply fallback_search_emitted in H.
  destruct H as [q H]. discriminate.
Qed.

Lemma literal_match_existing query id :
  In id (literal_match rt w query) -> In id (map product_id (catalog w)).
Proof.
  unfold literal_match. rewrite !in_map_iff.
  intros (p & E & H). apply List.filter_In in H. exists p. tauto.
Qed.

Lemma literal_match_empty_catalog query :
  catalog w = [] -> literal_match rt w query = [].
Proof. unfold literal_match. intros E. rewrite E. reflexivity. Qed.

Lemma fallback_existing query :
  returns_only (fun ids => forall id, In id ids -> In id (map product_id (catalog w)))
               (fallback query).
Proof.
  intros fs ids E id. apply fallback_search_returns in E. subst.
  apply literal_match_existing.
Qed.

(** The comprehension of line 131 keeps members of [existing_ids] only, in
    the order of [product_ids]. *)
Lemma keep_existing_sound items (existing_ids : gset Z) : forall valid,
  keep_existing items existing_ids = inr valid ->
  forall id, In id valid -> id ∈ existing_ids.
Proof.
  induction items as [|pid items IH]; simpl; intros valid E id Hin.
  - inversion E. subst. destruct Hin.
  - destruct (hash_key pid) as [e|k]; [discriminate|].
    destruct (keep_existing items existing_ids) as [e|valid']; [discriminate|].
    inversion E. subst. clear E.
    destruct k as [n|]; [|exact (IH _ eq_refl _ Hin)].
    destruct (bool_decide (n ∈ existing_ids)) eqn:Hn; [|exact (IH _ eq_refl _ Hin)].
    destruct Hin as [<-|Hin]; [|exact (IH _ eq_refl _ Hin)].
    apply bool_decide_eq_true in Hn. exact Hn.
Qed.

Lemma validate_existing text valid id :
  validate rt w text = inr valid -> In id valid ->
  In id (map product_id (catalog w)).
Proof.
  unfold validate.
  destruct (json_loads rt text) as [result|]; [|discriminate].
  destruct (get_relevant_products result) as [e|product_ids]; [discriminate|].
  destruct (py_iter product_ids) as [e|items]; [discriminate|].
  intros E Hin. pose proof (keep_existing_sound _ _ _ E _ Hin) as H.
  apply elem_of_list_to_set in H. apply list_elem_of_In. exact H.
Qed.

(** If no item is equal to an existing identifier, nothing is kept: the
    comprehension yields the empty list, or raises on an unhashable item. *)
Lemma keep_existing_disjoint items (existing_ids : gset Z) :
  (forall v n, In v items -> hash_key v = inr (Some n) -> n ∉ existing_ids) ->
  keep_existing items existing_ids = inr []
  \/ exists e, keep_existing items existing_ids = inl e.
Proof.
  induction items as [|pid items IH]; simpl; intros H; [left; reflexivity|].
  destruct (hash_key pid) as [e|k] eqn:Ek; [right; eauto|].
  destruct IH as [IH|[e IH]]; [intros v n Hv; apply H; right; exact Hv| |];
    rewrite IH; [|right; eauto].
  left. destruct k as [n|]; [|reflexivity].
  rewrite bool_decide_eq_false_2; [reflexivity|].
  apply (H pid n); [left; reflexivity | exact Ek].
Qed.

Local Abbreviation existing :=
  (fun ids : list Z => forall id, In id ids -> In id (map product_id (catalog w))).

Lemma validated_ids_existing query text :
  returns_only existing (validated_ids rt w query text).
Proof.
  unfold validated_ids.
  apply returns_only_bind. intros result.
  apply returns_only_bind. intros product_ids.
  apply (returns_only_bind_on (fun ids => ids = map product_id (catalog w))).
  { apply returns_only_db. reflexivity. }
  intros ids ->.
  apply returns_only_bind. intros items.
  apply (returns_only_bind_on
           (fun valid => keep_existing items (list_to_set (map product_id (catalog w)))
                         = inr valid)).
  { apply returns_only_lift. auto. }
  intros valid Hvalid.
  destruct valid as [|id0 valid]; [apply fallback_existing|].
  apply returns_only_ret. intros id Hin.
  pose proof (keep_existing_sound _ _ _ Hvalid _ Hin) as H.
  apply elem_of_list_to_set in H. apply list_elem_of_In. exact H.
Qed.

Lemma ask_chatgpt_existing query : returns_only existing (ask_chatgpt rt w query).
Proof.
  unfold ask_chatgpt.
  apply returns_only_bind. intros products.
  destruct products as [|info products].
  { apply returns_only_ret. intros id []. }
  apply returns_only_bind. intros content.
  apply returns_only_bind. intros _.
  apply returns_only_try; [apply validated_ids_existing|].
  intros e. apply returns_only_bind. intros _. apply fallback_existing.
Qed.

(** Whatever the database and the LLM do, [search_with_chatgpt] returns
    identifiers of existing products only. *)
Lemma search_existing self query : returns_only existing (search self query).
Proof.
  unfold search_with_chatgpt.
  destruct (negb (api_available self) || negb (api_configured self)).
  { apply returns_only_bind. intros _. apply fallback_existing. }
  apply returns_only_try; [apply ask_chatgpt_existing|].
  intros e. apply returns_only_bind. intros _. apply fallback_existing.
Qed.

Lemma logged_fallback_stays_calm l query :
  stays_calm (emit (Log l) ;;; fallback query).
Proof.
  apply stays_calm_bind; [apply stays_calm_emit|]. intros _. apply fallback_stays_calm.
Qed.

Lemma validated_ids_stays_calm query text : stays_calm (validated_ids rt w query text).
Proof.
  unfold validated_ids.
  apply stays_calm_bind; [apply stays_calm_lift|]. intros result.
  apply stays_calm_bind; [apply stays_calm_lift|]. intros product_ids.
  apply stays_calm_bind; [apply stays_calm_db|]. intros ids.
  apply stays_calm_bind; [apply stays_calm_lift|]. intros items.
  apply stays_calm_bind; [apply stays_calm_lift|]. intros valid.
  destruct valid; [apply fallback_stays_calm | apply stays_calm_ret].
Qed.

Lemma openai_stays_calm p : stays_calm (openai_ChatCompletion_create w p).
Proof.
  apply stays_calm_bind; [apply stays_calm_emit|]. intros _.
  destruct (llm w p); [apply stays_calm_raise | apply stays_calm_ret].
Qed.

Lemma context_stays_calm : stays_calm (get_all_products_for_context w).
Proof.
  apply stays_calm_bind; [apply stays_calm_db|]. intros. apply stays_calm_ret.
Qed.

Lemma ask_chatgpt_stays_calm query : stays_calm (ask_chatgpt rt w query).
Proof.
  unfold ask_chatgpt.
  apply stays_calm_bind; [apply context_stays_calm|].
  intros products. destruct products as [|info products]; [apply stays_calm_ret|].
  apply stays_calm_bind; [apply openai_stays_calm|].
  intros content. apply stays_calm_bind; [apply stays_calm_emit|]. intros _.
  apply stays_calm_try; [apply validated_ids_stays_calm|].
  intros e. apply logged_fallback_stays_calm.
Qed.

Lemma search_stays_calm self query : stays_calm (search self query).
Proof.
  unfold search_with_chatgpt.
  destruct (negb (api_available self) || negb (api_configured self)).
  { apply logged_fallback_stays_calm. }
  apply stays_calm_try; [apply ask_chatgpt_stays_calm|].
  intros e. apply logged_fallback_stays_calm.
Qed.

(** With the service off, [search_with_chatgpt] is a log line followed by
    [fallback_search]. *)
Lemma search_degraded self query fs :
  api_available self = false \/ api_configured self = false ->
  search self query fs
  = Run (outcome (fallback query fs)) (rest (fallback query fs))
        (Log Warning :: emitted (fallback query fs)).
Proof.
  intros H. unfold search_with_chatgpt.
  assert (E : negb (api_available self) || negb (api_configured self) = true).
  { destruct H as [-> | ->]; [reflexivity | apply orb_true_r]. }
  rewrite E. reflexivity.
Qed.

Lemma logged_fallback_calm l query :
  outcome ((emit (Log l) ;;; fallback query) []) = inr (literal_match rt w query).
Proof.
  rewrite (bind_calm _ _ tt); [apply fallback_search_calm | reflexivity | reflexivity].
Qed.

(** The validation block (lines 125-140) on a database that answers. *)
Lemma validation_calm query response_text :
  outcome
    (try_except (validated_ids rt w query response_text)
       is_JSONDecodeError
       (fun _ => emit (Log Error) ;;; fallback query) [])
  = match validate rt w response_text with
    | inr [] => inr (literal_match rt w query)
    | inr valid_ids => inr valid_ids
    | inl JSONDecodeError => inr (literal_match rt w query)
    | inl e => inl e
    end.
Proof.
  pose proof (fallback_search_calm rt w query) as [Hf _].
  unfold validate, validated_ids, try_except, bind.
  destruct (json_loads rt response_text) as [result|]; simpl.
  2:{ exact Hf. }
  destruct (get_relevant_products result) as [e|product_ids]; simpl.
  { destruct e; simpl; solve [reflexivity | exact Hf]. }
  destruct (py_iter product_ids) as [e|items]; simpl.
  { destruct e; simpl; solve [reflexivity | exact Hf]. }
  destruct (keep_existing items _) as [e|valid]; simpl.
  { destruct e; simpl; solve [reflexivity | exact Hf]. }
  destruct valid as [|id valid]; simpl; [|reflexivity].
  rewrite Hf. reflexivity.
Qed.

Lemma ask_chatgpt_calm query :
  outcome (ask_chatgpt rt w query []) = ask_answer rt w query.
Proof.
  unfold ask_chatgpt, ask_answer, prompt_for.
  rewrite (bind_calm _ _ (map product_info_of (catalog w)));
    [|reflexivity|apply context_stays_calm].
  destruct (catalog w) as [|p0 products] eqn:Ecat; [reflexivity|].
  cbn [map]. unfold create_enhanced_search_prompt.
  set (p := {| prompt_query := query; prompt_products := _ |}).
  pose proof (openai_stays_calm p) as Hcalm.
  destruct (llm w p) as [|text] eqn:Ellm.
  - apply bind_calm_raises. unfold openai_ChatCompletion_create, bind. simpl.
    rewrite Ellm. reflexivity.
  - rewrite (bind_calm _ _ text); [|unfold openai_ChatCompletion_create, bind; simpl;
                                    rewrite Ellm; reflexivity|exact Hcalm].
    rewrite (bind_calm _ _ tt); [|reflexivity|reflexivity].
    rewrite validation_calm. unfold validate. rewrite Ecat. reflexivity.
Qed.

Lemma try_calm {A} (body : M A) handler :
  stays_calm body ->
  outcome (try_except body any_Exception handler [])
  = match outcome (body []) with
    | inl e => outcome (handler e [])
    | inr a => inr a
    end.
Proof.
  unfold try_except, stays_calm. intros Hc.
  destruct (outcome (body [])) as [e|a] eqn:E; simpl; [rewrite Hc|]; auto.
Qed.

(** On a database that answers, the service always returns. *)
Lemma search_calm self query :
  outcome (search self query [])
  = inr (if negb (api_available self) || negb (api_configured self)
         then literal_match rt w query
         else semantic_answer rt w query).
Proof.
  unfold search_with_chatgpt, semantic_answer.
  destruct (negb (api_available self) || negb (api_configured self)).
  - apply logged_fallback_calm.
  - rewrite try_calm by apply ask_chatgpt_stays_calm.
    rewrite ask_chatgpt_calm.
    destruct (ask_answer rt w query); [apply logged_fallback_calm | reflexivity].
Qed.

Lemma logged_fallback_offline l query : offline (emit (Log l) ;;; fallback query).
Proof.
  apply offline_bind; [apply offline_log|]. intros _. apply fallback_offline.
Qed.

(** Start-up without the library, or without a credential, leaves the
    service off. *)
Lemma init_off cfg :
  OPENAI_AVAILABLE cfg = false \/ OPENAI_API_KEY cfg = None
  \/ OPENAI_API_KEY cfg = Some [] ->
  api_available (SmartSearchService_init rt cfg) = false
  \/ api_configured (SmartSearchService_init rt cfg) = false.
Proof.
  unfold SmartSearchService_init. simpl.
  intros [H|[H|H]]; rewrite H; auto; right; destruct (OPENAI_AVAILABLE cfg); reflexivity.
Qed.

(** C3.  When the LLM library failed to load, or no credential or an empty
    one was configured at start-up, [search_with_chatgpt] ends as
    [fallback_search] does on the same query and the same database (same
    identifiers or same exception, same state of the database afterwards),
    and none of the events it emits is the snapshot query of the catalog
    context or a call of the LLM. *)
Theorem search_unavailable_is_fallback (cfg : settings) (query : str) (fs : fault_plan) :
  OPENAI_AVAILABLE cfg = false \/ OPENAI_API_KEY cfg = None
  \/ OPENAI_API_KEY cfg = Some [] ->
  let self := SmartSearchService_init rt cfg in
  outcome (search self query fs) = outcome (fallback query fs)
  /\ rest (search self query fs) = rest (fallback query fs)
  /\ forall ev, In ev (emitted (search self query fs)) ->
               ev <> DbQuery Sql_product_values /\ forall p, ev <> LlmCall p.
Proof.
  intros H self. apply init_off in H. fold self in H.
  rewrite (search_degraded self query fs H). simpl.
  split; [reflexivity|]. split; [reflexivity|].
  intros ev [<-|Hin]; [split; [|intros p]; discriminate|].
  apply fallback_search_emitted in Hin. destruct Hin as [q ->].
  split; [|intros p]; discriminate.
Qed.

Lemma ask_chatgpt_empty_catalog query :
  catalog w = [] -> offline (ask_chatgpt rt w query).
Proof.
  intros Ecat. unfold ask_chatgpt.
  apply (offline_bind_on (fun products => products = [])).
  - apply offline_bind; [apply offline_db|]. intros. apply offline_ret.
  - unfold get_all_products_for_context.
    apply (returns_only_bind_on (fun products => products = [])).
    + apply returns_only_db. exact Ecat.
    + intros products ->. apply returns_only_ret. reflexivity.
  - intros products ->. apply offline_ret.
Qed.

(** C7.  With no product in the catalog, [search_with_chatgpt] returns the
    empty list on a database that answers; it calls the LLM on no fault
    plan; and when the service is available and configured the snapshot
    query is all it does. *)
Theorem search_empty_catalog (self : SmartSearchService) (query : str) :
  catalog w = [] ->
  outcome (search self query []) = inr []
  /\ (forall fs p, ~ In (LlmCall p) (emitted (search self query fs)))
  /\ (api_available self = true -> api_configured self = true ->
      search self query [] = Run (inr []) [] [DbQuery Sql_product_values]).
Proof.
  intros Ecat. split; [|split].
  - rewrite search_calm. unfold semantic_answer, ask_answer.
    rewrite Ecat, (literal_match_empty_catalog query Ecat).
    destruct (negb _ || negb _); reflexivity.
  - unfold search_with_chatgpt.
    destruct (negb _ || negb _); [apply logged_fallback_offline|].
    apply offline_try; [apply ask_chatgpt_empty_catalog, Ecat|].
    intros e. apply logged_fallback_offline.
  - intros Ha Hc. unfold search_with_chatgpt, try_except, ask_chatgpt,
      get_all_products_for_context, bind.
    rewrite Ha, Hc, Ecat. reflexivity.
Qed.

(** C6.  When the text the LLM answers for the query is no JSON,
    [search_with_chatgpt] returns what [fallback_search] returns for the
    query: the Literal Matcher's identifiers, no exception.  On the path
    that reached the LLM the failure is logged before the fallback runs. *)
Theorem search_malformed_json_is_fallback (self : SmartSearchService)
    (query text : str) :
  llm w (prompt_for w query) = LlmContent text ->
  json_loads rt (py_strip rt text) = None ->
  outcome (search self query []) = outcome (fallback query [])
  /\ outcome (fallback query []) = inr (literal_match rt w query)
  /\ (api_available self = true -> api_configured self = true ->
      catalog w <> [] ->
      emitted (search self query [])
      = [DbQuery Sql_product_values; LlmCall (prompt_for w query);
         Log Info; Log Error] ++ emitted (fallback query [])).
Proof.
  intros Hllm Hjson.
  pose proof (fallback_search_calm rt w query) as [Hf Hr].
  split; [|split; [exact Hf|]].
  - rewrite search_calm, Hf. f_equal.
    destruct (negb _ || negb _); [reflexivity|].
    unfold semantic_answer, ask_answer, validate.
    rewrite Hllm, Hjson. destruct (catalog w) eqn:Ecat; [|reflexivity].
    symmetry. apply literal_match_empty_catalog, Ecat.
  - intros Ha Hc Hcat.
    assert (Hv : outcome (validated_ids rt w query (py_strip rt text) [])
                 = inl JSONDecodeError).
    { unfold validated_ids. apply bind_calm_raises. rewrite Hjson. reflexivity. }
    assert (Hask : outcome (ask_chatgpt rt w query []) = inr (literal_match rt w query)).
    { rewrite ask_chatgpt_calm. unfold ask_answer, validate. rewrite Hllm, Hjson.
      destruct (catalog w); [congruence | reflexivity]. }
    unfold search_with_chatgpt. rewrite Ha, Hc. cbn [negb orb].
    rewrite (try_emitted_returns _ _ _ _ Hask).
    unfold ask_chatgpt, prompt_for, create_enhanced_search_prompt in *.
    rewrite (bind_emitted_calm _ _ (map product_info_of (catalog w)));
      [|reflexivity|apply context_stays_calm].
    destruct (catalog w) as [|p0 products]; [congruence|]. cbn [map] in *.
    set (p := {| prompt_query := query; prompt_products := _ |}) in *.
    assert (Hopen : openai_ChatCompletion_create w p []
                    = Run (inr text) [] [LlmCall p]).
    { unfold openai_ChatCompletion_create, bind. simpl. rewrite Hllm. reflexivity. }
    rewrite (bind_emitted_calm _ _ text);
      [|rewrite Hopen; reflexivity|apply openai_stays_calm].
    rewrite (bind_emitted_calm _ _ tt); [|reflexivity|reflexivity].
    rewrite (try_emitted_handles _ _ _ _ Hv);
      [|reflexivity|apply validated_ids_stays_calm].
    unfold validated_ids at 1. rewrite (bind_emitted_raises _ _ JSONDecodeError);
      [|rewrite Hjson; reflexivity].
    rewrite (bind_emitted_calm _ _ tt); [|reflexivity|reflexivity].
    rewrite Hopen, Hjson. reflexivity.
Qed.

(** C2.  [search_with_chatgpt] returns on a database that answers, and on
    every fault plan whatever it returns are identifiers of products in the
    catalog.  When the service is on, the catalog is not empty and none of
    the items of [relevant_products] in the LLM's answer is equal to the
    identifier of a product, it returns what [fallback_search] returns. *)
Theorem search_returns_existing_ids (self : SmartSearchService) (query : str) :
  (exists ids, outcome (search self query []) = inr ids)
  /\ (forall fs ids, outcome (search self query fs) = inr ids ->
                     forall id, In id ids -> In id (map product_id (catalog w)))
  /\ (forall text result product_ids items,
        api_available self = true -> api_configured self = true ->
        catalog w <> [] ->
        llm w (prompt_for w query) = LlmContent text ->
        json_loads rt (py_strip rt text) = Some result ->
        get_relevant_products result = inr product_ids ->
        py_iter product_ids = inr items ->
        (forall v n, In v items -> hash_key v = inr (Some n) ->
                     ~ In n (map product_id (catalog w))) ->
        outcome (search self query []) = outcome (fallback query [])
        /\ outcome (fallback query []) = inr (literal_match rt w query)).
Proof.
  split; [|split].
  - rewrite search_calm. eauto.
  - apply search_existing.
  - intros text result product_ids items Ha Hc Hcat Hllm Hjson Hget Hiter Hnone.
    pose proof (fallback_search_calm rt w query) as [Hf _].
    split; [|exact Hf].
    rewrite search_calm, Hf, Ha, Hc. simpl. f_equal.
    unfold semantic_answer, ask_answer, validate.
    rewrite Hllm, Hjson, Hget, Hiter.
    destruct (catalog w) as [|p0 products] eqn:Ecat; [congruence|].
    rewrite <- Ecat in Hnone |- *.
    destruct (keep_existing_disjoint items (list_to_set (map product_id (catalog w))))
      as [E|[e E]].
    + intros v n Hv Hk Hin. apply (Hnone v n Hv Hk).
      apply elem_of_list_to_set in Hin. apply list_elem_of_In. exact Hin.
    + rewrite E. reflexivity.
    + rewrite E. destruct e; reflexivity.
Qed.

End SearchFacts.

(** ** Materialising the ranked identifiers *)

Section SmartSearchFacts.
Variable rt : runtime.
Variable w : world.

(** Every key of the dictionary is the identifier of its value, and every
    value is one of the products it was built from. *)
Lemma dict_by_id_values (all : list Product) : forall products (d : gmap Z Product),
  (forall p, In p products -> In p all) ->
  (forall k v, d !! k = Some v -> product_id v = k /\ In v all) ->
  forall k v,
    fold_left (fun d p => <[product_id p := p]> d) products d !! k = Some v ->
    product_id v = k /\ In v all.
Proof.
  induction products as [|p products IH]; simpl; intros d Hall Hd k v.
  - apply Hd.
  - apply IH.
    + intros p' Hp'. apply Hall. right. exact Hp'.
    + intros k' v'. destruct (decide (product_id p = k')) as [<-|Hne].
      * rewrite lookup_insert_eq. intros E. inversion E. subst.
        split; [reflexivity|]. apply Hall. left. reflexivity.
      * rewrite lookup_insert_ne by exact Hne. apply Hd.
Qed.

(** Every identifier of a product the dictionary was built from is a key. *)
Lemma dict_by_id_keys : forall products (d : gmap Z Product) pid,
  is_Some (d !! pid) \/ In pid (map product_id products) ->
  is_Some (fold_left (fun d p => <[product_id p := p]> d) products d !! pid).
Proof.
  induction products as [|p products IH]; simpl; intros d pid H.
  - destruct H as [H|[]]. exact H.
  - apply IH. destruct (decide (product_id p = pid)) as [<-|Hne].
    + left. rewrite lookup_insert_eq. eauto.
    + rewrite lookup_insert_ne by exact Hne.
      destruct H as [H|[H|H]]; [left; exact H | contradiction | right; exact H].
Qed.

(** Reading the dictionary along [ids] yields one record per identifier, in
    the order of [ids], when every identifier is a key. *)
Lemma ordered_by_ids (d : gmap Z Product) : forall ids,
  (forall pid, In pid ids -> exists v, d !! pid = Some v /\ product_id v = pid) ->
  map product_id (omap (fun pid => d !! pid) ids) = ids.
Proof.
  induction ids as [|pid ids IH]; intros H; [reflexivity|].
  destruct (H pid) as (v & E & Hv); [left; reflexivity|].
  cbn. rewrite E. cbn. rewrite Hv. f_equal.
  apply IH. intros pid' Hin. apply H. right. exact Hin.
Qed.

Lemma strip_truthy (query : str) :
  py_strip rt query <> [] -> str_truthy query = true.
Proof. destruct query; [intros H; contradiction H; reflexivity | reflexivity]. Qed.

(** C4.  For a query that is not blank, on a database that answers:
    [search_with_chatgpt] returns a list of identifiers, [smart_search]
    returns product records of the catalog, and the identifiers of these
    records, read in order, are exactly that list - one record per
    identifier, in the order the search path produced them. *)
Theorem smart_search_preserves_order (self : SmartSearchService) (query : str) :
  py_strip rt query <> [] ->
  exists ids found,
    outcome (search_with_chatgpt rt w self query []) = inr ids
    /\ outcome (smart_search rt w self query []) = inr found
    /\ map product_id (records found) = ids
    /\ forall p, In p (records found) -> In p (catalog w).
Proof.
  intros Hq. pose proof (strip_truthy query Hq) as Hq'.
  pose proof (search_calm rt w self query) as Hs.
  set (ids := if negb (api_available self) || negb (api_configured self)
              then literal_match rt w query else semantic_answer rt w query) in Hs.
  pose proof (search_existing rt w self query [] ids Hs) as Hex.
  unfold smart_search. rewrite Hq'.
  destruct (py_strip rt query) as [|c cs] eqn:Es; [contradiction Hq; reflexivity|].
  cbn [str_truthy negb orb].
  rewrite (bind_calm _ _ ids Hs (search_stays_calm rt w self query)).
  destruct ids as [|id0 ids'] eqn:Eids.
  { exists [], QuerySet_none. simpl. repeat split; auto. intros p []. }
  rewrite <- Eids in *. clear Eids.
  set (products := List.filter (fun p => bool_decide (product_id p ∈ ids)) (catalog w)).
  exists ids, (Ordered (omap (fun pid => dict_by_id products !! pid) ids)).
  assert (Hsub : forall p, In p products -> In p (catalog w)).
  { intros p Hp. apply List.filter_In in Hp. tauto. }
  pose proof (dict_by_id_values (catalog w) products ∅ Hsub) as Hvals.
  split; [exact Hs|]. split; [reflexivity|]. split.
  - apply ordered_by_ids. intros pid Hin.
    destruct (dict_by_id_keys products ∅ pid) as [v Hv].
    { right. pose proof (Hex _ Hin) as Hcat. apply in_map_iff in Hcat.
      destruct Hcat as (p & Ep & Hp). apply in_map_iff. exists p.
      split; [exact Ep|]. apply List.filter_In. split; [exact Hp|].
      apply bool_decide_eq_true. rewrite Ep. apply list_elem_of_In. exact Hin. }
    exists v. split; [exact Hv|]. eapply Hvals; [|exact Hv].
    intros k v'. rewrite lookup_empty. discriminate.
  - simpl. intros p Hp. apply list_elem_of_In, list_elem_of_omap in Hp.
    destruct Hp as (pid & _ & Hp). eapply Hvals; [|exact Hp].
    intros k v'. rewrite lookup_empty. discriminate.
Qed.

End SmartSearchFacts.

(** ** The views *)

Section ViewFacts.
Variable rt : runtime.

Lemma lstrip_blank (s : str) :
  Forall (fun c => py_isspace rt c = true) s -> lstrip rt s = [].
Proof.
  induction 1 as [|c s Hc _ IH]; simpl; [reflexivity|]. rewrite Hc. exact IH.
Qed.

Lemma strip_blank (s : str) :
  Forall (fun c => py_isspace rt c = true) s -> py_strip rt s = [].
Proof. intros H. unfold py_strip. rewrite (lstrip_blank s H). reflexivity. Qed.

(** C8.  With no credential in the settings - the setting absent, or set to
    the empty string - the probe answers available = false and
    configured = false, with no error entry. *)
Theorem status_without_credential (cfg : settings) :
  OPENAI_API_KEY cfg = None \/ OPENAI_API_KEY cfg = Some [] ->
  smart_search_status rt cfg
  = {| status_available := false; status_configured := false;
       status_error := None |}.
Proof.
  unfold smart_search_status. intros [H|H]; rewrite H; reflexivity.
Qed.

(** C9.  With a credential that is not empty and holds only whitespace, the
    probe reports configured = true (and available = true when the library
    loaded), while the service built from the same settings is not
    configured, and each of its searches is a warning in the log followed
    by [fallback_search]. *)
Theorem status_disagrees_on_blank_key (cfg : settings) (api_key : str) :
  OPENAI_API_KEY cfg = Some api_key ->
  api_key <> [] ->
  Forall (fun c => py_isspace rt c = true) api_key ->
  status_configured (smart_search_status rt cfg) = true
  /\ status_available (smart_search_status rt cfg) = OPENAI_AVAILABLE cfg
  /\ api_configured (smart_search_service rt cfg) = false
  /\ forall w query fs,
       search_with_chatgpt rt w (smart_search_service rt cfg) query fs
       = Run (outcome (fallback_search rt w query fs))
             (rest (fallback_search rt w query fs))
             (Log Warning :: emitted (fallback_search rt w query fs)).
Proof.
  intros Hkey Hne Hblank.
  assert (Hoff : api_configured (smart_search_service rt cfg) = false).
  { unfold smart_search_service, SmartSearchService_init. simpl.
    rewrite Hkey, (strip_blank api_key Hblank).
    destruct (OPENAI_AVAILABLE cfg); [apply andb_false_r | reflexivity]. }
  unfold smart_search_status. rewrite Hkey.
  destruct api_key as [|c api_key]; [contradiction Hne; reflexivity|].
  repeat split; try exact Hoff.
  intros w query fs. apply search_degraded. right. exact Hoff.
Qed.

(** No line of the class defines [expand_search_query]; the methods the
    views do call are defined. *)
Lemma expand_search_query_undefined :
  has_attribute "expand_search_query" = false
  /\ has_attribute "smart_search" = true
  /\ has_attribute "api_available" = true.
Proof. repeat split. Qed.

Variable w : world.

Lemma smart_search_stays_calm (self : SmartSearchService) (query : str) :
  stays_calm (smart_search rt w self query).
Proof.
  unfold smart_search.
  destruct (negb (str_truthy query) || negb (str_truthy (py_strip rt query)));
    [apply stays_calm_ret|].
  apply stays_calm_bind; [apply search_stays_calm|].
  intros ids. destruct ids; [apply stays_calm_ret|].
  apply stays_calm_bind; [apply stays_calm_db|]. intros. apply stays_calm_ret.
Qed.

Lemma search_block_stays_calm (self : SmartSearchService) (search_query : str) :
  stays_calm (search_block rt w self search_query).
Proof.
  unfold search_block. destruct (str_truthy search_query); [|apply stays_calm_ret].
  apply stays_calm_try.
  - apply stays_calm_bind; [apply stays_calm_emit|]. intros _.
    apply stays_calm_bind; [apply smart_search_stays_calm|]. intros found.
    destruct (found_truthy found);
      (apply stays_calm_bind; [apply stays_calm_emit|]; intros _; apply stays_calm_ret).
  - intros e. apply stays_calm_bind; [apply stays_calm_emit|]. intros _.
    apply stays_calm_bind; [apply stays_calm_raise|]. intros expanded.
    apply stays_calm_bind; [apply stays_calm_emit|]. intros _. apply stays_calm_ret.
Qed.

(** The handler of the search block raises: whenever [smart_search] raises,
    so does the block, and with [AttributeError]. *)
Lemma search_block_handler_raises (self : SmartSearchService) (search_query : str)
    (fs : fault_plan) (e : exn) :
  str_truthy search_query = true ->
  outcome (smart_search rt w self search_query fs) = inl e ->
  outcome (search_block rt w self search_query fs)
  = inl (AttributeError "expand_search_query").
Proof.
  intros Hq He. unfold search_block. rewrite Hq.
  unfold try_except.
  assert (Hbody : outcome
            ((emit (Log Info) ;;;
              smart_products <- smart_search rt w self search_query ;;
              if found_truthy smart_products
              then emit (Log Info) ;;; ret (PyList (records smart_products), "smart"%string)
              else emit (Log Info) ;;; ret (PyList [], "smart"%string)) fs) = inl e).
  { unfold bind at 1. cbn [emit outcome rest]. unfold bind at 1. rewrite He. reflexivity. }
  rewrite Hbody. reflexivity.
Qed.

(** The search block never yields the mode "fallback". *)
Lemma search_block_never_fallback (self : SmartSearchService) (search_query : str) :
  returns_only (fun r => snd r <> "fallback"%string)
               (search_block rt w self search_query).
Proof.
  unfold search_block. destruct (str_truthy search_query).
  - apply returns_only_try.
    + apply returns_only_bind. intros _. apply returns_only_bind. intros found.
      destruct (found_truthy found); apply returns_only_bind; intros _;
        apply returns_only_ret; discriminate.
    + intros e. apply returns_only_bind. intros _.
      apply returns_only_bind_on with (Q := fun _ => False).
      * intros fs a H. discriminate.
      * intros a [].
  - apply returns_only_ret. discriminate.
Qed.

Lemma product_list_raises_with_search (self : SmartSearchService) (req : request)
    (fs : fault_plan) (e : exn) :
  outcome (search_block rt w self (py_strip rt (get_or (GET_search req) [])) fs) = inl e ->
  outcome (product_list rt w self req fs) = inl e.
Proof.
  intros H. unfold product_list, bind at 1. rewrite H. reflexivity.
Qed.

(** A tag filter that is no number makes the tag block raise. *)
Lemma tag_block_not_a_number (search_query tag_filter sort_preference : str)
    (products : products_value) (search_type : string) (fs : fault_plan) :
  tag_filter <> [] -> py_int rt tag_filter = None ->
  tag_block rt w search_query tag_filter sort_preference products search_type fs
  = Run (inl ValueError) fs [].
Proof.
  intros Hne Hint. unfold tag_block, Tag_objects_get.
  destruct tag_filter as [|c t]; [contradiction Hne; reflexivity|].
  rewrite Hint. reflexivity.
Qed.

(** A tag filter that is a number identifying no tag is ignored by the tag
    block: one query, no exception, [products] and [search_type] as they
    were. *)
Lemma tag_block_unknown_tag (search_query tag_filter sort_preference : str)
    (products : products_value) (search_type : string) (n : Z) :
  py_int rt tag_filter = Some n ->
  (forall t, In t (tag_table w) -> tag_id t <> n) ->
  tag_block rt w search_query tag_filter sort_preference products search_type []
  = Run (inr (None, None, products, search_type)) []
        (if str_truthy tag_filter then [DbQuery (Sql_tag_get n)] else []).
Proof.
  intros Hint Hnone. unfold tag_block, Tag_objects_get.
  destruct (str_truthy tag_filter); [|reflexivity]. rewrite Hint.
  assert (Hfind : List.find (fun t => bool_decide (tag_id t = n)) (tag_table w) = None).
  { induction (tag_table w) as [|t ts IH]; [reflexivity|]. simpl.
    rewrite bool_decide_eq_false_2 by (apply Hnone; left; reflexivity).
    apply IH. intros t' Ht'. apply Hnone. right. exact Ht'. }
  unfold try_except, bind. simpl. rewrite Hfind. reflexivity.
Qed.

Lemma product_list_tag_not_a_number (self : SmartSearchService) (req : request)
    (fs : fault_plan) (tag_filter : str) searched :
  outcome (search_block rt w self (py_strip rt (get_or (GET_search req) [])) fs)
  = inr searched ->
  GET_tag req = Some tag_filter -> tag_filter <> [] ->
  py_int rt tag_filter = None ->
  outcome (product_list rt w self req fs) = inl ValueError.
Proof.
  intros Hs Htag Hne Hint. unfold product_list, bind at 1. rewrite Hs.
  cbn [outcome]. unfold bind at 1. rewrite Htag. cbn [get_or].
  rewrite (tag_block_not_a_number _ _ _ _ _ _ Hne Hint). reflexivity.
Qed.

(** A tag filter that is a number identifying no tag changes nothing: on a
    database that answers, the page carries the products and the mode the
    search block produced, and no selected tag. *)
Lemma product_list_unknown_tag (self : SmartSearchService) (req : request)
    (tag_filter : str) (n : Z) (products : products_value) (search_type : string) :
  GET_tag req = Some tag_filter -> tag_filter <> [] ->
  py_int rt tag_filter = Some n ->
  (forall t, In t (tag_table w) -> tag_id t <> n) ->
  outcome (search_block rt w self (py_strip rt (get_or (GET_search req) [])) [])
  = inr (products, search_type) ->
  outcome (product_list rt w self req [])
  = inr {| ctx_products := products;
           ctx_root_tags :=
             ordering_of (get_or (session_tag_sort_preference req) (u "order"));
           ctx_selected_tag := tag_filter;
           ctx_selected_tag_obj := None;
           ctx_selected_tag_children := None;
           ctx_search_query := py_strip rt (get_or (GET_search req) []);
           ctx_search_type := search_type |}.
Proof.
  intros Htag Hne Hint Hnone Hs. unfold product_list.
  rewrite (bind_calm _ _ _ Hs (search_block_stays_calm self _)).
  rewrite Htag. cbn [get_or fst snd].
  unfold bind at 1.
  rewrite (tag_block_unknown_tag _ _ _ _ _ _ Hint Hnone).
  destruct tag_filter as [|c t]; [contradiction Hne; reflexivity|].
  cbn. rewrite andb_false_r. reflexivity.
Qed.

End ViewFacts.

(** ** The two defects of [product_list] *)

(** C1.  The orchestrator's safety net does not work.  The request
    [?search=lamp] arrives while the service is unconfigured and the first
    query to the database fails: [smart_search] raises [OperationalError],
    [product_list] catches it, and its handler raises [AttributeError] on
    [smart_search_service.expand_search_query], which no line of
    [SmartSearchService] defines.  The exception reaches the caller: no
    synonym-expanded search, no mode "fallback", no warning message. *)
Theorem product_list_safety_net_raises :
  outcome (smart_search Sample.platform (Sample.shop LlmRaises)
             Sample.unconfigured (u "lamp") [0%nat])
  = inl OperationalError
  /\ product_list Sample.platform (Sample.shop LlmRaises)
       Sample.unconfigured Sample.search_lamp [0%nat]
     = Run (inl (AttributeError "expand_search_query")) []
           [Log Info; Log Warning;
            DbQuery (Sql_product_filter
                       (Q_or (Q_or (Q_icontains Name (u "lamp"))
                                   (Q_icontains Description (u "lamp")))
                             (Q_icontains Article (u "lamp"))));
            Log Error].
Proof. split; vm_compute; reflexivity. Qed.

(** C10.  A tag filter that is no number is not ignored.  For the request
    [?tag=abc], [Tag.objects.get(id='abc')] raises [ValueError], which
    [except Tag.DoesNotExist] does not catch: [product_list] raises,
    although "abc" identifies no tag.  The number 7, which identifies no
    tag either, is ignored as intended. *)
Theorem tag_filter_not_a_number_raises :
  outcome (product_list Sample.platform (Sample.shop LlmRaises)
             Sample.unconfigured Sample.tag_abc [])
  = inl ValueError
  /\ outcome (product_list Sample.platform (Sample.shop LlmRaises)
                Sample.unconfigured Sample.tag_7 [])
     = inr {| ctx_products := Lazy Product_all;
              ctx_root_tags := By_order_then_name;
              ctx_selected_tag := u "7";
              ctx_selected_tag_obj := None;
              ctx_selected_tag_children := None;
              ctx_search_query := [];
              ctx_search_type := "all" |}.
Proof. split; vm_compute; reflexivity. Qed.

(** ** The properties at work on the sample shop *)

Module Examples.
Import Sample.

(** "a bb ccc" matches through "ccc" only; "a bb" matches nothing. *)
Example fallback_a_bb_ccc :
  surviving_terms platform (u "a bb ccc") = [u "ccc"]
  /\ fallback_search platform (shop LlmRaises) (u "a bb") [] = Run (inr []) [] [].
Proof. split; vm_compute; reflexivity. Qed.

(** Case folding: "LAMP" finds the lamp, and the microphone whose
    description mentions a lamp, in store order. *)
Example fallback_lamp :
  outcome (fallback_search platform (shop LlmRaises) (u "an LAMP") []) = inr [2; 9].
Proof. vm_compute. reflexivity. Qed.

(** The LLM ranks 5, 2, 9 and invents 77: the invented identifier is
    dropped, the ranking is kept, and the records come out in that order. *)
Example ranked_search :
  outcome (search_with_chatgpt platform (shop (LlmContent ranked_reply))
             configured (u "seat") [])
  = inr [5; 2; 9]
  /\ outcome (smart_search platform (shop (LlmContent ranked_reply))
                configured (u "seat") [])
     = inr (Ordered [chair; lamp; mic]).
Proof. split; vm_compute; reflexivity. Qed.

End Examples.

(** The LLM names 77 and 78, identifiers of no product: the Literal Matcher
    answers. *)
Lemma search_returns_existing_ids_witness :
  outcome (search_with_chatgpt Sample.platform
             (Sample.shop (LlmContent Sample.stale_reply))
             Sample.configured (u "lamp") [])
  = outcome (fallback_search Sample.platform
               (Sample.shop (LlmContent Sample.stale_reply)) (u "lamp") [])
  /\ outcome (fallback_search Sample.platform
                (Sample.shop (LlmContent Sample.stale_reply)) (u "lamp") [])
     = inr (literal_match Sample.platform
              (Sample.shop (LlmContent Sample.stale_reply)) (u "lamp")).
Proof.
  destruct (search_returns_existing_ids Sample.platform
              (Sample.shop (LlmContent Sample.stale_reply))
              Sample.configured (u "lamp")) as (_ & _ & H).
  apply (H Sample.stale_reply
           (JObj [(u "relevant_products", JArr [JInt 77; JInt 78])])
           (JArr [JInt 77; JInt 78]) [JInt 77; JInt 78]);
    try (vm_compute; reflexivity).
  - discriminate.
  - intros v n [<-|[<-|[]]] Hk; inversion Hk; subst; vm_compute;
      intros [H1|[H1|[H1|[]]]]; discriminate H1.
Defined.

(** No credential, and a database that refuses the first query: the search
    fails exactly as [fallback_search] does. *)
Lemma search_unavailable_is_fallback_witness :
  outcome (search_with_chatgpt Sample.platform (Sample.shop LlmRaises)
             (SmartSearchService_init Sample.platform Sample.without_key)
             (u "lamp") [0%nat])
  = outcome (fallback_search Sample.platform (Sample.shop LlmRaises)
               (u "lamp") [0%nat]).
Proof.
  destruct (search_unavailable_is_fallback Sample.platform (Sample.shop LlmRaises)
              Sample.without_key (u "lamp") [0%nat]) as (H & _ & _).
  - right. left. reflexivity.
  - exact H.
Defined.

(** The ranking 5, 2, 9 of the sample reply. *)
Lemma smart_search_preserves_order_witness :
  exists ids found,
    outcome (search_with_chatgpt Sample.platform
               (Sample.shop (LlmContent Sample.ranked_reply))
               Sample.configured (u "seat") []) = inr ids
    /\ outcome (smart_search Sample.platform
                  (Sample.shop (LlmContent Sample.ranked_reply))
                  Sample.configured (u "seat") []) = inr found
    /\ map product_id (records found) = ids
    /\ forall p, In p (records found) ->
                 In p (catalog (Sample.shop (LlmContent Sample.ranked_reply))).
Proof.
  apply (smart_search_preserves_order Sample.platform
           (Sample.shop (LlmContent Sample.ranked_reply))
           Sample.configured (u "seat")).
  vm_compute. discriminate.
Defined.

(** The LLM answers "not json". *)
Lemma search_malformed_json_is_fallback_witness :
  outcome (search_with_chatgpt Sample.platform
             (Sample.shop (LlmContent (u "not json")))
             Sample.configured (u "lamp") [])
  = outcome (fallback_search Sample.platform
               (Sample.shop (LlmContent (u "not json"))) (u "lamp") []).
Proof.
  destruct (search_malformed_json_is_fallback Sample.platform
              (Sample.shop (LlmContent (u "not json")))
              Sample.configured (u "lamp") (u "not json")) as (H & _ & _).
  - reflexivity.
  - vm_compute. reflexivity.
  - exact H.
Defined.

(** An empty shop, service on. *)
Lemma search_empty_catalog_witness :
  outcome (search_with_chatgpt Sample.platform
             (Sample.empty_shop (LlmContent Sample.ranked_reply))
             Sample.configured (u "anything") [])
  = inr [].
Proof.
  destruct (search_empty_catalog Sample.platform
              (Sample.empty_shop (LlmContent Sample.ranked_reply))
              Sample.configured (u "anything")) as (H & _ & _).
  - reflexivity.
  - exact H.
Defined.

(** Settings without [OPENAI_API_KEY]. *)
Lemma status_without_credential_witness :
  smart_search_status Sample.platform Sample.without_key
  = {| status_available := false; status_configured := false;
       status_error := None |}.
Proof.
  apply (status_without_credential Sample.platform Sample.without_key).
  left. reflexivity.
Defined.

(** [OPENAI_API_KEY] set to two spaces. *)
Lemma status_disagrees_on_blank_key_witness :
  status_configured (smart_search_status Sample.platform Sample.blank_key) = true
  /\ api_configured (smart_search_service Sample.platform Sample.blank_key) = false.
Proof.
  destruct (status_disagrees_on_blank_key Sample.platform Sample.blank_key (u "  "))
    as (H1 & _ & H2 & _).
  - reflexivity.
  - discriminate.
  - repeat constructor.
  - split; [exact H1 | exact H2].
Defined.

(* ------------------------------------------------------------------ *)
(** * Further properties of the service *)

(** ** What a run can raise, and how often it calls the LLM *)

Section MoreRunFacts.
Context {A B : Type}.

Lemma raises_only_ret (P : exn -> Prop) (a : A) : raises_only P (ret a).
Proof. intros fs e E. discriminate. Qed.

Lemma raises_only_raise (P : exn -> Prop) e : P e -> raises_only P (@raise A e).
Proof. intros H fs e' E. inversion E. subst. exact H. Qed.

Lemma raises_only_db (P : exn -> Prop) q (x : A) :
  P OperationalError -> raises_only P (db q x).
Proof.
  intros H fs e. destruct fs as [|[|n] fs]; simpl; intros E; inversion E.
  subst. exact H.
Qed.

Lemma raises_only_lift (P : exn -> Prop) (r : exn + A) :
  (forall e, r = inl e -> P e) -> raises_only P (lift r).
Proof.
  intros H. destruct r as [e|a]; simpl.
  - apply raises_only_raise, H. reflexivity.
  - apply raises_only_ret.
Qed.

Lemma raises_only_bind (P : exn -> Prop) (m : M A) (k : A -> M B) :
  raises_only P m -> (forall a, raises_only P (k a)) -> raises_only P (bind m k).
Proof.
  intros Hm Hk fs e. unfold bind.
  destruct (outcome (m fs)) as [e'|a] eqn:E; simpl.
  - intros E'. inversion E'. subst. exact (Hm _ _ E).
  - apply Hk.
Qed.

(** An exception leaves a [try] when the handler raises it, or when the
    body raises it and no clause handles it. *)
Lemma raises_only_try (P : exn -> Prop) (body : M A) handles handler :
  (forall fs e, outcome (body fs) = inl e -> handles e = false -> P e) ->
  (forall e, handles e = true -> raises_only P (handler e)) ->
  raises_only P (try_except body handles handler).
Proof.
  intros Hb Hh fs e. unfold try_except.
  destruct (outcome (body fs)) as [e'|a] eqn:E.
  - destruct (handles e') eqn:He; simpl.
    + apply Hh. exact He.
    + rewrite E. intros E'. inversion E'. subst. exact (Hb _ _ E He).
  - rewrite E. discriminate.
Qed.

Lemma llm_calls_app evs evs' : llm_calls (evs ++ evs') = (llm_calls evs + llm_calls evs')%nat.
Proof. unfold llm_calls. rewrite List.filter_app, length_app. reflexivity. Qed.

Lemma calls_llm_ret n (a : A) : calls_llm_at_most n (ret a).
Proof. intros fs. cbv. lia. Qed.

Lemma calls_llm_raise n e : calls_llm_at_most n (@raise A e).
Proof. intros fs. cbv. lia. Qed.

Lemma calls_llm_db n q (x : A) : calls_llm_at_most n (db q x).
Proof. intros fs. rewrite db_emitted. cbv. lia. Qed.

Lemma calls_llm_lift n (r : exn + A) : calls_llm_at_most n (lift r).
Proof. destruct r; [apply calls_llm_raise | apply calls_llm_ret]. Qed.

Lemma calls_llm_bind n n' (m : M A) (k : A -> M B) :
  calls_llm_at_most n m -> (forall a, calls_llm_at_most n' (k a)) ->
  calls_llm_at_most (n + n') (bind m k).
Proof.
  intros Hm Hk fs. unfold bind. specialize (Hm fs).
  destruct (outcome (m fs)) as [e|a]; simpl; [lia|].
  rewrite llm_calls_app. specialize (Hk a (rest (m fs))). lia.
Qed.

Lemma calls_llm_try n n' (body : M A) handles handler :
  calls_llm_at_most n body -> (forall e, calls_llm_at_most n' (handler e)) ->
  calls_llm_at_most (n + n') (try_except body handles handler).
Proof.
  intros Hb Hh fs. unfold try_except. specialize (Hb fs).
  destruct (outcome (body fs)) as [e|a]; [|lia].
  destruct (handles e); simpl; [|lia].
  rewrite llm_calls_app. specialize (Hh e (rest (body fs))). lia.
Qed.

End MoreRunFacts.

Lemma calls_llm_emit_log l : calls_llm_at_most 0 (emit (Log l)).
Proof. intros fs. cbv. lia. Qed.

Lemma raises_only_emit (P : exn -> Prop) ev : raises_only P (emit ev).
Proof. intros fs e E. discriminate. Qed.

Section ServiceBounds.
Variable rt : runtime.
Variable w : world.

Local Abbreviation db_only := (fun e : exn => e = OperationalError).

Lemma fallback_raises_db_only query : raises_only db_only (fallback_search rt w query).
Proof.
  intros fs e. rewrite fallback_search_run.
  destruct (Q_truthy _); [|discriminate].
  exact (raises_only_db (fun e => e = OperationalError) _ _ eq_refl fs e).
Qed.

Lemma logged_fallback_raises_db_only l query :
  raises_only db_only (emit (Log l) ;;; fallback_search rt w query).
Proof.
  apply raises_only_bind; [apply raises_only_emit|].
  intros _. apply fallback_raises_db_only.
Qed.

Lemma search_raises_db_only self query :
  raises_only db_only (search_with_chatgpt rt w self query).
Proof.
  unfold search_with_chatgpt.
  destruct (negb _ || negb _); [apply logged_fallback_raises_db_only|].
  apply raises_only_try; [intros fs e _ H; discriminate H|].
  intros e _. apply logged_fallback_raises_db_only.
Qed.

Lemma smart_search_raises_db_only self query :
  raises_only db_only (smart_search rt w self query).
Proof.
  unfold smart_search.
  destruct (negb _ || negb _); [apply raises_only_ret|].
  apply raises_only_bind; [apply search_raises_db_only|].
  intros ids. destruct ids; [apply raises_only_ret|].
  apply raises_only_bind; [apply raises_only_db; reflexivity|].
  intros. apply raises_only_ret.
Qed.

(** X1.  Nothing the LLM does reaches the caller of the service: the only
    exception [search_with_chatgpt] and [smart_search] can raise is the
    database's.  Failures of the LLM call, malformed JSON, a missing [get]
    and unhashable items all end in [fallback_search]. *)
Theorem service_raises_database_errors_only (self : SmartSearchService)
    (query : str) (fs : fault_plan) (e : exn) :
  outcome (search_with_chatgpt rt w self query fs) = inl e
  \/ outcome (smart_search rt w self query fs) = inl e ->
  e = OperationalError.
Proof.
  intros [H|H].
  - exact (search_raises_db_only self query fs e H).
  - exact (smart_search_raises_db_only self query fs e H).
Qed.

Lemma fallback_calls_no_llm query : calls_llm_at_most 0 (fallback_search rt w query).
Proof.
  intros fs. rewrite fallback_search_run.
  destruct (Q_truthy _); [apply calls_llm_db | cbv; lia].
Qed.

Lemma logged_fallback_calls_no_llm l query :
  calls_llm_at_most 0 (emit (Log l) ;;; fallback_search rt w query).
Proof.
  apply (calls_llm_bind 0 0); [apply calls_llm_emit_log|].
  intros _. apply fallback_calls_no_llm.
Qed.

Lemma validated_ids_calls_no_llm query text :
  calls_llm_at_most 0 (validated_ids rt w query text).
Proof.
  unfold validated_ids.
  apply (calls_llm_bind 0 0); [apply calls_llm_lift|]. intros result.
  apply (calls_llm_bind 0 0); [apply calls_llm_lift|]. intros product_ids.
  apply (calls_llm_bind 0 0); [apply calls_llm_db|]. intros ids.
  apply (calls_llm_bind 0 0); [apply calls_llm_lift|]. intros items.
  apply (calls_llm_bind 0 0); [apply calls_llm_lift|]. intros valid.
  destruct valid; [apply fallback_calls_no_llm | apply calls_llm_ret].
Qed.

Lemma openai_calls_once p : calls_llm_at_most 1 (openai_ChatCompletion_create w p).
Proof.
  intros fs. unfold openai_ChatCompletion_create, bind. simpl.
  destruct (llm w p); cbv; lia.
Qed.

Lemma ask_chatgpt_calls_once query : calls_llm_at_most 1 (ask_chatgpt rt w query).
Proof.
  unfold ask_chatgpt.
  apply (calls_llm_bind 0 1).
  { apply (calls_llm_bind 0 0); [apply calls_llm_db|]. intros. apply calls_llm_ret. }
  intros products. destruct products as [|info products]; [apply calls_llm_ret|].
  apply (calls_llm_bind 1 0); [apply openai_calls_once|]. intros content.
  apply (calls_llm_bind 0 0); [apply calls_llm_emit_log|]. intros _.
  apply (calls_llm_try 0 0); [apply validated_ids_calls_no_llm|].
  intros e. apply logged_fallback_calls_no_llm.
Qed.

Lemma search_calls_once self query :
  calls_llm_at_most 1 (search_with_chatgpt rt w self query).
Proof.
  unfold search_with_chatgpt.
  destruct (negb _ || negb _).
  - intros fs. pose proof (logged_fallback_calls_no_llm Warning query fs). lia.
  - apply (calls_llm_try 1 0); [apply ask_chatgpt_calls_once|].
    intros e. apply logged_fallback_calls_no_llm.
Qed.

(** X2.  No retry: on every fault plan, whatever the LLM answers, one
    search calls the LLM endpoint at most once - also when the call fails
    or its answer is discarded - and so does [smart_search], whose own
    query to the database calls nothing. *)
Theorem service_calls_llm_at_most_once (self : SmartSearchService)
    (query : str) (fs : fault_plan) :
  (llm_calls (emitted (search_with_chatgpt rt w self query fs)) <= 1)%nat
  /\ (llm_calls (emitted (smart_search rt w self query fs)) <= 1)%nat.
Proof.
  split; [apply search_calls_once|].
  revert fs. change (calls_llm_at_most 1 (smart_search rt w self query)).
  unfold smart_search. destruct (negb _ || negb _); [apply calls_llm_ret|].
  apply (calls_llm_bind 1 0); [apply search_calls_once|].
  intros ids. destruct ids; [apply calls_llm_ret|].
  apply (calls_llm_bind 0 0); [apply calls_llm_db|]. intros. apply calls_llm_ret.
Qed.

End ServiceBounds.

(** ** The answer of the LLM, well-shaped or not *)

Section AnswerShapes.
Variable rt : runtime.
Variable w : world.

Lemma keep_existing_ints (ns : list Z) (existing_ids : gset Z) :
  keep_existing (map JInt ns) existing_ids
  = inr (List.filter (fun n => bool_decide (n ∈ existing_ids)) ns).
Proof.
  induction ns as [|n ns IH]; simpl; [reflexivity|].
  rewrite IH. destruct (bool_decide (n ∈ existing_ids)); reflexivity.
Qed.

Lemma filter_by_set_or_list (ns ids : list Z) :
  List.filter (fun n => bool_decide (n ∈ (list_to_set ids : gset Z))) ns
  = List.filter (fun n => bool_decide (n ∈ ids)) ns.
Proof.
  apply List.filter_ext. intros n. apply bool_decide_ext, elem_of_list_to_set.
Qed.

Lemma keep_existing_unhashable items (existing_ids : gset Z) v e :
  In v items -> hash_key v = inl e ->
  exists e', keep_existing items existing_ids = inl e'.
Proof.
  induction items as [|pid items IH]; simpl; intros Hin Hv; [destruct Hin|].
  destruct (hash_key pid) as [e0|k] eqn:Ek; [eauto|].
  destruct Hin as [->|Hin]; [congruence|].
  destruct (IH Hin Hv) as [e' E]. rewrite E. eauto.
Qed.

(** X3.  The service at work: it is on, the LLM answers a JSON object
    whose [relevant_products] is a list of integers, and at least one of
    them is the identifier of a product.  Then [search_with_chatgpt]
    returns exactly the integers of that list that identify a product, in
    the order and with the repetitions the LLM gave them. *)
Theorem search_returns_ranked_ids (self : SmartSearchService)
    (query text : str) (result : json) (ns : list Z) :
  api_available self = true -> api_configured self = true ->
  llm w (prompt_for w query) = LlmContent text ->
  json_loads rt (py_strip rt text) = Some result ->
  get_relevant_products result = inr (JArr (map JInt ns)) ->
  List.filter (fun n => bool_decide (n ∈ map product_id (catalog w))) ns <> [] ->
  outcome (search_with_chatgpt rt w self query [])
  = inr (List.filter (fun n => bool_decide (n ∈ map product_id (catalog w))) ns).
Proof.
  intros Ha Hc Hllm Hjson Hget Hne.
  rewrite search_calm, Ha, Hc. cbn [negb orb]. f_equal.
  unfold semantic_answer, ask_answer, validate.
  rewrite Hllm, Hjson, Hget. cbn [py_iter].
  rewrite keep_existing_ints, filter_by_set_or_list.
  destruct (catalog w) as [|p0 products] eqn:Ecat.
  - contradiction Hne. clear. induction ns as [|n ns IH]; [reflexivity|].
    cbn [List.filter map].
    destruct (bool_decide (n ∈ [])) eqn:E; [|exact IH].
    apply bool_decide_eq_true in E. inversion E.
  - rewrite <- Ecat in Hne |- *.
    destruct (List.filter (fun n => bool_decide (n ∈ map product_id (catalog w))) ns)
      as [|n0 kept]; [contradiction Hne|]; reflexivity.
Qed.

(** X4.  A JSON answer of the wrong shape is discarded as a whole.  When
    the service is on, the catalog is not empty and the parsed answer is no
    object, or its [relevant_products] cannot be iterated, or one of the
    items is a list or an object (unhashable) - even next to valid
    identifiers - [search_with_chatgpt] returns the Literal Matcher's
    result. *)
Theorem search_discards_misshapen_answer (self : SmartSearchService)
    (query text : str) (result : json) :
  api_available self = true -> api_configured self = true ->
  catalog w <> [] ->
  llm w (prompt_for w query) = LlmContent text ->
  json_loads rt (py_strip rt text) = Some result ->
  (exists e, get_relevant_products result = inl e)
  \/ (exists product_ids e,
         get_relevant_products result = inr product_ids
         /\ py_iter product_ids = inl e)
  \/ (exists product_ids items v e,
         get_relevant_products result = inr product_ids
         /\ py_iter product_ids = inr items
         /\ In v items /\ hash_key v = inl e) ->
  outcome (search_with_chatgpt rt w self query [])
  = inr (literal_match rt w query).
Proof.
  intros Ha Hc Hcat Hllm Hjson Hshape.
  rewrite search_calm, Ha, Hc. cbn [negb orb]. f_equal.
  unfold semantic_answer, ask_answer, validate.
  rewrite Hllm, Hjson.
  destruct (catalog w) as [|p0 products] eqn:Ecat; [congruence|]. rewrite <- Ecat.
  destruct Hshape as [[e Hget]|[(pids & e & Hget & Hiter)|(pids & items & v & e & Hget & Hiter & Hin & Hv)]];
    rewrite Hget.
  - destruct e; reflexivity.
  - rewrite Hiter. destruct e; reflexivity.
  - rewrite Hiter.
    destruct (keep_existing_unhashable items
                (list_to_set (map product_id (catalog w))) v e Hin Hv) as [e' E].
    rewrite E. destruct e'; reflexivity.
Qed.

Lemma sublist_bool_filter {X} (f : X -> bool) (l : list X) :
  sublist (List.filter f l) l.
Proof.
  induction l as [|x l IH]; simpl; [constructor|].
  destruct (f x); [apply sublist_skip | apply sublist_cons]; exact IH.
Qed.

Lemma sublist_map {X Y} (f : X -> Y) (l1 l2 : list X) :
  sublist l1 l2 -> sublist (map f l1) (map f l2).
Proof. induction 1; simpl; constructor; assumption. Qed.

(** X5.  The Literal Matcher never reorders: whatever [fallback_search]
    returns is a sublist of the identifiers of the catalog in store order,
    so that with distinct identifiers in the catalog no identifier is
    returned twice, however many terms or columns match. *)
Theorem fallback_search_keeps_store_order (query : str) (fs : fault_plan)
    (ids : list Z) :
  outcome (fallback_search rt w query fs) = inr ids ->
  sublist ids (map product_id (catalog w))
  /\ (NoDup (map product_id (catalog w)) -> NoDup ids).
Proof.
  intros H. apply fallback_search_returns in H. subst.
  assert (Hs : sublist (literal_match rt w query) (map product_id (catalog w))).
  { unfold literal_match. apply sublist_map, sublist_bool_filter. }
  split; [exact Hs|]. intros Hnd. eapply sublist_NoDup; eassumption.
Qed.

End AnswerShapes.

(** ** Start-up, the probe and blank queries *)

Section Configuration.
Variable rt : runtime.

Local Abbreviation visible := (fun c : codepoint => py_isspace rt c = false).

Lemma blank_or_visible (s : str) :
  Forall (fun c => py_isspace rt c = true) s \/ Exists visible s.
Proof.
  induction s as [|c s [IH|IH]]; [left; constructor| |right; right; exact IH].
  destruct (py_isspace rt c) eqn:E; [left | right; left; exact E].
  constructor; assumption.
Qed.

(** Stripping on the left stops at the first visible character. *)
Lemma lstrip_visible (s : str) :
  Exists visible s ->
  exists c t, lstrip rt s = c :: t /\ py_isspace rt c = false.
Proof.
  induction 1 as [c s Hc|c s _ IH]; simpl.
  - rewrite Hc. eauto.
  - destruct (py_isspace rt c) eqn:E; [exact IH | eauto].
Qed.

Lemma strip_visible (s : str) : Exists visible s -> py_strip rt s <> [].
Proof.
  intros H. unfold py_strip.
  destruct (lstrip_visible s H) as (c & t & -> & Hc).
  destruct (lstrip_visible (rev (c :: t))) as (c' & t' & -> & _).
  - simpl. apply Exists_app. right. left. exact Hc.
  - simpl. intros E. apply app_eq_nil in E. destruct E as [_ E]. discriminate.
Qed.

Lemma strip_truthy_iff (s : str) :
  str_truthy (py_strip rt s) = true <-> Exists visible s.
Proof.
  split.
  - intros H. destruct (blank_or_visible s) as [Hb|Hv]; [|exact Hv].
    rewrite (strip_blank rt s Hb) in H. discriminate.
  - intros H. apply strip_visible in H.
    destruct (py_strip rt s); [contradiction H; reflexivity | reflexivity].
Qed.

(** X6.  The service comes up configured exactly when the LLM library was
    loaded and the credential holds at least one character that is not
    whitespace; a configured service is always an available one. *)
Theorem service_configured_iff (cfg : settings) :
  (api_configured (SmartSearchService_init rt cfg) = true
   <-> OPENAI_AVAILABLE cfg = true
       /\ exists api_key, OPENAI_API_KEY cfg = Some api_key
                          /\ Exists (fun c => py_isspace rt c = false) api_key)
  /\ (api_configured (SmartSearchService_init rt cfg) = true ->
      api_available (SmartSearchService_init rt cfg) = true).
Proof.
  unfold SmartSearchService_init. simpl. split.
  - destruct (OPENAI_AVAILABLE cfg); [|split; [discriminate | intros [H _]; discriminate]].
    destruct (OPENAI_API_KEY cfg) as [api_key|].
    + rewrite andb_true_iff, strip_truthy_iff. split.
      * intros [_ H]. eauto.
      * intros [_ (k & E & H)]. inversion E. subst. split; [|exact H].
        destruct H; reflexivity.
    + split; [discriminate | intros [_ (k & E & _)]; discriminate].
  - destruct (OPENAI_AVAILABLE cfg); [reflexivity | discriminate].
Qed.

(** X7.  The probe never under-reports: when the service built from the
    settings is configured, the probe answers available = true and
    configured = true. *)
Theorem probe_reports_a_configured_service (cfg : settings) :
  api_configured (smart_search_service rt cfg) = true ->
  smart_search_status rt cfg
  = {| status_available := true; status_configured := true;
       status_error := None |}.
Proof.
  unfold smart_search_status, smart_search_service, SmartSearchService_init. simpl.
  destruct (OPENAI_AVAILABLE cfg); [|discriminate].
  destruct (OPENAI_API_KEY cfg) as [api_key|]; [|discriminate].
  destruct (str_truthy api_key); [reflexivity | discriminate].
Qed.

(** X8.  A query that is empty or holds only whitespace is answered by
    [smart_search] with the empty queryset at once: no query to the
    database, no LLM call, no log line, on every fault plan and whether
    the service is on or off. *)
Theorem smart_search_blank_query (w : world) (self : SmartSearchService)
    (query : str) (fs : fault_plan) :
  Forall (fun c => py_isspace rt c = true) query ->
  smart_search rt w self query fs = Run (inr QuerySet_none) fs [].
Proof.
  intros H. unfold smart_search. rewrite (strip_blank rt query H).
  cbn [str_truthy negb]. rewrite orb_true_r. reflexivity.
Qed.

End Configuration.

(** ** The catalogue page with a tag filter *)

Section PageFacts.
Variable rt : runtime.
Variable w : world.

Lemma any_tag_of_calm product all_tags :
  any_tag_of product all_tags [] = Run (inr (carries_one_of all_tags product)) []
                                      (emitted (any_tag_of product all_tags [])).
Proof.
  induction all_tags as [|tag more IH]; [reflexivity|].
  cbn [any_tag_of carries_one_of existsb]. unfold bind. cbn [db outcome rest emitted].
  destruct (bool_decide (tag_id tag ∈ product_tags product)); [reflexivity|].
  rewrite IH. reflexivity.
Qed.

Lemma filter_in_memory_calm products all_tags :
  filter_in_memory products all_tags []
  = Run (inr (List.filter (carries_one_of all_tags) products)) []
        (emitted (filter_in_memory products all_tags [])).
Proof.
  induction products as [|product more IH]; [reflexivity|].
  cbn [filter_in_memory List.filter]. unfold bind at 1 3.
  rewrite any_tag_of_calm. cbn [outcome rest emitted].
  unfold bind at 1 2. rewrite IH. cbn [outcome rest emitted ret].
  destruct (carries_one_of all_tags product); reflexivity.
Qed.

Lemma search_block_calm self search_query found :
  str_truthy search_query = true ->
  outcome (smart_search rt w self search_query []) = inr found ->
  outcome (search_block rt w self search_query [])
  = inr (PyList (records found), "smart"%string).
Proof.
  intros Hq Hs. unfold search_block. rewrite Hq.
  apply try_calm_returns.
  rewrite (bind_calm _ _ tt); [|reflexivity|reflexivity].
  rewrite (bind_calm _ _ found Hs (smart_search_stays_calm rt w self search_query)).
  unfold found_truthy. destruct (records found); reflexivity.
Qed.

Lemma Tag_objects_get_calm tag_filter n tag :
  py_int rt tag_filter = Some n ->
  List.find (fun t => bool_decide (tag_id t = n)) (tag_table w) = Some tag ->
  Tag_objects_get rt w tag_filter [] = Run (inr tag) [] [DbQuery (Sql_tag_get n)].
Proof.
  intros Hint Hfind. unfold Tag_objects_get, bind. rewrite Hint.
  cbn [db outcome rest emitted]. rewrite Hfind. reflexivity.
Qed.

(** X9.  Search and tag filter together, on a database that answers: the
    page shows the records [smart_search] returned that carry the selected
    tag or one of its descendants, in the order [smart_search] gave them
    (a filter of the list, no re-sorting), with mode "smart_tag" and the
    tag as selected tag. *)
Theorem tag_filter_keeps_search_order (self : SmartSearchService) (req : request)
    (tag_filter : str) (n : Z) (tag : Tag) (found : found) :
  py_strip rt (get_or (GET_search req) []) <> [] ->
  GET_tag req = Some tag_filter -> tag_filter <> [] ->
  py_int rt tag_filter = Some n ->
  List.find (fun t => bool_decide (tag_id t = n)) (tag_table w) = Some tag ->
  outcome (smart_search rt w self (py_strip rt (get_or (GET_search req) [])) [])
  = inr found ->
  outcome (product_list rt w self req [])
  = inr {| ctx_products :=
             PyList (List.filter (carries_one_of (tag :: get_descendants w tag))
                                 (records found));
           ctx_root_tags :=
             ordering_of (get_or (session_tag_sort_preference req) (u "order"));
           ctx_selected_tag := tag_filter;
           ctx_selected_tag_obj := Some tag;
           ctx_selected_tag_children :=
             Some (ordering_of (get_or (session_tag_sort_preference req) (u "order")));
           ctx_search_query := py_strip rt (get_or (GET_search req) []);
           ctx_search_type := "smart_tag" |}.
Proof.
  intros Hq Htag Hne Hint Hfind Hs.
  set (search_query := py_strip rt (get_or (GET_search req) [])) in *.
  assert (Hq' : str_truthy search_query = true)
    by (destruct search_query; [contradiction Hq|]; reflexivity).
  unfold product_list. fold search_query.
  rewrite (bind_calm _ _ _ (search_block_calm self search_query found Hq' Hs)
             (search_block_stays_calm rt w self search_query)).
  rewrite Htag. cbn [get_or fst snd].
  pose proof (filter_in_memory_calm (records found) (tag :: get_descendants w tag))
    as Hfilter.
  assert (Ho : outcome (filter_in_memory (records found)
                          (tag :: get_descendants w tag) [])
               = inr (List.filter (carries_one_of (tag :: get_descendants w tag))
                                  (records found)))
    by (rewrite Hfilter; reflexivity).
  assert (Hr : rest (filter_in_memory (records found)
                       (tag :: get_descendants w tag) []) = [])
    by (rewrite Hfilter; reflexivity).
  assert (Ht : outcome
            (tag_block rt w search_query tag_filter
               (get_or (session_tag_sort_preference req) (u "order"))
               (PyList (records found)) "smart" [])
          = inr (Some tag,
                 Some (ordering_of (get_or (session_tag_sort_preference req) (u "order"))),
                 PyList (List.filter (carries_one_of (tag :: get_descendants w tag))
                                     (records found)),
                 "smart_tag"%string)).
  { unfold tag_block.
    destruct tag_filter as [|c t]; [contradiction Hne; reflexivity|].
    cbn [str_truthy]. apply try_calm_returns.
    rewrite (bind_calm _ _ tag);
      [|rewrite (Tag_objects_get_calm _ n tag Hint Hfind); reflexivity
       |unfold stays_calm; rewrite (Tag_objects_get_calm _ n tag Hint Hfind); reflexivity].
    rewrite (bind_calm _ _ (get_descendants w tag)); [|reflexivity|reflexivity].
    rewrite Hq'. cbn [negb].
    rewrite (bind_calm _ _ (PyList (List.filter
                 (carries_one_of (tag :: get_descendants w tag)) (records found)))).
    - reflexivity.
    - rewrite (bind_calm _ _ _ Ho Hr). reflexivity.
    - apply stays_calm_bind; [exact Hr|]. intros. apply stays_calm_ret. }
  unfold bind at 1. rewrite Ht. cbn [outcome ret].
  rewrite Hq'. reflexivity.
Qed.

(** X10.  A tag filter alone, on a database that answers: the page is the
    lazily built queryset of the products carrying the selected tag or one
    of its descendants, newest first, with mode "tag"; [smart_search] is
    not called and the database is asked for the tag and for its
    descendants only. *)
Theorem tag_filter_alone (self : SmartSearchService) (req : request)
    (tag_filter : str) (n : Z) (tag : Tag) :
  py_strip rt (get_or (GET_search req) []) = [] ->
  GET_tag req = Some tag_filter -> tag_filter <> [] ->
  py_int rt tag_filter = Some n ->
  List.find (fun t => bool_decide (tag_id t = n)) (tag_table w) = Some tag ->
  product_list rt w self req []
  = Run (inr {| ctx_products :=
                  Lazy (Newest_first (Distinct
                          (Filter_tags (tag :: get_descendants w tag) Product_all)));
                ctx_root_tags :=
                  ordering_of (get_or (session_tag_sort_preference req) (u "order"));
                ctx_selected_tag := tag_filter;
                ctx_selected_tag_obj := Some tag;
                ctx_selected_tag_children :=
                  Some (ordering_of
                          (get_or (session_tag_sort_preference req) (u "order")));
                ctx_search_query := [];
                ctx_search_type := "tag" |})
        []
        [DbQuery (Sql_tag_get n); DbQuery (Sql_tag_descendants (tag_id tag))].
Proof.
  intros Hq Htag Hne Hint Hfind.
  unfold product_list. rewrite Hq, Htag. cbn [get_or].
  unfold search_block. cbn [str_truthy].
  unfold bind at 1. cbn [ret outcome rest emitted fst snd].
  unfold tag_block.
  destruct tag_filter as [|c t]; [contradiction Hne; reflexivity|].
  cbn [str_truthy negb].
  unfold try_except, bind.
  rewrite (Tag_objects_get_calm _ n tag Hint Hfind). reflexivity.
Qed.

End PageFacts.

(** ** Modes and failures of the catalogue page *)

Section PageModes.
Variable rt : runtime.
Variable w : world.

Lemma search_block_modes self search_query :
  returns_only
    (fun r => snd r = if str_truthy search_query then "smart"%string else "all"%string)
    (search_block rt w self search_query).
Proof.
  unfold search_block. destruct (str_truthy search_query).
  - apply returns_only_try.
    + apply returns_only_bind. intros _. apply returns_only_bind. intros found.
      destruct (found_truthy found); apply returns_only_bind; intros _;
        apply returns_only_ret; reflexivity.
    + intros e. apply returns_only_bind. intros _.
      apply returns_only_bind_on with (Q := fun _ => False).
      * intros fs a H. discriminate.
      * intros a [].
  - apply returns_only_ret. reflexivity.
Qed.

Lemma tag_block_modes search_query tag_filter sort_preference products search_type :
  returns_only
    (fun r => let '(selected_tag, _, _, search_type') := r in
              match selected_tag with
              | None => search_type' = search_type
              | Some _ => str_truthy tag_filter = true
                          /\ search_type' = if negb (str_truthy search_query)
                                            then "tag"%string
                                            else (search_type ++ "_tag")%string
              end)
    (tag_block rt w search_query tag_filter sort_preference products search_type).
Proof.
  unfold tag_block. destruct (str_truthy tag_filter).
  - apply returns_only_try.
    + apply returns_only_bind. intros selected_tag.
      apply returns_only_bind. intros descendant_tags.
      apply returns_only_bind. intros products'.
      apply returns_only_ret. split; reflexivity.
    + intros e. apply returns_only_ret. reflexivity.
  - apply returns_only_ret. reflexivity.
Qed.

(** X11.  The mode the page reports is determined by whether there is
    search text and whether a tag was selected: "all", "tag", "smart" or
    "smart_tag".  On no request, no fault plan and no answer of the LLM is
    it "fallback" or "fallback_tag". *)
Theorem product_list_modes (self : SmartSearchService) (req : request)
    (fs : fault_plan) (ctx : context) :
  outcome (product_list rt w self req fs) = inr ctx ->
  ctx_search_type ctx
  = match str_truthy (ctx_search_query ctx), ctx_selected_tag_obj ctx with
    | false, None => "all"
    | false, Some _ => "tag"
    | true, None => "smart"
    | true, Some _ => "smart_tag"
    end%string.
Proof.
  unfold product_list. intros H.
  apply bind_outcome in H. destruct H as ([products search_type] & Hs & H).
  apply search_block_modes in Hs. cbn [snd] in Hs.
  apply bind_outcome in H. destruct H as ([[[selected children] products'] search_type'] & Ht & H).
  apply tag_block_modes in Ht. cbn [fst snd] in Ht.
  inversion H. subst ctx. clear H.
  cbn [ctx_search_type ctx_search_query ctx_selected_tag_obj].
  subst search_type.
  destruct selected as [tag|].
  - destruct Ht as [Htag ->]. rewrite Htag. cbn [negb]. rewrite andb_false_r.
    destruct (str_truthy (py_strip rt (get_or (GET_search req) []))); reflexivity.
  - subst search_type'.
    destruct (str_truthy (py_strip rt (get_or (GET_search req) []))); cbn [negb andb];
      [reflexivity|].
    destruct (negb (str_truthy (get_or (GET_tag req) []))); reflexivity.
Qed.

Lemma any_tag_of_raises product all_tags :
  raises_only (fun e => e = OperationalError) (any_tag_of product all_tags).
Proof.
  induction all_tags as [|tag more IH]; cbn [any_tag_of]; [apply raises_only_ret|].
  apply raises_only_bind; [apply raises_only_db; reflexivity|].
  intros tags. destruct (bool_decide _); [apply raises_only_ret | exact IH].
Qed.

Lemma filter_in_memory_raises products all_tags :
  raises_only (fun e => e = OperationalError) (filter_in_memory products all_tags).
Proof.
  induction products as [|product more IH]; cbn [filter_in_memory];
    [apply raises_only_ret|].
  apply raises_only_bind; [apply any_tag_of_raises|]. intros keep.
  apply raises_only_bind; [exact IH|]. intros. apply raises_only_ret.
Qed.

Lemma search_block_raises self search_query :
  raises_only
    (fun e => e = AttributeError "expand_search_query"
              /\ str_truthy search_query = true)
    (search_block rt w self search_query).
Proof.
  unfold search_block. destruct (str_truthy search_query); [|apply raises_only_ret].
  apply raises_only_try; [intros fs e _ H; discriminate H|].
  intros e _. apply raises_only_bind; [apply raises_only_emit|]. intros _.
  apply raises_only_bind; [apply raises_only_raise; split; reflexivity|].
  intros expanded. apply raises_only_bind; [apply raises_only_emit|].
  intros _. apply raises_only_ret.
Qed.

Lemma tag_block_raises search_query tag_filter sort_preference products search_type :
  raises_only
    (fun e => str_truthy tag_filter = true
              /\ (e = OperationalError
                  \/ e = ValueError /\ py_int rt tag_filter = None))
    (tag_block rt w search_query tag_filter sort_preference products search_type).
Proof.
  unfold tag_block. destruct (str_truthy tag_filter); [|apply raises_only_ret].
  apply raises_only_try; [|intros e _; apply raises_only_ret].
  intros fs e H He. split; [reflexivity|].
  revert fs e H He.
  change (raises_only
            (fun e => is_DoesNotExist e = false ->
                      e = OperationalError
                      \/ e = ValueError /\ py_int rt tag_filter = None)
            (selected_tag <- Tag_objects_get rt w tag_filter ;;
             descendant_tags <- db (Sql_tag_descendants (tag_id selected_tag))
                                   (get_descendants w selected_tag) ;;
             let all_tags := selected_tag :: descendant_tags in
             products' <-
               (if str_truthy search_query
                then match products with
                     | PyList items =>
                         filtered_products <- filter_in_memory items all_tags ;;
                         ret (PyList filtered_products)
                     | Lazy qs => ret (Lazy (Distinct (Filter_tags all_tags qs)))
                     end
                else ret (Lazy (Newest_first
                                  (Distinct (Filter_tags all_tags Product_all))))) ;;
             let search_type' :=
               if negb (str_truthy search_query) then "tag"%string
               else (search_type ++ "_tag")%string in
             ret (Some selected_tag, Some (ordering_of sort_preference),
                  products', search_type'))).
  apply raises_only_bind.
  { unfold Tag_objects_get. destruct (py_int rt tag_filter) as [n|].
    - apply raises_only_bind; [apply raises_only_db; auto|].
      intros row. destruct row; [apply raises_only_ret|].
      apply raises_only_raise. discriminate.
    - apply raises_only_raise. auto. }
  intros selected_tag.
  apply raises_only_bind; [apply raises_only_db; auto|]. intros descendant_tags.
  apply raises_only_bind; [|intros; apply raises_only_ret].
  destruct (str_truthy search_query); [|apply raises_only_ret].
  destruct products as [items|qs]; [|apply raises_only_ret].
  apply raises_only_bind; [|intros; apply raises_only_ret].
  intros fs e H _. left. exact (filter_in_memory_raises _ _ fs e H).
Qed.

(** X12.  The three ways the catalogue page fails before pagination, on
    every request and fault plan: [AttributeError] from the search
    handler, only with search text; [ValueError], only with a tag filter
    that is no number; the database's error, only with a tag filter (a
    database error during the search never shows as such: the handler
    turns it into the [AttributeError]). *)
Theorem product_list_failures (self : SmartSearchService) (req : request)
    (fs : fault_plan) (e : exn) :
  outcome (product_list rt w self req fs) = inl e ->
  (e = AttributeError "expand_search_query"
   /\ py_strip rt (get_or (GET_search req) []) <> [])
  \/ (e = ValueError
      /\ get_or (GET_tag req) [] <> [] /\ py_int rt (get_or (GET_tag req) []) = None)
  \/ (e = OperationalError /\ get_or (GET_tag req) [] <> []).
Proof.
  revert fs e.
  change (raises_only
            (fun e =>
               (e = AttributeError "expand_search_query"
                /\ py_strip rt (get_or (GET_search req) []) <> [])
               \/ (e = ValueError /\ get_or (GET_tag req) [] <> []
                   /\ py_int rt (get_or (GET_tag req) []) = None)
               \/ (e = OperationalError /\ get_or (GET_tag req) [] <> []))
            (product_list rt w self req)).
  unfold product_list.
  apply raises_only_bind.
  { intros fs e H. apply search_block_raises in H. destruct H as [-> Hq].
    left. split; [reflexivity|]. intros E. rewrite E in Hq. discriminate. }
  intros searched. apply raises_only_bind.
  { intros fs e H. apply tag_block_raises in H. destruct H as [Ht H].
    assert (Hne : get_or (GET_tag req) [] <> [])
      by (intros E; rewrite E in Ht; discriminate).
    destruct H as [->|[-> Hint]]; auto. }
  intros [[[selected children] products] search_type]. apply raises_only_ret.
Qed.

End PageModes.

(* ------------------------------------------------------------------ *)
(** * The session cart *)

(** ** Dictionaries *)

Lemma dict_get_set_same (d : pydict) k v : dict_get (dict_set d k v) k = Some v.
Proof.
  induction d as [|[k' v'] d IH]; simpl.
  - rewrite bool_decide_eq_true_2; reflexivity.
  - destruct (bool_decide (k' = k)) eqn:E; simpl.
    + rewrite bool_decide_eq_true_2; reflexivity.
    + rewrite E. exact IH.
Qed.

Lemma dict_get_set_other (d : pydict) k v k0 :
  k0 <> k -> dict_get (dict_set d k v) k0 = dict_get d k0.
Proof.
  intros Hne. induction d as [|[k' v'] d IH]; simpl.
  - rewrite bool_decide_eq_false_2; [reflexivity | congruence].
  - destruct (bool_decide (k' = k)) eqn:E; simpl.
    + apply bool_decide_eq_true in E. subst k'.
      rewrite (bool_decide_eq_false_2 (k = k0)) by congruence. reflexivity.
    + rewrite IH. reflexivity.
Qed.

Lemma dict_get_pop_other (d : pydict) k k0 :
  k0 <> k -> dict_get (dict_pop d k) k0 = dict_get d k0.
Proof.
  intros Hne. induction d as [|[k' v'] d IH]; simpl; [reflexivity|].
  destruct (bool_decide (k' = k)) eqn:E; simpl.
  - apply bool_decide_eq_true in E. subst k'.
    rewrite (bool_decide_eq_false_2 (k = k0)) by congruence. reflexivity.
  - rewrite IH. reflexivity.
Qed.

Lemma dict_get_absent (d : pydict) k :
  ~ In k (map fst d) -> dict_get d k = None.
Proof.
  induction d as [|[k' v'] d IH]; simpl; [reflexivity|]. intros H.
  rewrite bool_decide_eq_false_2 by (intros ->; apply H; left; reflexivity).
  apply IH. intros Hin. apply H. right. exact Hin.
Qed.

Lemma dict_pop_keys (d : pydict) k k0 :
  In k0 (map fst (dict_pop d k)) -> In k0 (map fst d).
Proof.
  induction d as [|[k' v'] d IH]; simpl; [auto|].
  destruct (bool_decide (k' = k)); simpl; [auto|]. intros [H|H]; auto.
Qed.

(** With distinct keys, a popped key is gone. *)
Lemma dict_get_pop_same (d : pydict) k :
  NoDup (map fst d) -> dict_get (dict_pop d k) k = None.
Proof.
  induction d as [|[k' v'] d IH]; simpl; [reflexivity|]. intros Hnd.
  apply NoDup_cons in Hnd. destruct Hnd as [Hk Hnd].
  destruct (bool_decide (k' = k)) eqn:E; simpl.
  - apply bool_decide_eq_true in E. subst k'. apply dict_get_absent.
    intros Hin. apply Hk. apply list_elem_of_In. exact Hin.
  - rewrite E. apply IH, Hnd.
Qed.

(** ** Steps of a view *)

Lemma vbind_inr {A B} (m : V A) (k : A -> V B) b r b' :
  vbind m k b = (inr r, b') ->
  exists a b1, m b = (inr a, b1) /\ k a b1 = (inr r, b').
Proof.
  unfold vbind. destruct (m b) as [[e|a] b1]; [discriminate|]. eauto.
Qed.

Lemma vbind_step {A B} (m : V A) (k : A -> V B) b a b1 :
  m b = (inr a, b1) -> vbind m k b = k a b1.
Proof. unfold vbind. intros ->. reflexivity. Qed.

Lemma vbind_halt {A B} (m : V A) (k : A -> V B) b e b1 :
  m b = (inl e, b1) -> vbind m k b = (inl e, b1).
Proof. unfold vbind. intros ->. reflexivity. Qed.

Lemma vbind_inl {A B} (m : V A) (k : A -> V B) b e b' :
  vbind m k b = (inl e, b') ->
  m b = (inl e, b') \/ exists a b1, m b = (inr a, b1) /\ k a b1 = (inl e, b').
Proof.
  unfold vbind. destruct (m b) as [[e0|a] b1]; [|eauto].
  intros H. inversion H. left. reflexivity.
Qed.

Lemma vtry_DoesNotExist_inr {A} (body handler : V A) b x b' :
  vtry_DoesNotExist body handler b = (inr x, b') ->
  body b = (inr x, b')
  \/ exists b1, body b = (inl Product_DoesNotExist, b1) /\ handler b1 = (inr x, b').
Proof.
  unfold vtry_DoesNotExist. destruct (body b) as [[e|a] b1]; [|auto].
  destruct e; try discriminate. eauto.
Qed.

Lemma same_session_refl b : same_session b b.
Proof. repeat split. Qed.

Lemma same_session_trans b1 b2 b3 :
  same_session b1 b2 -> same_session b2 b3 -> same_session b1 b3.
Proof. unfold same_session. intros (?&?&?) (?&?&?). repeat split; congruence. Qed.

Lemma keeps_vret {A} (a : A) : keeps_session (vret a).
Proof. intros b r b' H. inversion H. apply same_session_refl. Qed.

Lemma keeps_vraise {A} e : keeps_session (@vraise A e).
Proof. intros b r b' H. inversion H. apply same_session_refl. Qed.

Lemma keeps_vlift {A} (r : halt + A) : keeps_session (vlift r).
Proof. destruct r; [apply keeps_vraise | apply keeps_vret]. Qed.

Lemma keeps_flash n : keeps_session (flash n).
Proof. intros b r b' H. inversion H. repeat split. Qed.

Lemma keeps_vdb {A} (x : A) : keeps_session (vdb x).
Proof.
  intros b r b'. unfold vdb. destruct (db_plan b) as [|[|n] plan];
    intros H; inversion H; repeat split.
Qed.

Lemma keeps_session_get : keeps_session session_get_cart.
Proof. intros b r b' H. inversion H. apply same_session_refl. Qed.

Lemma keeps_vbind {A B} (m : V A) (k : A -> V B) :
  keeps_session m -> (forall a, keeps_session (k a)) -> keeps_session (vbind m k).
Proof.
  intros Hm Hk b r b'. unfold vbind.
  destruct (m b) as [[e|a] b1] eqn:E; intros H.
  - inversion H. subst. exact (Hm _ _ _ E).
  - exact (same_session_trans _ _ _ (Hm _ _ _ E) (Hk _ _ _ _ H)).
Qed.

Lemma keeps_vtry_DoesNotExist {A} (body handler : V A) :
  keeps_session body -> keeps_session handler ->
  keeps_session (vtry_DoesNotExist body handler).
Proof.
  intros Hb Hh b r b'. unfold vtry_DoesNotExist.
  destruct (body b) as [[e|a] b1] eqn:E; intros H.
  - destruct e; try (inversion H; subst; exact (Hb _ _ _ E)).
    exact (same_session_trans _ _ _ (Hb _ _ _ E) (Hh _ _ _ H)).
  - inversion H. subst. exact (Hb _ _ _ E).
Qed.

Lemma keeps_vtry_ValueError_TypeError {A} (body handler : V A) :
  keeps_session body -> keeps_session handler ->
  keeps_session (vtry_ValueError_TypeError body handler).
Proof.
  intros Hb Hh b r b'. unfold vtry_ValueError_TypeError.
  destruct (body b) as [[e|a] b1] eqn:E; intros H.
  - destruct e as [e| | | |]; try (inversion H; subst; exact (Hb _ _ _ E)).
    destruct e; try (inversion H; subst; exact (Hb _ _ _ E));
      exact (same_session_trans _ _ _ (Hb _ _ _ E) (Hh _ _ _ H)).
  - inversion H. subst. exact (Hb _ _ _ E).
Qed.

Section CartSteps.
Variable rt : runtime.
Variable amount : Type.
Variable shop : backoffice amount.

Lemma keeps_get_int n : keeps_session (Product_objects_get_int shop n).
Proof.
  apply keeps_vbind; [apply keeps_vdb|].
  intros row. destruct row; [apply keeps_vret | apply keeps_vraise].
Qed.

Lemma keeps_get product_id : keeps_session (Product_objects_get rt shop product_id).
Proof.
  unfold Product_objects_get. destruct product_id as [text|].
  - destruct (py_int rt text); [apply keeps_get_int | apply keeps_vraise].
  - apply keeps_vbind; [apply keeps_vdb|]. intros. apply keeps_vraise.
Qed.

Lemma keeps_get_or_404 n : keeps_session (get_object_or_404 shop n).
Proof. apply keeps_vtry_DoesNotExist; [apply keeps_get_int | apply keeps_vraise]. Qed.

Lemma keeps_redirect to kw : keeps_session (redirect shop to kw).
Proof.
  apply keeps_vbind; [apply keeps_vlift|]. intros. apply keeps_vret.
Qed.

Lemma keeps_int_param value : keeps_session (int_param rt value).
Proof.
  unfold int_param. destruct value as [text|]; [|apply keeps_vret].
  destruct (py_int rt text); [apply keeps_vret | apply keeps_vraise].
Qed.

(** A product fetched by its identifier is a row of the shelves with that
    identifier. *)
Lemma get_int_found n b product b' :
  Product_objects_get_int shop n b = (inr product, b') ->
  In product (shelves shop) /\ product_id (stocked_product product) = n.
Proof.
  unfold Product_objects_get_int. intros H.
  apply vbind_inr in H. destruct H as (row & b1 & Hdb & H).
  assert (Hrow : row = List.find
            (fun r => bool_decide (product_id (stocked_product r) = n)) (shelves shop)).
  { unfold vdb in Hdb. destruct (db_plan b) as [|[|k] plan]; inversion Hdb; reflexivity. }
  destruct row as [r|]; [|discriminate]. inversion H. subst r.
  symmetry in Hrow. apply List.find_some in Hrow. destruct Hrow as [Hin Hid].
  apply bool_decide_eq_true in Hid. auto.
Qed.

End CartSteps.

(** ** What the cart views store *)

Section CartFacts.
Variable rt : runtime.
Variable amount : Type.
Variable shop : backoffice amount.

Lemma redirect_inr to kw b (r : response amount) b' :
  redirect shop to kw b = (inr r, b') -> b' = b.
Proof.
  unfold redirect, vbind, vlift. destruct (resolve_redirect shop to kw); simpl;
    intros H; inversion H; reflexivity.
Qed.

Lemma set_then_flash cart n b u0 b' :
  (session_set_cart cart ~;; flash n) b = (inr u0, b') ->
  session_cart b' = Some cart /\ notices b' = notices b ++ [n].
Proof. intros H. inversion H. split; reflexivity. Qed.

(** X13.  [remove_from_cart], whenever it answers: an entry under the key
    of the product is popped - whether or not the product still exists in
    the catalog - and nothing else is touched; without such an entry the
    session is left alone.  Every other key keeps its entry, and with
    distinct keys the product's key is gone. *)
Theorem remove_from_cart_pops (request : cart_request) (product_id : Z)
    (b b' : browser) (r : response amount) :
  remove_from_cart shop request product_id b = (inr r, b') ->
  session_cart b'
  = (if dict_has (cart_of b) (str_of_int product_id)
     then Some (dict_pop (cart_of b) (str_of_int product_id))
     else session_cart b)
  /\ (forall k, k <> str_of_int product_id ->
                dict_get (cart_of b') k = dict_get (cart_of b) k)
  /\ (NoDup (map fst (cart_of b)) ->
      dict_get (cart_of b') (str_of_int product_id) = None).
Proof.
  intros H. unfold remove_from_cart in H.
  apply vbind_inr in H. destruct H as (cart & b0 & Hget & H).
  inversion Hget. subst cart b0. clear Hget. fold (cart_of b) in H.
  apply vbind_inr in H. destruct H as ([] & b1 & Hmid & H).
  apply redirect_inr in H. subst b1.
  assert (Hcart : session_cart b'
                  = if dict_has (cart_of b) (str_of_int product_id)
                    then Some (dict_pop (cart_of b) (str_of_int product_id))
                    else session_cart b).
  { destruct (dict_has (cart_of b) (str_of_int product_id)).
    - unfold vtry_DoesNotExist in Hmid.
      destruct ((product <~ Product_objects_get_int shop product_id ;;
                 session_set_cart (dict_pop (cart_of b) (str_of_int product_id)) ~;;
                 flash (Removed_from_cart (product_name (stocked_product product)))) b)
        as [[e|[]] b1] eqn:Ebody.
      + destruct e; try discriminate. apply set_then_flash in Hmid. apply Hmid.
      + inversion Hmid. subst b1.
        apply vbind_inr in Ebody. destruct Ebody as (product & b2 & _ & Hset).
        apply set_then_flash in Hset. apply Hset.
    - inversion Hmid. reflexivity. }
  split; [exact Hcart|].
  assert (Hcart' : cart_of b'
                   = if dict_has (cart_of b) (str_of_int product_id)
                     then dict_pop (cart_of b) (str_of_int product_id)
                     else cart_of b).
  { unfold cart_of at 1. rewrite Hcart.
    destruct (dict_has (cart_of b) (str_of_int product_id)); reflexivity. }
  rewrite Hcart'. clear Hcart Hcart' Hmid.
  destruct (dict_has (cart_of b) (str_of_int product_id)) eqn:Ehas.
  - split; [intros k Hk; apply dict_get_pop_other, Hk | apply dict_get_pop_same].
  - split; [reflexivity|]. intros _.
    unfold dict_has in Ehas. destruct (dict_get (cart_of b) _); [discriminate | reflexivity].
Qed.

Lemma int_param_inr value b n b' :
  int_param rt value b = (inr n, b') -> b' = b /\ posted_int rt value = Some n.
Proof.
  unfold int_param, posted_int. destruct value as [text|].
  - destruct (py_int rt text); intros H; inversion H; auto.
  - intros H. inversion H. auto.
Qed.

Lemma vlift_inr {A} (x : halt + A) b a b' :
  vlift x b = (inr a, b') -> b' = b /\ x = inr a.
Proof. destruct x; intros H; inversion H; auto. Qed.

Lemma get_or_404_inr n b product b' :
  get_object_or_404 shop n b = (inr product, b') ->
  same_session b b'
  /\ In product (shelves shop) /\ product_id (stocked_product product) = n.
Proof.
  intros H. split; [exact (keeps_get_or_404 amount shop n _ _ _ H)|].
  unfold get_object_or_404, vtry_DoesNotExist in H.
  destruct (Product_objects_get_int shop n b) as [[e|p] b1] eqn:E.
  - destruct e; discriminate.
  - inversion H. subst. exact (get_int_found amount shop n _ _ _ E).
Qed.

(** X14.  [add_to_cart] never puts more of a product into the cart than is
    in stock.  Whenever it answers, either it wrote nothing to the session,
    or the request was a POST for a product of the catalog and the entry
    of that product now holds the quantity found in the cart plus the
    quantity asked for - a sum that is not above [available_quantity] - and
    the days asked for, every other entry being as before. *)
Theorem add_to_cart_respects_stock (request : cart_request) (pid : Z)
    (b b' : browser) (r : response amount) :
  add_to_cart rt shop request pid b = (inr r, b') ->
  same_session b b'
  \/ exists product quantity days wanted,
       In product (shelves shop)
       /\ product_id (stocked_product product) = pid
       /\ method request = u "POST"
       /\ posted_int rt (POST_quantity request) = Some quantity
       /\ posted_int rt (POST_days request) = Some days
       /\ py_add_int (quantity_in_cart (cart_of b) (str_of_int pid)) quantity
          = inr wanted
       /\ py_gt_int wanted (available_quantity product) = inr false
       /\ (forall q, wanted = JInt q -> q <= available_quantity product)
       /\ session_cart b'
          = Some (dict_set (cart_of b) (str_of_int pid)
                           (entry wanted (JInt days)))
       /\ forall k, k <> str_of_int pid ->
                    dict_get (cart_of b') k = dict_get (cart_of b) k.
Proof.
  intros H. unfold add_to_cart in H.
  apply vbind_inr in H. destruct H as (product & b1 & Hp & H).
  apply get_or_404_inr in Hp. destruct Hp as (S1 & Hin & Hid).
  destruct (bool_decide (method request = u "POST")) eqn:Em.
  2:{ left. apply redirect_inr in H. subst. exact S1. }
  apply bool_decide_eq_true in Em.
  apply vbind_inr in H. destruct H as (quantity & b2 & Hq & H).
  apply int_param_inr in Hq. destruct Hq as [-> Hq].
  apply vbind_inr in H. destruct H as (days & b2 & Hd & H).
  apply int_param_inr in Hd. destruct Hd as [-> Hd].
  destruct (quantity >? available_quantity product) eqn:Ebig.
  { left. apply vbind_inr in H. destruct H as ([] & b2 & Hf & H).
    apply redirect_inr in H. subst b2.
    exact (same_session_trans _ _ _ S1 (keeps_flash _ _ _ _ Hf)). }
  apply vbind_inr in H. destruct H as (cart & b2 & Hc & H).
  inversion Hc. subst cart b2. clear Hc.
  assert (Hcart : cart_of b1 = cart_of b)
    by (unfold cart_of; destruct S1 as (-> & _); reflexivity).
  fold (cart_of b1) in H. rewrite Hcart in H.
  fold (quantity_in_cart (cart_of b) (str_of_int pid)) in H.
  apply vbind_inr in H. destruct H as (wanted & b2 & Hw & H).
  apply vlift_inr in Hw. destruct Hw as [-> Hw].
  apply vbind_inr in H. destruct H as (too_many & b2 & Ht & H).
  apply vlift_inr in Ht. destruct Ht as [-> Ht].
  destruct too_many.
  { left. apply vbind_inr in H. destruct H as ([] & b2 & Hf & H).
    apply redirect_inr in H. subst b2.
    exact (same_session_trans _ _ _ S1 (keeps_flash _ _ _ _ Hf)). }
  right. exists product, quantity, days, wanted.
  apply vbind_inr in H. destruct H as ([] & b2 & Hs & H).
  apply vbind_inr in H. destruct H as ([] & b3 & Hf & H).
  assert (Hb' : b' = b3).
  { destruct (HTTP_REFERER request) as [[|c referer]|];
      apply redirect_inr in H; exact H. }
  subst b3. clear H.
  assert (Hnew : session_cart b'
                 = Some (dict_set (cart_of b) (str_of_int pid)
                                  (entry wanted (JInt days))))
    by (inversion Hs; subst b2; inversion Hf; reflexivity).
  clear Hs Hf.
  repeat split; try assumption.
  - intros q ->. simpl in Ht. inversion Ht as [Hle].
    rewrite Z.gtb_ltb in Hle. apply Z.ltb_ge in Hle. exact Hle.
  - intros k Hk. unfold cart_of at 1. rewrite Hnew.
    apply dict_get_set_other, Hk.
Qed.

Lemma get_int_calm n product b :
  db_plan b = [] ->
  List.find (fun r => bool_decide (product_id (stocked_product r) = n)) (shelves shop)
  = Some product ->
  Product_objects_get_int shop n b = (inr product, b).
Proof.
  intros Hplan Hfind. unfold Product_objects_get_int, vbind, vdb.
  rewrite Hplan, Hfind. destruct b. simpl in *. subst. reflexivity.
Qed.

Lemma get_int_calm_missing n b :
  db_plan b = [] ->
  List.find (fun r => bool_decide (product_id (stocked_product r) = n)) (shelves shop)
  = None ->
  Product_objects_get_int shop n b = (inl Product_DoesNotExist, b).
Proof.
  intros Hplan Hfind. unfold Product_objects_get_int, vbind, vdb.
  rewrite Hplan, Hfind. destruct b. simpl in *. subst. reflexivity.
Qed.

(** [add_to_cart] step by step on a database that answers, for a request
    that passes both stock checks. *)
Lemma add_to_cart_calm (request : cart_request) (pid : Z) (b : browser)
    (product : stocked amount) (q d c : Z) (url : str) :
  db_plan b = [] ->
  List.find (fun r => bool_decide (product_id (stocked_product r) = pid))
            (shelves shop) = Some product ->
  method request = u "POST" ->
  posted_int rt (POST_quantity request) = Some q ->
  posted_int rt (POST_days request) = Some d ->
  int_value (quantity_in_cart (cart_of b) (str_of_int pid)) = Some c ->
  q <= available_quantity product ->
  c + q <= available_quantity product ->
  (match HTTP_REFERER request with
   | Some (ch :: referer) => resolve_redirect shop (ch :: referer) None
   | _ => resolve_redirect shop (u "rental:product_detail") (Some pid)
   end) = inr url ->
  add_to_cart rt shop request pid b
  = (inr (HttpResponseRedirect url),
     {| session_cart := Some (dict_set (cart_of b) (str_of_int pid)
                                       (entry (JInt (c + q)) (JInt d)));
        session_use_smart_search := session_use_smart_search b;
        session_modified := true;
        notices := notices b
                   ++ [Added_to_cart (product_name (stocked_product product)) d];
        db_plan := [] |}).
Proof.
  intros Hplan Hfind Hm Hq Hd Hc Hle1 Hle2 Hurl.
  assert (Hp : get_object_or_404 shop pid b = (inr product, b)).
  { unfold get_object_or_404, vtry_DoesNotExist.
    rewrite (get_int_calm pid product b Hplan Hfind). reflexivity. }
  assert (Hqp : int_param rt (POST_quantity request) b = (inr q, b)).
  { unfold int_param, posted_int in *. destruct (POST_quantity request) as [t|].
    - rewrite Hq. reflexivity.
    - inversion Hq. reflexivity. }
  assert (Hdp : int_param rt (POST_days request) b = (inr d, b)).
  { unfold int_param, posted_int in *. destruct (POST_days request) as [t|].
    - rewrite Hd. reflexivity.
    - inversion Hd. reflexivity. }
  assert (Hgt : (q >? available_quantity product) = false)
    by (rewrite Z.gtb_ltb; apply Z.ltb_ge; exact Hle1).
  assert (Hadd : py_add_int (quantity_in_cart (cart_of b) (str_of_int pid)) q
                 = inr (JInt (c + q))).
  { unfold py_add_int. rewrite Hc.
    destruct (quantity_in_cart (cart_of b) (str_of_int pid)); try reflexivity.
    discriminate. }
  assert (Hgt2 : py_gt_int (JInt (c + q)) (available_quantity product) = inr false).
  { cbn [py_gt_int int_value]. f_equal. rewrite Z.gtb_ltb. apply Z.ltb_ge. exact Hle2. }
  unfold add_to_cart.
  rewrite (vbind_step _ _ _ _ _ Hp), (bool_decide_eq_true_2 _ Hm).
  rewrite (vbind_step _ _ _ _ _ Hqp), (vbind_step _ _ _ _ _ Hdp), Hgt.
  rewrite (vbind_step _ _ b (cart_of b) b) by reflexivity.
  cbv zeta. fold (quantity_in_cart (cart_of b) (str_of_int pid)).
  rewrite Hadd. cbn [vlift]. rewrite (vbind_step _ _ b (JInt (c + q)) b) by reflexivity.
  rewrite Hgt2. cbn [vlift]. rewrite (vbind_step _ _ b false b) by reflexivity.
  unfold vbind at 1. cbn [session_set_cart]. unfold vbind at 1. cbn [flash].
  cbn [session_cart session_use_smart_search session_modified notices db_plan].
  rewrite Hplan.
  destruct (HTTP_REFERER request) as [[|ch referer]|];
    unfold redirect, vbind; rewrite Hurl; reflexivity.
Qed.

(** X15.  What [add_to_cart] stores, and what it does not check.  For a
    POST for a product of the catalog, on a database that answers, with
    integer quantity [q] and days [d] (1 when absent), an integer quantity
    [c] already in the cart (0 without entry) and [q] and [c + q] not above
    the stock: the entry of the product becomes quantity [c + q], days [d],
    in place if there was one and at the end otherwise, the session is
    marked modified and one success message is flashed.  Nothing bounds [q]
    from below or [d] at all: a zero or negative quantity and any number of
    days are stored as they come. *)
Theorem add_to_cart_stores (request : cart_request) (pid : Z) (b : browser)
    (product : stocked amount) (q d c : Z) (url : str) :
  db_plan b = [] ->
  List.find (fun r => bool_decide (product_id (stocked_product r) = pid))
            (shelves shop) = Some product ->
  method request = u "POST" ->
  posted_int rt (POST_quantity request) = Some q ->
  posted_int rt (POST_days request) = Some d ->
  int_value (quantity_in_cart (cart_of b) (str_of_int pid)) = Some c ->
  q <= available_quantity product ->
  c + q <= available_quantity product ->
  (match HTTP_REFERER request with
   | Some (ch :: referer) => resolve_redirect shop (ch :: referer) None
   | _ => resolve_redirect shop (u "rental:product_detail") (Some pid)
   end) = inr url ->
  add_to_cart rt shop request pid b
  = (inr (HttpResponseRedirect url),
     {| session_cart := Some (dict_set (cart_of b) (str_of_int pid)
                                       (entry (JInt (c + q)) (JInt d)));
        session_use_smart_search := session_use_smart_search b;
        session_modified := true;
        notices := notices b
                   ++ [Added_to_cart (product_name (stocked_product product)) d];
        db_plan := [] |}).
Proof. exact (add_to_cart_calm request pid b product q d c url). Qed.

Lemma get_inr (pid : option str) b product b' :
  Product_objects_get rt shop pid b = (inr product, b') ->
  same_session b b'
  /\ In product (shelves shop)
  /\ exists text, pid = Some text
                  /\ py_int rt text = Some (product_id (stocked_product product)).
Proof.
  intros H. split; [exact (keeps_get rt amount shop pid _ _ _ H)|].
  unfold Product_objects_get in H. destruct pid as [text|].
  - destruct (py_int rt text) as [n|] eqn:En; [|discriminate].
    apply get_int_found in H. destruct H as [Hin Hid]. split; [exact Hin|].
    exists text. rewrite Hid. auto.
  - apply vbind_inr in H. destruct H as (row & b1 & _ & H). discriminate.
Qed.

Lemma with_quantity_fields item q :
  field (with_quantity item q) (u "quantity") = Some (JInt q)
  /\ match item with
     | JObj fields =>
         field (with_quantity item q) (u "days") = dict_get fields (u "days")
     | _ => field (with_quantity item q) (u "days") = Some (JInt 1)
     end.
Proof.
  destruct item; try (split; reflexivity).
  simpl. split; [apply dict_get_set_same|].
  apply dict_get_set_other. vm_compute. discriminate.
Qed.

Lemma with_days_fields item d :
  field (with_days item d) (u "days") = Some (JInt d)
  /\ match item with
     | JObj fields =>
         field (with_days item d) (u "quantity") = dict_get fields (u "quantity")
     | _ => field (with_days item d) (u "quantity")
            = Some (match int_value item with Some _ => item | None => JInt 1 end)
     end.
Proof.
  destruct item; try (split; reflexivity).
  simpl. split; [apply dict_get_set_same|].
  apply dict_get_set_other. vm_compute. discriminate.
Qed.


Lemma keeps_checked_days text : keeps_session (checked_days rt shop text).
Proof.
  unfold checked_days. apply keeps_vtry_ValueError_TypeError.
  - apply keeps_vbind; [apply keeps_vlift|]. intros new_days.
    destruct ((new_days <? 1) || (new_days >? 365)); [|apply keeps_vret].
    apply keeps_vbind; [apply keeps_flash|]. intros _.
    apply keeps_vbind; [apply keeps_redirect|]. intros. apply keeps_vret.
  - apply keeps_vbind; [apply keeps_flash|]. intros _.
    apply keeps_vbind; [apply keeps_redirect|]. intros. apply keeps_vret.
Qed.

(** The days that pass the check of lines 706-713 are an integer between 1
    and 365. *)
Lemma checked_days_accepts text b d b' :
  checked_days rt shop text b = (inr (inr d), b') ->
  py_int rt text = Some d /\ 1 <= d <= 365.
Proof.
  unfold checked_days, vtry_ValueError_TypeError. intros H.
  destruct (py_int rt text) as [n|] eqn:En.
  - cbn [vlift] in H. rewrite (vbind_step _ _ b n b) in H by reflexivity.
    destruct ((n <? 1) || (n >? 365)) eqn:Eout.
    + exfalso.
      destruct ((flash Days_out_of_range ~;;
                 r <~ redirect shop (u "rental:cart") None ;; vret (inl r)) b)
        as [[e|x] b1] eqn:Eb.
      * destruct e as [e| | | |]; try discriminate.
        destruct e; try discriminate;
          apply vbind_inr in H; destruct H as (? & ? & _ & H);
          apply vbind_inr in H; destruct H as (? & ? & _ & H); discriminate.
      * inversion H. subst.
        apply vbind_inr in Eb. destruct Eb as (? & ? & _ & Eb).
        apply vbind_inr in Eb. destruct Eb as (? & ? & _ & Eb). discriminate.
    + inversion H. subst. split; [reflexivity|].
      apply orb_false_elim in Eout. destruct Eout as [E1 E2].
      apply Z.ltb_ge in E1. rewrite Z.gtb_ltb in E2. apply Z.ltb_ge in E2. lia.
  - exfalso. cbn [vlift] in H. rewrite (vbind_halt _ _ b (Raised ValueError) b) in H
      by reflexivity.
    apply vbind_inr in H. destruct H as (? & ? & _ & H).
    apply vbind_inr in H. destruct H as (? & ? & _ & H). discriminate.
Qed.


Lemma vdb_calm {A} (x : A) b : db_plan b = [] -> vdb x b = (inr x, b).
Proof. intros H. unfold vdb. rewrite H. destruct b. simpl in *. subst. reflexivity. Qed.

(** On a database that answers, fetching a product by a key that is a
    number finds the row or raises [DoesNotExist], and changes nothing. *)
Lemma get_calm key n b :
  db_plan b = [] -> py_int rt key = Some n ->
  Product_objects_get rt shop (Some key) b
  = (match List.find (fun r => bool_decide (product_id (stocked_product r) = n))
                     (shelves shop) with
     | Some product => inr product
     | None => inl Product_DoesNotExist
     end, b).
Proof.
  intros Hplan Hint. unfold Product_objects_get. rewrite Hint.
  destruct (List.find _ (shelves shop)) as [product|] eqn:Efind.
  - apply get_int_calm; assumption.
  - apply get_int_calm_missing; assumption.
Qed.

Lemma dict_set_fresh (d : pydict) k v :
  ~ In k (map fst d) -> dict_set d k v = d ++ [(k, v)].
Proof.
  induction d as [|[k' v'] d IH]; simpl; [reflexivity|]. intros H.
  rewrite bool_decide_eq_false_2 by (intros ->; apply H; left; reflexivity).
  rewrite IH; [reflexivity|]. intros Hin. apply H. right. exact Hin.
Qed.

Lemma filter_keys (f : str * json -> bool) (d : pydict) k :
  In k (map fst (List.filter f d)) -> In k (map fst d).
Proof.
  rewrite !in_map_iff. intros (kv & E & Hin). apply List.filter_In in Hin.
  exists kv. tauto.
Qed.

(** The second loop of [cart_view] on a database that answers: it keeps
    the entries whose product exists, in order. *)
Lemma existing_entries_calm : forall (items valid_cart : pydict) b,
  db_plan b = [] ->
  Forall (fun kv => py_int rt (fst kv) <> None) items ->
  NoDup (map fst items) ->
  (forall k, In k (map fst valid_cart) -> ~ In k (map fst items)) ->
  existing_entries rt shop items valid_cart b
  = (inr (valid_cart ++ List.filter (fun kv => on_shelves rt shop (fst kv)) items), b).
Proof.
  induction items as [|[key item] items IH]; intros valid_cart b Hplan Hkeys Hnd Hfresh.
  - simpl. rewrite app_nil_r. reflexivity.
  - cbn [existing_entries List.filter fst].
    apply Forall_cons in Hkeys. destruct Hkeys as [Hkey Hkeys]. cbn [fst] in Hkey.
    cbn [map fst] in Hnd. apply NoDup_cons in Hnd. destruct Hnd as [Hk Hnd].
    destruct (py_int rt key) as [n|] eqn:Eint; [|contradiction Hkey; reflexivity].
    unfold on_shelves at 1. rewrite Eint.
    pose proof (get_calm key n b Hplan Eint) as Hget.
    destruct (List.find _ (shelves shop)) as [product|].
    + rewrite (vbind_step _ _ b (dict_set valid_cart key item) b)
        by (unfold vtry_DoesNotExist; rewrite (vbind_step _ _ _ _ _ Hget);
            reflexivity).
      rewrite dict_set_fresh.
      2:{ intros Hin. apply (Hfresh key Hin). left. reflexivity. }
      rewrite IH; try assumption.
      * rewrite <- app_assoc. reflexivity.
      * intros k Hin Hin'. rewrite List.map_app in Hin. apply in_app_or in Hin.
        destruct Hin as [Hin|[<-|[]]].
        -- apply (Hfresh k Hin). right. exact Hin'.
        -- apply Hk. apply list_elem_of_In. exact Hin'.
    + rewrite (vbind_step _ _ b valid_cart b)
        by (unfold vtry_DoesNotExist; rewrite (vbind_halt _ _ _ _ _ Hget);
            reflexivity).
      apply IH; try assumption.
      intros k Hin Hin'. apply (Hfresh k Hin). right. exact Hin'.
Qed.

(** The first loop of [cart_view] on a database that answers changes
    nothing in the session. *)
Lemma cart_lines_calm : forall (items : pydict) cart_items total b,
  db_plan b = [] ->
  Forall (fun kv => py_int rt (fst kv) <> None) items ->
  exists o, cart_lines rt shop items cart_items total b = (o, b).
Proof.
  induction items as [|[key item] items IH]; intros cart_items total b Hplan Hkeys.
  - eexists. reflexivity.
  - cbn [cart_lines].
    apply Forall_cons in Hkeys. destruct Hkeys as [Hkey Hkeys]. cbn [fst] in Hkey.
    destruct (py_int rt key) as [n|] eqn:Eint; [|contradiction Hkey; reflexivity].
    assert (Hstep : exists o,
      vtry_DoesNotExist
        (product <~ Product_objects_get rt shop (Some key) ;;
         let format :=
           match item with
           | JObj fields =>
               Some (dict_get_or fields (u "quantity") (JInt 1),
                     dict_get_or fields (u "days") (JInt 1))
           | _ => match int_value item with
                  | Some _ => Some (item, JInt 1)
                  | None => None
                  end
           end in
         match format with
         | None => vret (cart_items, total)
         | Some (quantity, days) =>
             by_quantity <~ vlift (times shop (daily_price product) quantity) ;;
             item_total <~ vlift (times shop by_quantity days) ;;
             vret (cart_items ++ [Line product quantity days item_total],
                   plus shop total item_total)
         end)
        (vret (cart_items, total)) b = (o, b)).
    { unfold vtry_DoesNotExist.
      pose proof (get_calm key n b Hplan Eint) as Hget.
      destruct (List.find _ (shelves shop)) as [product|];
        [|rewrite (vbind_halt _ _ _ _ _ Hget); eexists; reflexivity].
      rewrite (vbind_step _ _ _ _ _ Hget). cbv zeta.
      destruct (match item with
                | JObj fields =>
                    Some (dict_get_or fields (u "quantity") (JInt 1),
                          dict_get_or fields (u "days") (JInt 1))
                | _ => match int_value item with
                       | Some _ => Some (item, JInt 1)
                       | None => None
                       end
                end) as [[quantity days]|]; [|eexists; reflexivity].
      unfold vbind, vlift.
      destruct (times shop (daily_price product) quantity) as [e|by_quantity];
        [destruct e; eexists; reflexivity|]. cbn [vret].
      destruct (times shop by_quantity days) as [e|item_total];
        [destruct e; eexists; reflexivity|]. eexists. reflexivity. }
    destruct Hstep as [[e|step] Hstep].
    + eexists. apply vbind_halt. exact Hstep.
    + rewrite (vbind_step _ _ _ _ _ Hstep). apply IH; assumption.
Qed.

Lemma filter_same_length {X} (f : X -> bool) (l : list X) :
  length (List.filter f l) = length l -> List.filter f l = l.
Proof.
  induction l as [|x l IH]; simpl; [reflexivity|].
  destruct (f x); simpl; intros H.
  - f_equal. apply IH. lia.
  - pose proof (List.filter_length_le f l). lia.
Qed.

(** X18.  [cart_view] clears the cart of products that are gone.  On a
    database that answers, for a cart whose keys are numbers, whenever the
    view answers the cart holds afterwards exactly the entries whose
    product exists, in their order and with their contents - also the
    entries in a format the page does not show - and when no product is
    gone nothing at all is written. *)
Theorem cart_view_cleans (b b' : browser) (r : response amount) :
  db_plan b = [] ->
  NoDup (map fst (cart_of b)) ->
  Forall (fun kv => py_int rt (fst kv) <> None) (cart_of b) ->
  cart_view rt shop b = (inr r, b') ->
  cart_of b' = List.filter (fun kv => on_shelves rt shop (fst kv)) (cart_of b)
  /\ (Forall (fun kv => on_shelves rt shop (fst kv) = true) (cart_of b) -> b' = b).
Proof.
  intros Hplan Hnd Hkeys H. unfold cart_view in H.
  rewrite (vbind_step _ _ b (cart_of b) b) in H by reflexivity.
  destruct (cart_lines_calm (cart_of b) [] (zero shop) b Hplan Hkeys) as [[e|shown] Hl].
  { rewrite (vbind_halt _ _ _ _ _ Hl) in H. discriminate. }
  rewrite (vbind_step _ _ _ _ _ Hl) in H.
  rewrite (vbind_step _ _ _ _ _
             (existing_entries_calm (cart_of b) [] b Hplan Hkeys Hnd
                ltac:(intros k [])))
    in H.
  cbn [app] in H.
  set (valid := List.filter (fun kv => on_shelves rt shop (fst kv)) (cart_of b)) in *.
  destruct (bool_decide (length valid = length (cart_of b))) eqn:Elen.
  - apply bool_decide_eq_true in Elen. apply filter_same_length in Elen.
    rewrite (vbind_step _ _ b tt b) in H by reflexivity. inversion H. subst b'.
    split; [symmetry; exact Elen | reflexivity].
  - apply bool_decide_eq_false in Elen.
    unfold vbind in H. cbn [session_set_cart vret] in H. inversion H.
    split; [reflexivity|]. intros Hall. exfalso. apply Elen.
    f_equal. unfold valid. clear -Hall.
    induction Hall as [|kv l Hkv _ IH]; [reflexivity|].
    simpl. rewrite Hkv, IH. reflexivity.
Qed.

(** The invariant of the first loop of [cart_view]: lines are only added,
    each is well formed, and the total grows by the totals of the lines
    added. *)
Lemma cart_lines_totals : forall (items : pydict) cart_items total b shown b',
  cart_lines rt shop items cart_items total b = (inr shown, b') ->
  exists added,
    fst shown = cart_items ++ added
    /\ snd shown = fold_left (plus shop) (map line_total added) total
    /\ Forall (line_well_formed shop) added
    /\ (length added <= length items)%nat.
Proof.
  induction items as [|[key item] items IH]; intros cart_items total b shown b' H.
  - inversion H. exists []. cbn. rewrite app_nil_r. repeat split; auto.
  - cbn [cart_lines] in H.
    apply vbind_inr in H. destruct H as ([items1 total1] & b1 & Hstep & H).
    apply IH in H. destruct H as (added & Hfst & Hsnd & Hwf & Hlen).
    cbn [fst snd] in Hfst, Hsnd.
    assert (Hone : (items1 = cart_items /\ total1 = total)
                   \/ exists l, items1 = cart_items ++ [l]
                                /\ total1 = plus shop total (line_total l)
                                /\ line_well_formed shop l).
    { apply vtry_DoesNotExist_inr in Hstep.
      destruct Hstep as [Hbody|(b2 & _ & Hh)]; [|inversion Hh; auto].
      apply vbind_inr in Hbody. destruct Hbody as (product & b2 & Hp & Hbody).
      apply get_inr in Hp. destruct Hp as (_ & Hin & _). cbv zeta in Hbody.
      destruct (match item with
                | JObj fields =>
                    Some (dict_get_or fields (u "quantity") (JInt 1),
                          dict_get_or fields (u "days") (JInt 1))
                | _ => match int_value item with
                       | Some _ => Some (item, JInt 1)
                       | None => None
                       end
                end) as [[quantity days]|]; [|inversion Hbody; auto].
      apply vbind_inr in Hbody. destruct Hbody as (by_quantity & b3 & H1 & Hbody).
      apply vlift_inr in H1. destruct H1 as [-> H1].
      apply vbind_inr in Hbody. destruct Hbody as (item_total & b3 & H2 & Hbody).
      apply vlift_inr in H2. destruct H2 as [-> H2].
      inversion Hbody. right. exists (Line product quantity days item_total).
      repeat split; eauto. }
    destruct Hone as [[-> ->]|(l & -> & -> & Hl)].
    + exists added. cbn [length]. repeat split; auto.
    + exists (l :: added). rewrite <- app_assoc in Hfst. cbn [length].
      repeat split; auto. lia.
Qed.

(** X19.  The cart page adds up: whenever [cart_view] answers, on any fault
    plan, the total it shows is the sum, from the first line to the last,
    of the totals of the lines it shows; every line is a product of the
    catalog with its price times its quantity times its days; and there
    are at most as many lines as entries in the cart. *)
Theorem cart_view_total (b b' : browser) (cart_items : list (line amount))
    (total : amount) :
  cart_view rt shop b = (inr (Render_cart cart_items total), b') ->
  total = fold_left (plus shop) (map line_total cart_items) (zero shop)
  /\ Forall (line_well_formed shop) cart_items
  /\ (length cart_items <= length (cart_of b))%nat.
Proof.
  intros H. unfold cart_view in H.
  rewrite (vbind_step _ _ b (cart_of b) b) in H by reflexivity.
  apply vbind_inr in H. destruct H as (shown & b1 & Hl & H).
  apply cart_lines_totals in Hl. destruct Hl as (added & Hfst & Hsnd & Hwf & Hlen).
  apply vbind_inr in H. destruct H as (valid & b2 & _ & H).
  apply vbind_inr in H. destruct H as ([] & b3 & _ & H).
  inversion H. subst cart_items total. cbn [app] in Hfst. rewrite Hfst, Hsnd.
  repeat split; auto.
Qed.


(** X21.  A quantity that is no number is not caught.  On a POST whose
    quantity is a text [int(...)] refuses, [update_cart_quantity] raises
    [ValueError] at once and [add_to_cart] raises it as soon as the product
    is found, both before reading the cart; [update_cart_days], given days
    that are no number, flashes its error and answers with the redirect to
    the cart, the session untouched. *)
Theorem quantity_not_a_number (request : cart_request) (pid : Z) (b : browser)
    (product : stocked amount) (text : str) :
  method request = u "POST" ->
  POST_quantity request = Some text -> py_int rt text = None ->
  db_plan b = [] ->
  List.find (fun r => bool_decide (product_id (stocked_product r) = pid))
            (shelves shop) = Some product ->
  update_cart_quantity rt shop request b = (inl (Raised ValueError), b)
  /\ add_to_cart rt shop request pid b = (inl (Raised ValueError), b)
  /\ forall key days url,
       GET_product_id request = Some key -> key <> [] ->
       GET_days request = Some days -> days <> [] -> py_int rt days = None ->
       resolve_redirect shop (u "rental:cart") None = inr url ->
       update_cart_days rt shop request b
       = (inr (HttpResponseRedirect url),
          {| session_cart := session_cart b;
             session_use_smart_search := session_use_smart_search b;
             session_modified := session_modified b;
             notices := notices b ++ [Bad_days];
             db_plan := db_plan b |}).
Proof.
  intros Hm Hq Hint Hplan Hfind.
  assert (Hparam : int_param rt (POST_quantity request) b = (inl (Raised ValueError), b))
    by (unfold int_param; rewrite Hq, Hint; reflexivity).
  split; [|split].
  - unfold update_cart_quantity. rewrite (bool_decide_eq_true_2 _ Hm).
    apply vbind_halt. apply vbind_halt. exact Hparam.
  - unfold add_to_cart.
    rewrite (vbind_step _ _ b product b).
    2:{ unfold get_object_or_404, vtry_DoesNotExist.
        rewrite (get_int_calm pid product b Hplan Hfind). reflexivity. }
    rewrite (bool_decide_eq_true_2 _ Hm). apply vbind_halt. exact Hparam.
  - intros key days url Hkey Hkne Hdays Hdne Hdint Hurl.
    unfold update_cart_days. rewrite Hkey, Hdays.
    destruct key as [|c key]; [contradiction Hkne; reflexivity|].
    destruct days as [|c0 days]; [contradiction Hdne; reflexivity|].
    assert (Hck : checked_days rt shop (c0 :: days) b
                  = (inr (inl (HttpResponseRedirect url)),
                     {| session_cart := session_cart b;
                        session_use_smart_search := session_use_smart_search b;
                        session_modified := session_modified b;
                        notices := notices b ++ [Bad_days];
                        db_plan := db_plan b |})).
    { unfold checked_days, vtry_ValueError_TypeError. rewrite Hdint. cbn [vlift].
      rewrite (vbind_halt (vraise (Raised ValueError)) _ b (Raised ValueError) b eq_refl).
      unfold vbind, flash, redirect, vbind, vlift. rewrite Hurl. reflexivity. }
    rewrite (vbind_step _ _ _ _ _ Hck). reflexivity.
Qed.

End CartFacts.

(** ** Two requests in a row *)

Section CartJourneys.
Variable rt : runtime.
Variable amount : Type.
Variable shop : backoffice amount.

Lemma dict_pop_set (d : pydict) k v : dict_pop (dict_set d k v) k = dict_pop d k.
Proof.
  induction d as [|[k' v'] d IH]; simpl.
  - rewrite bool_decide_eq_true_2 by reflexivity. reflexivity.
  - destruct (bool_decide (k' = k)) eqn:E; simpl.
    + rewrite bool_decide_eq_true_2 by reflexivity. reflexivity.
    + rewrite E, IH. reflexivity.
Qed.

Lemma dict_pop_absent (d : pydict) k : dict_get d k = None -> dict_pop d k = d.
Proof.
  induction d as [|[k' v'] d IH]; simpl; [reflexivity|].
  destruct (bool_decide (k' = k)); [discriminate|]. intros H. rewrite IH by exact H.
  reflexivity.
Qed.

(** X22.  Adding a product and removing it again, on a database that
    answers: after a POST to [add_to_cart] that passes the stock checks
    and a request to [remove_from_cart] for the same product, the entry of
    the product is gone as a whole - with whatever quantity it held before
    the addition - and the other entries are as they were; when the product
    was not in the cart, the cart is the one before the two requests.  Both
    success messages are flashed, in this order. *)
Theorem add_then_remove (request request' : cart_request) (pid : Z) (b : browser)
    (product : stocked amount) (q d c : Z) (url url' : str) :
  db_plan b = [] ->
  List.find (fun r => bool_decide (product_id (stocked_product r) = pid))
            (shelves shop) = Some product ->
  method request = u "POST" ->
  posted_int rt (POST_quantity request) = Some q ->
  posted_int rt (POST_days request) = Some d ->
  int_value (quantity_in_cart (cart_of b) (str_of_int pid)) = Some c ->
  q <= available_quantity product ->
  c + q <= available_quantity product ->
  (match HTTP_REFERER request with
   | Some (ch :: referer) => resolve_redirect shop (ch :: referer) None
   | _ => resolve_redirect shop (u "rental:product_detail") (Some pid)
   end) = inr url ->
  resolve_redirect shop (u "rental:cart") None = inr url' ->
  exists b1,
    add_to_cart rt shop request pid b = (inr (HttpResponseRedirect url), b1)
    /\ remove_from_cart shop request' pid b1
       = (inr (HttpResponseRedirect url'),
          {| session_cart := Some (dict_pop (cart_of b) (str_of_int pid));
             session_use_smart_search := session_use_smart_search b;
             session_modified := true;
             notices := notices b
                        ++ [Added_to_cart (product_name (stocked_product product)) d;
                            Removed_from_cart (product_name (stocked_product product))];
             db_plan := [] |})
    /\ (dict_get (cart_of b) (str_of_int pid) = None ->
        dict_pop (cart_of b) (str_of_int pid) = cart_of b).
Proof.
  intros Hplan Hfind Hm Hq Hd Hc Hle1 Hle2 Hurl Hurl'.
  eexists. split; [|split].
  - exact (add_to_cart_calm rt amount shop request pid b product q d c url
             Hplan Hfind Hm Hq Hd Hc Hle1 Hle2 Hurl).
  - set (cart1 := dict_set (cart_of b) (str_of_int pid) (entry (JInt (c + q)) (JInt d))).
    set (b1 := {| session_cart := Some cart1;
                  session_use_smart_search := session_use_smart_search b;
                  session_modified := true;
                  notices := notices b
                             ++ [Added_to_cart (product_name (stocked_product product)) d];
                  db_plan := [] |}).
    unfold remove_from_cart.
    rewrite (vbind_step _ _ b1 cart1 b1) by reflexivity.
    assert (Hhas : dict_has cart1 (str_of_int pid) = true)
      by (unfold dict_has, cart1; rewrite dict_get_set_same; reflexivity).
    rewrite Hhas.
    assert (Hget : Product_objects_get_int shop pid b1 = (inr product, b1))
      by (apply get_int_calm; [reflexivity | exact Hfind]).
    assert (Hmid :
      vtry_DoesNotExist
        (product0 <~ Product_objects_get_int shop pid ;;
         session_set_cart (dict_pop cart1 (str_of_int pid)) ~;;
         flash (Removed_from_cart (product_name (stocked_product product0))))
        (session_set_cart (dict_pop cart1 (str_of_int pid)) ~;; flash Removed_unnamed)
        b1
      = (inr tt,
         {| session_cart := Some (dict_pop (cart_of b) (str_of_int pid));
            session_use_smart_search := session_use_smart_search b;
            session_modified := true;
            notices := (notices b
                        ++ [Added_to_cart (product_name (stocked_product product)) d])
                       ++ [Removed_from_cart (product_name (stocked_product product))];
            db_plan := [] |})).
    { unfold vtry_DoesNotExist. rewrite (vbind_step _ _ _ _ _ Hget).
      unfold cart1. rewrite dict_pop_set. reflexivity. }
    rewrite (vbind_step _ _ _ _ _ Hmid).
    unfold redirect, vbind, vlift. rewrite Hurl'. cbn [vret].
    rewrite <- app_assoc. reflexivity.
  - apply dict_pop_absent.
Qed.

(** The body of the first loop of [cart_view] for one entry, on a database
    that answers: its outcome does not depend on the session, which it
    leaves alone, and a product that is gone adds nothing. *)
Lemma cart_line_calm key n item (cart_items : list (line amount)) (total : amount)
    b1 b2 :
  db_plan b1 = [] -> db_plan b2 = [] -> py_int rt key = Some n ->
  exists o,
    (forall b, b = b1 \/ b = b2 ->
       vtry_DoesNotExist
         (product <~ Product_objects_get rt shop (Some key) ;;
          let format :=
            match item with
            | JObj fields =>
                Some (dict_get_or fields (u "quantity") (JInt 1),
                      dict_get_or fields (u "days") (JInt 1))
            | _ => match int_value item with
                   | Some _ => Some (item, JInt 1)
                   | None => None
                   end
            end in
          match format with
          | None => vret (cart_items, total)
          | Some (quantity, days) =>
              by_quantity <~ vlift (times shop (daily_price product) quantity) ;;
              item_total <~ vlift (times shop by_quantity days) ;;
              vret (cart_items ++ [Line product quantity days item_total],
                    plus shop total item_total)
          end)
         (vret (cart_items, total)) b = (o, b))
    /\ (on_shelves rt shop key = false -> o = inr (cart_items, total)).
Proof.
  intros Hplan1 Hplan2 Eint. unfold on_shelves. rewrite Eint.
  assert (Hget : forall b, b = b1 \/ b = b2 ->
            Product_objects_get rt shop (Some key) b
            = (match List.find (fun r => bool_decide (product_id (stocked_product r) = n))
                               (shelves shop) with
               | Some product => inr product
               | None => inl Product_DoesNotExist
               end, b)).
  { intros b [->| ->]; apply get_calm; assumption. }
  destruct (List.find _ (shelves shop)) as [product|].
  - destruct (match item with
              | JObj fields =>
                  Some (dict_get_or fields (u "quantity") (JInt 1),
                        dict_get_or fields (u "days") (JInt 1))
              | _ => match int_value item with
                     | Some _ => Some (item, JInt 1)
                     | None => None
                     end
              end) as [[quantity days]|].
    + destruct (times shop (daily_price product) quantity) as [e|by_quantity] eqn:E1.
      * destruct e; eexists; (split; [|discriminate]); intros b Hb;
          unfold vtry_DoesNotExist; rewrite (vbind_step _ _ _ _ _ (Hget b Hb));
          cbv beta zeta; unfold vbind, vlift; rewrite E1; reflexivity.
      * destruct (times shop by_quantity days) as [e|item_total] eqn:E2.
        -- destruct e; eexists; (split; [|discriminate]); intros b Hb;
             unfold vtry_DoesNotExist; rewrite (vbind_step _ _ _ _ _ (Hget b Hb));
             cbv beta zeta; unfold vbind, vlift; rewrite E1; cbn [vret];
             rewrite E2; reflexivity.
        -- eexists. split; [|discriminate]. intros b Hb.
           unfold vtry_DoesNotExist. rewrite (vbind_step _ _ _ _ _ (Hget b Hb)).
           cbv beta zeta. unfold vbind, vlift. rewrite E1. cbn [vret].
           rewrite E2. reflexivity.
    + eexists. split; [|discriminate]. intros b Hb.
      unfold vtry_DoesNotExist. rewrite (vbind_step _ _ _ _ _ (Hget b Hb)).
      reflexivity.
  - eexists. split; [|reflexivity]. intros b Hb.
    unfold vtry_DoesNotExist. rewrite (vbind_halt _ _ _ _ _ (Hget b Hb)). reflexivity.
Qed.

(** The first loop over the entries whose product exists does what it does
    over all entries. *)
Lemma cart_lines_skip_missing : forall (items : pydict) cart_items total b1 b2,
  db_plan b1 = [] -> db_plan b2 = [] ->
  Forall (fun kv => py_int rt (fst kv) <> None) items ->
  exists o,
    cart_lines rt shop (List.filter (fun kv => on_shelves rt shop (fst kv)) items)
               cart_items total b1 = (o, b1)
    /\ cart_lines rt shop items cart_items total b2 = (o, b2).
Proof.
  induction items as [|[key item] items IH]; intros cart_items total b1 b2 H1 H2 Hkeys.
  - eexists. split; reflexivity.
  - apply Forall_cons in Hkeys. destruct Hkeys as [Hkey Hkeys]. cbn [fst] in Hkey.
    destruct (py_int rt key) as [n|] eqn:Eint; [|contradiction Hkey; reflexivity].
    destruct (cart_line_calm key n item cart_items total b1 b2 H1 H2 Eint)
      as (o & Hstep & Hgone).
    cbn [List.filter fst].
    destruct (on_shelves rt shop key) eqn:Eon.
    + cbn [cart_lines]. destruct o as [e|step].
      * exists (inl e).
        split; apply vbind_halt; apply Hstep; auto.
      * destruct (IH (fst step) (snd step) b1 b2 H1 H2 Hkeys) as (o' & Ha & Hb).
        exists o'. split.
        -- rewrite (vbind_step _ _ _ _ _ (Hstep b1 (or_introl eq_refl))). exact Ha.
        -- rewrite (vbind_step _ _ _ _ _ (Hstep b2 (or_intror eq_refl))). exact Hb.
    + rewrite (Hgone eq_refl) in Hstep.
      destruct (IH cart_items total b1 b2 H1 H2 Hkeys) as (o' & Ha & Hb).
      exists o'. split; [exact Ha|].
      cbn [cart_lines].
      rewrite (vbind_step _ _ _ _ _ (Hstep b2 (or_intror eq_refl))). exact Hb.
Qed.

Lemma filter_twice {X} (f : X -> bool) (l : list X) :
  List.filter f (List.filter f l) = List.filter f l.
Proof.
  induction l as [|x l IH]; simpl; [reflexivity|].
  destruct (f x) eqn:E; simpl; [rewrite E, IH|]; auto.
Qed.

Lemma filter_keeps_NoDup (f : str * json -> bool) (d : pydict) :
  NoDup (map fst d) -> NoDup (map fst (List.filter f d)).
Proof.
  induction d as [|[k v] d IH]; simpl; [auto|].
  intros H. apply NoDup_cons in H. destruct H as [Hk Hd].
  destruct (f (k, v)); simpl; [|auto].
  apply NoDup_cons. split; [|auto].
  intros Hin. apply Hk. apply list_elem_of_In. apply list_elem_of_In in Hin.
  exact (filter_keys f d k Hin).
Qed.

(** X23.  Reloading the cart page.  On a database that answers, for a cart
    whose keys are numbers, once [cart_view] has answered, viewing the
    cart again gives the same lines and the same total and writes nothing:
    the clean-up is done by the first view, and dropping the entries of
    products that are gone changes nothing of what is shown. *)
Theorem cart_view_reload (b b' : browser) (r : response amount) :
  db_plan b = [] ->
  NoDup (map fst (cart_of b)) ->
  Forall (fun kv => py_int rt (fst kv) <> None) (cart_of b) ->
  cart_view rt shop b = (inr r, b') ->
  cart_view rt shop b' = (inr r, b').
Proof.
  intros Hplan Hnd Hkeys H.
  pose proof H as H0. unfold cart_view in H0.
  rewrite (vbind_step _ _ b (cart_of b) b) in H0 by reflexivity.
  destruct (cart_lines_calm rt amount shop (cart_of b) [] (zero shop) b Hplan Hkeys)
    as [[e|shown] Hl].
  { rewrite (vbind_halt _ _ _ _ _ Hl) in H0. discriminate. }
  rewrite (vbind_step _ _ _ _ _ Hl) in H0.
  rewrite (vbind_step _ _ _ _ _
             (existing_entries_calm rt amount shop (cart_of b) [] b Hplan Hkeys Hnd
                ltac:(intros k [])))
    in H0.
  cbn [app] in H0.
  set (valid := List.filter (fun kv => on_shelves rt shop (fst kv)) (cart_of b)) in *.
  destruct (bool_decide (length valid = length (cart_of b))) eqn:Elen.
  { rewrite (vbind_step _ _ b tt b) in H0 by reflexivity. inversion H0. subst b' r.
    exact H. }
  unfold vbind in H0. cbn [session_set_cart vret] in H0. inversion H0. subst b' r.
  clear H0 H.
  set (b2 := {| session_cart := Some valid;
                session_use_smart_search := session_use_smart_search b;
                session_modified := true;
                notices := notices b;
                db_plan := db_plan b |}).
  assert (Hplan2 : db_plan b2 = []) by exact Hplan.
  assert (Hkeys2 : Forall (fun kv => py_int rt (fst kv) <> None) valid).
  { unfold valid. clear -Hkeys. induction Hkeys as [|kv l Hkv _ IH]; simpl; [constructor|].
    destruct (on_shelves rt shop (fst kv)); [constructor|]; assumption. }
  assert (Hnd2 : NoDup (map fst valid)) by (apply filter_keeps_NoDup; exact Hnd).
  destruct (cart_lines_skip_missing (cart_of b) [] (zero shop) b2 b Hplan2 Hplan Hkeys)
    as (o & Ha & Hb).
  rewrite Hl in Hb. inversion Hb. subst o. clear Hb. fold valid in Ha.
  unfold cart_view.
  rewrite (vbind_step _ _ b2 valid b2) by reflexivity.
  rewrite (vbind_step _ _ _ _ _ Ha).
  rewrite (vbind_step _ _ _ _ _
             (existing_entries_calm rt amount shop valid [] b2 Hplan2 Hkeys2 Hnd2
                ltac:(intros k []))).
  cbn [app].
  assert (Hvv : List.filter (fun kv => on_shelves rt shop (fst kv)) valid = valid)
    by apply filter_twice.
  rewrite Hvv.
  rewrite bool_decide_eq_true_2 by reflexivity.
  rewrite (vbind_step _ _ b2 tt b2) by reflexivity. reflexivity.
Qed.

End CartJourneys.

(* ------------------------------------------------------------------ *)
(** * The further properties at work on the samples *)

(** No credential and a database that refuses the first query. *)
Lemma service_raises_database_errors_only_witness :
  exists e,
    outcome (search_with_chatgpt Sample.platform (Sample.shop LlmRaises)
               Sample.unconfigured (u "lamp") [0%nat]) = inl e
    /\ e = OperationalError.
Proof.
  exists OperationalError. split; [vm_compute; reflexivity|].
  apply (service_raises_database_errors_only Sample.platform (Sample.shop LlmRaises)
           Sample.unconfigured (u "lamp") [0%nat] OperationalError).
  left. vm_compute. reflexivity.
Defined.

(** The reply that ranks 5, 2, 9 and invents 77. *)
Lemma search_returns_ranked_ids_witness :
  outcome (search_with_chatgpt Sample.platform
             (Sample.shop (LlmContent Sample.ranked_reply))
             Sample.configured (u "seat") [])
  = inr (List.filter
           (fun n => bool_decide
                       (n ∈ map product_id
                              (catalog (Sample.shop (LlmContent Sample.ranked_reply)))))
           [5; 2; 9; 77]).
Proof.
  apply (search_returns_ranked_ids Sample.platform
           (Sample.shop (LlmContent Sample.ranked_reply)) Sample.configured
           (u "seat") Sample.ranked_reply
           (JObj [(u "relevant_products", JArr [JInt 5; JInt 2; JInt 9; JInt 77])])
           [5; 2; 9; 77]);
    try (vm_compute; reflexivity).
  vm_compute. discriminate.
Defined.

(** The LLM answers a bare list instead of an object. *)
Lemma search_discards_misshapen_answer_witness :
  outcome (search_with_chatgpt Sample.platform
             (Sample.shop (LlmContent SampleCart.bare_list_reply))
             Sample.configured (u "lamp") [])
  = inr (literal_match Sample.platform
           (Sample.shop (LlmContent SampleCart.bare_list_reply)) (u "lamp")).
Proof.
  apply (search_discards_misshapen_answer Sample.platform
           (Sample.shop (LlmContent SampleCart.bare_list_reply)) Sample.configured
           (u "lamp") SampleCart.bare_list_reply (JArr [JInt 5; JInt 2]));
    try (vm_compute; reflexivity).
  - discriminate.
  - left. eexists. reflexivity.
Defined.

(** "lamp" matches the lamp and the microphone, in store order. *)
Lemma fallback_search_keeps_store_order_witness :
  sublist [2; 9] (map product_id (catalog (Sample.shop LlmRaises)))
  /\ (NoDup (map product_id (catalog (Sample.shop LlmRaises))) -> NoDup [2; 9]).
Proof.
  apply (fallback_search_keeps_store_order Sample.platform (Sample.shop LlmRaises)
           (u "lamp") []).
  vm_compute. reflexivity.
Defined.

(** Settings with a credential. *)
Lemma probe_reports_a_configured_service_witness :
  smart_search_status Sample.platform Sample.with_key
  = {| status_available := true; status_configured := true;
       status_error := None |}.
Proof.
  apply (probe_reports_a_configured_service Sample.platform Sample.with_key).
  vm_compute. reflexivity.
Defined.

(** A query of two spaces, on a database that would refuse a query. *)
Lemma smart_search_blank_query_witness :
  smart_search Sample.platform (Sample.shop LlmRaises) Sample.configured
               (u "  ") [0%nat]
  = Run (inr QuerySet_none) [0%nat] [].
Proof.
  apply (smart_search_blank_query Sample.platform (Sample.shop LlmRaises)
           Sample.configured (u "  ") [0%nat]).
  repeat constructor.
Defined.

(** "seat" ranked 5, 2, 9 by the LLM, filtered by the tag of the lamp and
    the microphone: the chair goes, the lamp stays before the microphone. *)
Lemma tag_filter_keeps_search_order_witness :
  outcome (product_list Sample.platform
             (Sample.shop (LlmContent Sample.ranked_reply))
             Sample.configured SampleCart.seat_with_light_tag [])
  = inr {| ctx_products := PyList [Sample.lamp; Sample.mic];
           ctx_root_tags := By_order_then_name;
           ctx_selected_tag := u "1";
           ctx_selected_tag_obj := Some Sample.light_tag;
           ctx_selected_tag_children := Some By_order_then_name;
           ctx_search_query := u "seat";
           ctx_search_type := "smart_tag" |}.
Proof.
  exact (tag_filter_keeps_search_order Sample.platform
           (Sample.shop (LlmContent Sample.ranked_reply))
           Sample.configured SampleCart.seat_with_light_tag (u "1") 1
           Sample.light_tag (Ordered [Sample.chair; Sample.lamp; Sample.mic])
           ltac:(vm_compute; discriminate) eq_refl ltac:(discriminate)
           eq_refl eq_refl ltac:(vm_compute; reflexivity)).
Defined.

(** The tag of the lamp and the microphone, no search. *)
Lemma tag_filter_alone_witness :
  ctx_search_type
    match outcome (product_list Sample.platform (Sample.shop LlmRaises)
                     Sample.unconfigured SampleCart.light_tag_only []) with
    | inr ctx => ctx
    | inl _ => {| ctx_products := PyList []; ctx_root_tags := By_name;
                  ctx_selected_tag := []; ctx_selected_tag_obj := None;
                  ctx_selected_tag_children := None; ctx_search_query := [];
                  ctx_search_type := "" |}
    end
  = "tag"%string.
Proof.
  rewrite (tag_filter_alone Sample.platform (Sample.shop LlmRaises)
             Sample.unconfigured SampleCart.light_tag_only (u "1") 1 Sample.light_tag
             eq_refl eq_refl ltac:(discriminate) eq_refl eq_refl).
  reflexivity.
Defined.

(** "lamp" without a credential: the literal matcher ran, the page says
    "smart". *)
Lemma product_list_modes_witness :
  exists ctx,
    outcome (product_list Sample.platform (Sample.shop LlmRaises)
               Sample.unconfigured Sample.search_lamp []) = inr ctx
    /\ ctx_search_type ctx = "smart"%string.
Proof.
  eexists. split; [vm_compute; reflexivity|].
  apply (product_list_modes Sample.platform (Sample.shop LlmRaises)
           Sample.unconfigured Sample.search_lamp []).
  vm_compute. reflexivity.
Defined.

(** [?tag=abc] *)
Lemma product_list_failures_witness :
  (ValueError = AttributeError "expand_search_query"
   /\ py_strip Sample.platform (get_or (GET_search Sample.tag_abc) []) <> [])
  \/ (ValueError = ValueError
      /\ get_or (GET_tag Sample.tag_abc) [] <> []
      /\ py_int Sample.platform (get_or (GET_tag Sample.tag_abc) []) = None)
  \/ (ValueError = OperationalError /\ get_or (GET_tag Sample.tag_abc) [] <> []).
Proof.
  apply (product_list_failures Sample.platform (Sample.shop LlmRaises)
           Sample.unconfigured Sample.tag_abc [] ValueError).
  vm_compute. reflexivity.
Defined.

(** The chair, which the catalog no longer has, is removed from the cart. *)
Lemma remove_from_cart_pops_witness :
  session_cart
    (snd (remove_from_cart SampleCart.office (SampleCart.post None None) 5
            SampleCart.shopper))
  = Some [ (u "2", entry (JInt 2) (JInt 3)); (u "9", JInt 1) ].
Proof.
  refine (proj1 (remove_from_cart_pops Z SampleCart.office
                   (SampleCart.post None None) 5 SampleCart.shopper _
                   (HttpResponseRedirect (u "/cart/")) _)).
  vm_compute. reflexivity.
Defined.

(** Two lamps in the cart, two more asked for, four in stock. *)
Lemma add_to_cart_respects_stock_witness :
  same_session SampleCart.shopper
    (snd (add_to_cart Sample.platform SampleCart.office
            SampleCart.two_more_lamps 2 SampleCart.shopper))
  \/ exists product quantity days wanted,
       In product (shelves SampleCart.office)
       /\ product_id (stocked_product product) = 2
       /\ method SampleCart.two_more_lamps = u "POST"
       /\ posted_int Sample.platform (POST_quantity SampleCart.two_more_lamps)
          = Some quantity
       /\ posted_int Sample.platform (POST_days SampleCart.two_more_lamps)
          = Some days
       /\ py_add_int (quantity_in_cart (cart_of SampleCart.shopper) (str_of_int 2))
                     quantity
          = inr wanted
       /\ py_gt_int wanted (available_quantity product) = inr false
       /\ (forall q, wanted = JInt q -> q <= available_quantity product)
       /\ session_cart
            (snd (add_to_cart Sample.platform SampleCart.office
                    SampleCart.two_more_lamps 2 SampleCart.shopper))
          = Some (dict_set (cart_of SampleCart.shopper) (str_of_int 2)
                           (entry wanted (JInt days)))
       /\ forall k, k <> str_of_int 2 ->
            dict_get
              (cart_of (snd (add_to_cart Sample.platform SampleCart.office
                               SampleCart.two_more_lamps 2 SampleCart.shopper))) k
            = dict_get (cart_of SampleCart.shopper) k.
Proof.
  apply (add_to_cart_respects_stock Sample.platform Z SampleCart.office
           SampleCart.two_more_lamps 2 SampleCart.shopper _
           (HttpResponseRedirect (u "/catalog/"))).
  vm_compute. reflexivity.
Defined.

(** The same request: the entry of the lamp becomes 2 + 2 for 3 days. *)
Lemma add_to_cart_stores_witness :
  add_to_cart Sample.platform SampleCart.office SampleCart.two_more_lamps 2
              SampleCart.shopper
  = (inr (HttpResponseRedirect (u "/catalog/")),
     {| session_cart := Some (dict_set (cart_of SampleCart.shopper) (str_of_int 2)
                                       (entry (JInt (2 + 2)) (JInt 3)));
        session_use_smart_search := session_use_smart_search SampleCart.shopper;
        session_modified := true;
        notices := notices SampleCart.shopper
                   ++ [Added_to_cart
                         (product_name (stocked_product SampleCart.stocked_lamp)) 3];
        db_plan := [] |}).
Proof.
  apply (add_to_cart_stores Sample.platform Z SampleCart.office
           SampleCart.two_more_lamps 2 SampleCart.shopper SampleCart.stocked_lamp
           2 3 2 (u "/catalog/"));
    try (vm_compute; reflexivity); vm_compute; discriminate.
Defined.



(** The cart with the chair that is gone: the page drops its entry and
    keeps the other two, the old-format one included. *)
Lemma cart_view_cleans_witness :
  cart_of (snd (cart_view Sample.platform SampleCart.office SampleCart.shopper))
  = [ (u "2", entry (JInt 2) (JInt 3)); (u "9", JInt 1) ].
Proof.
  refine (proj1 (cart_view_cleans Sample.platform Z SampleCart.office
                   SampleCart.shopper _
                   (fst (B := browser) (Render_cart _ _, SampleCart.shopper))
                   eq_refl _ _ _)).
  - vm_compute. apply (bool_decide_unpack _). vm_compute. exact I.
  - repeat constructor; vm_compute; discriminate.
  - vm_compute. reflexivity.
Defined.

(** Two lamps for three days at 1500 and one microphone for one day at
    900: 9900. *)
Lemma cart_view_total_witness :
  exists cart_items,
    fst (cart_view Sample.platform SampleCart.office SampleCart.shopper)
    = inr (Render_cart cart_items 9900)
    /\ 9900 = fold_left Z.add (map line_total cart_items) 0
    /\ Forall (line_well_formed SampleCart.office) cart_items
    /\ (length cart_items <= 3)%nat.
Proof.
  eexists. split; [vm_compute; reflexivity|].
  apply (cart_view_total Sample.platform Z SampleCart.office SampleCart.shopper
           (snd (cart_view Sample.platform SampleCart.office SampleCart.shopper))).
  vm_compute. reflexivity.
Defined.

(** Quantity "x" and days "x". *)
Lemma quantity_not_a_number_witness :
  update_cart_quantity Sample.platform SampleCart.office SampleCart.garbled
                       SampleCart.shopper
  = (inl (Raised ValueError), SampleCart.shopper)
  /\ add_to_cart Sample.platform SampleCart.office SampleCart.garbled 2
                 SampleCart.shopper
     = (inl (Raised ValueError), SampleCart.shopper)
  /\ update_cart_days Sample.platform SampleCart.office SampleCart.garbled
                      SampleCart.shopper
     = (inr (HttpResponseRedirect (u "/cart/")),
        {| session_cart := session_cart SampleCart.shopper;
           session_use_smart_search := session_use_smart_search SampleCart.shopper;
           session_modified := session_modified SampleCart.shopper;
           notices := notices SampleCart.shopper ++ [Bad_days];
           db_plan := db_plan SampleCart.shopper |}).
Proof.
  pose proof (quantity_not_a_number Sample.platform Z SampleCart.office
                SampleCart.garbled 2 SampleCart.shopper SampleCart.stocked_lamp
                (u "x") eq_refl eq_refl eq_refl eq_refl eq_refl) as H.
  refine (conj (proj1 H) (conj (proj1 (proj2 H)) _)).
  apply (proj2 (proj2 H) (u "9") (u "x") (u "/cart/")); try reflexivity;
    vm_compute; discriminate.
Defined.

(** Two more lamps, then the lamps removed: the entry with all four is
    gone, the microphone and the chair stay. *)
Lemma add_then_remove_witness :
  exists b1,
    add_to_cart Sample.platform SampleCart.office SampleCart.two_more_lamps 2
                SampleCart.shopper
    = (inr (HttpResponseRedirect (u "/catalog/")), b1)
    /\ remove_from_cart SampleCart.office (SampleCart.post None None) 2 b1
       = (inr (HttpResponseRedirect (u "/cart/")),
          {| session_cart := Some (dict_pop (cart_of SampleCart.shopper) (str_of_int 2));
             session_use_smart_search := session_use_smart_search SampleCart.shopper;
             session_modified := true;
             notices :=
               notices SampleCart.shopper
               ++ [Added_to_cart
                     (product_name (stocked_product SampleCart.stocked_lamp)) 3;
                   Removed_from_cart
                     (product_name (stocked_product SampleCart.stocked_lamp))];
             db_plan := [] |})
    /\ (dict_get (cart_of SampleCart.shopper) (str_of_int 2) = None ->
        dict_pop (cart_of SampleCart.shopper) (str_of_int 2)
        = cart_of SampleCart.shopper).
Proof.
  apply (add_then_remove Sample.platform Z SampleCart.office
           SampleCart.two_more_lamps (SampleCart.post None None) 2
           SampleCart.shopper SampleCart.stocked_lamp 2 3 2
           (u "/catalog/") (u "/cart/"));
    try (vm_compute; reflexivity); vm_compute; discriminate.
Defined.

(** The cart with the chair that is gone, viewed twice. *)
Lemma cart_view_reload_witness :
  exists r,
    fst (cart_view Sample.platform SampleCart.office SampleCart.shopper) = inr r
    /\ cart_view Sample.platform SampleCart.office
         (snd (cart_view Sample.platform SampleCart.office SampleCart.shopper))
       = (inr r, snd (cart_view Sample.platform SampleCart.office SampleCart.shopper)).
Proof.
  eexists. split; [vm_compute; reflexivity|].
  apply (cart_view_reload Sample.platform Z SampleCart.office SampleCart.shopper).
  - reflexivity.
  - vm_compute. apply (bool_decide_unpack _). vm_compute. exact I.
  - repeat constructor; vm_compute; discriminate.
  - vm_compute. reflexivity.
Defined.
